(** * merge-sync: duration extraction and resynchronisation (syncmeg3.py)

    A shallow embedding of [src/syncmeg3.py] and the properties its
    specification states about it.

    Modelling conventions.
    - A Python [str] is a [string]; its characters are read as code points
      below 256.
    - A Python [float] is a binary64 value, [spec_float] at precision 53 and
      exponent bound 1024; the arithmetic is the Standard Library's
      specification of IEEE-754 ([SFadd], [SFltb], ...).
    - A Python [int] is a [Z].
    - Text built by an f-string keeps the values it formats: a [text] is the
      list of its pieces, and the rendering of a float, of a non-string
      value or of a built-in error is left to the interpreter ([PFloat],
      [PValue], [PError]).
    - The outside world (file system, the two mkvmerge runs, [json.loads],
      [os.listdir]) is an [Env]: oracles over an abstract world state.
    - Statements that run are in the monad [M]: state passing over the world,
      the log file and the list of spawned commands, with Python exceptions
      as the [Raise] result. Every exception here is an [Exception].
    - [os.getcwd()] and the append of [write_log] can raise like any other
      call. The program is written over a [Host], which says when they do;
      these are the definitions of [Source]. The same names without
      [Source.] are the program on the [reliable] host, where the working
      directory can be read and the log takes every message. The statements
      about what is returned, logged and run on a path of the program are
      about the reliable host; the statements about which exceptions reach
      a caller are about every host. *)

From Stdlib Require Import ZArith List Bool Ascii String Lia.
From Stdlib Require Import Floats.
Import ListNotations.

Local Open Scope string_scope.
Local Open Scope Z_scope.

(** ** Characters and strings *)

Module Str.

Definition code (c : ascii) : Z := Z.of_N (N_of_ascii c).

Definition is_digit (c : ascii) : bool := (48 <=? code c) && (code c <=? 57).

Definition digit_val (c : ascii) : Z := code c - 48.

Definition is_dot (c : ascii) : bool := Ascii.eqb c ".".

(** Whitespace as [int()] and [float()] strip it from a [str]: the ASCII
    blanks, and the two code points below 256 that are Unicode whitespace
    without being ASCII (U+0085, U+00A0). *)
Definition is_space (c : ascii) : bool :=
  let n := code c in
  ((9 <=? n) && (n <=? 13)) || (n =? 32) || (n =? 133) || (n =? 160).

(** [str.lower()] on one code point below 256. *)
Definition lower_char (c : ascii) : ascii :=
  let n := code c in
  if ((65 <=? n) && (n <=? 90))
     || ((192 <=? n) && (n <=? 222) && negb (n =? 215))
  then ascii_of_N (Z.to_N (n + 32)) else c.

Fixpoint lower (s : string) : string :=
  match s with
  | EmptyString => EmptyString
  | String c s' => String (lower_char c) (lower s')
  end.

Fixpoint all_chars (p : ascii -> bool) (s : string) : bool :=
  match s with
  | EmptyString => true
  | String c s' => p c && all_chars p s'
  end.

Fixpoint contains (c : ascii) (s : string) : bool :=
  match s with
  | EmptyString => false
  | String a s' => Ascii.eqb a c || contains c s'
  end.

Fixpoint drop_while (p : ascii -> bool) (s : string) : string :=
  match s with
  | EmptyString => EmptyString
  | String c s' => if p c then drop_while p s' else s
  end.

(** Drops the longest suffix of characters satisfying [p]. *)
Fixpoint drop_while_end (p : ascii -> bool) (s : string) : string :=
  match s with
  | EmptyString => EmptyString
  | String c s' =>
      match drop_while_end p s' with
      | EmptyString => if p c then EmptyString else String c EmptyString
      | r => String c r
      end
  end.

Definition strip (s : string) : string :=
  drop_while_end is_space (drop_while is_space s).

(** [s.split(sep)] for a one-character separator: never empty, one more
    part than there are separators. *)
Fixpoint split (sep : ascii) (s : string) : list string :=
  match s with
  | EmptyString => [EmptyString]
  | String c s' =>
      if Ascii.eqb c sep then EmptyString :: split sep s'
      else match split sep s' with
           | p :: ps => String c p :: ps
           | [] => [String c EmptyString]
           end
  end.

(** [s[:n]] and [s[n:]] for [0 <= n]. *)
Fixpoint take (n : nat) (s : string) : string :=
  match n, s with
  | S n', String c s' => String c (take n' s')
  | _, _ => EmptyString
  end.

Fixpoint drop (n : nat) (s : string) : string :=
  match n, s with
  | S n', String _ s' => drop n' s'
  | _, _ => s
  end.

Definition slice_to (s : string) (i : Z) : string := take (Z.to_nat i) s.
Definition slice_from (s : string) (i : Z) : string := drop (Z.to_nat i) s.

(** [s[i:i+1]]: the empty string past the end. *)
Definition char_at (s : string) (i : Z) : string :=
  take 1 (drop (Z.to_nat i) s).

(** [s.rfind(c)]: the highest index of [c], or [-1]. *)
Fixpoint rfind_from (c : ascii) (s : string) (i last : Z) : Z :=
  match s with
  | EmptyString => last
  | String a s' => rfind_from c s' (i + 1) (if Ascii.eqb a c then i else last)
  end.

Definition rfind (c : ascii) (s : string) : Z := rfind_from c s 0 (-1).

(** [s.endswith(suffix)]. *)
Definition endswith (s suffix : string) : bool :=
  let n := String.length s in
  let k := String.length suffix in
  (k <=? n)%nat && String.eqb (drop (n - k) s) suffix.

End Str.

(** ** Numbers as Python reads and rounds them *)

Module Num.

Definition prec : Z := 53.
Definition emax : Z := 1024.

Definition float : Type := spec_float.

Definition fzero : float := S754_zero false.

Definition fadd : float -> float -> float := SFadd prec emax.
Definition flt : float -> float -> bool := SFltb.

(** Digits with single underscores between them (PEP 515), as [int()]
    accepts them; [prev] tells whether the previous character was a digit.
    The value read so far is [acc]. *)
Fixpoint scan_digits (prev : bool) (acc : Z) (s : string) : option Z :=
  match s with
  | EmptyString => if prev then Some acc else None
  | String c s' =>
      if Str.is_digit c then scan_digits true (acc * 10 + Str.digit_val c) s'
      else if Ascii.eqb c "_" then
        (if prev then scan_digits false acc s' else None)
      else None
  end.

(** An optional leading sign: [(negative, rest)]. *)
Definition split_sign (s : string) : bool * string :=
  match s with
  | String "-" s' => (true, s')
  | String "+" s' => (false, s')
  | _ => (false, s)
  end.

Fixpoint count_digits (s : string) : Z :=
  match s with
  | EmptyString => 0
  | String c s' => (if Str.is_digit c then 1 else 0) + count_digits s'
  end.

(** The interpreter's default limit on the digits of an [int] read from
    text ([sys.get_int_max_str_digits()]). *)
Definition int_max_str_digits : Z := 4300.

(** [int(s)] for a [str], base 10; [None] is [ValueError]. *)
Definition py_int (s : string) : option Z :=
  let (neg, body) := split_sign (Str.strip s) in
  match scan_digits false 0 body with
  | Some n =>
      if count_digits body <=? int_max_str_digits
      then Some (if neg then - n else n) else None
  | None => None
  end.

(** The binary64 value nearest to [m * 10 ^ e10] (ties to even) for
    [0 <= m], with the sign [neg]; beyond the range it is an infinity. *)
Definition of_decimal (neg : bool) (m e10 : Z) : float :=
  match m with
  | Zpos _ =>
      if 0 <=? e10 then
        binary_normalize prec emax (cond_Zopp neg (m * 10 ^ e10)) 0 neg
      else
        let '(q, e, l) := SFdiv_core_binary prec emax m 0 (10 ^ (- e10)) 0 in
        binary_round_aux prec emax neg q e l
  | _ => S754_zero neg
  end.

(** A run of digits: [(value so far, number of digits, rest)]. *)
Fixpoint read_digits (acc : Z) (n : Z) (s : string) : Z * Z * string :=
  match s with
  | String c s' =>
      if Str.is_digit c then read_digits (acc * 10 + Str.digit_val c) (n + 1) s'
      else (acc, n, s)
  | EmptyString => (acc, n, s)
  end.

(** The exponent part after the mantissa: nothing, or [e]/[E], an optional
    sign and at least one digit, up to the end of the text. *)
Definition read_exponent (s : string) : option Z :=
  match s with
  | EmptyString => Some 0
  | String c s' =>
      if Ascii.eqb c "e" || Ascii.eqb c "E" then
        let (neg, ds) := split_sign s' in
        match read_digits 0 0 ds with
        | (v, n, EmptyString) =>
            if 0 <? n then Some (if neg then - v else v) else None
        | _ => None
        end
      else None
  end.

(** A decimal literal without sign: digits, an optional point and more
    digits (at least one digit in all), an optional exponent. *)
Definition read_decimal (neg : bool) (s : string) : option float :=
  let '(ip, ni, r1) := read_digits 0 0 s in
  let '(m, nf, r2) :=
    match r1 with
    | String "." r => read_digits ip 0 r
    | _ => (ip, 0, r1)
    end in
  if 0 <? ni + nf then
    match read_exponent r2 with
    | Some e => Some (of_decimal neg m (e - nf))
    | None => None
    end
  else None.

(** Underscores are legal only between two digits; [prev] is the previous
    character. The result is the text without them. *)
Fixpoint strip_underscores (prev : option ascii) (s : string) : option string :=
  match s with
  | EmptyString =>
      match prev with
      | Some "_"%char => None
      | _ => Some EmptyString
      end
  | String c s' =>
      if Ascii.eqb c "_" then
        match prev with
        | Some p => if Str.is_digit p then strip_underscores (Some c) s' else None
        | None => None
        end
      else
        match prev with
        | Some "_"%char =>
            if Str.is_digit c then option_map (String c) (strip_underscores (Some c) s')
            else None
        | _ => option_map (String c) (strip_underscores (Some c) s')
        end
  end.

(** [float(s)] for a [str]; [None] is [ValueError]. *)
Definition py_float (s : string) : option float :=
  match strip_underscores None (Str.strip s) with
  | None => None
  | Some t =>
      let (neg, body) := split_sign t in
      let w := Str.lower body in
      if String.eqb w "inf" || String.eqb w "infinity" then Some (S754_infinity neg)
      else if String.eqb w "nan" then Some S754_nan
      else read_decimal neg body
  end.

(** The integer nearest to [a / 2 ^ k], ties to even, for [0 <= a]. *)
Definition div_pow2_even (a : Z) (k : Z) : Z :=
  let d := 2 ^ k in
  let q := a / d in
  let r := a mod d in
  match 2 * r ?= d with
  | Lt => q
  | Gt => q + 1
  | Eq => if Z.even q then q else q + 1
  end.

(** [round(x, 4)]: the exact value of [x], rounded to four decimals (ties
    to even), then read back as a float. Infinities and NaN round to
    themselves. *)
Definition round4 (x : float) : float :=
  match x with
  | S754_finite s m e =>
      let n := if 0 <=? e then Zpos m * 10 ^ 4 * 2 ^ e
               else div_pow2_even (Zpos m * 10 ^ 4) (- e) in
      of_decimal s n (-4)
  | _ => x
  end.

(** The binary64 value nearest to an integer (ties to even). *)
Definition nearest (z : Z) : float := binary_normalize prec emax z 0 false.

(** An [int] converted for arithmetic with a [float]; [None] is
    [OverflowError] (int too large to convert to float). *)
Definition float_of_int (z : Z) : option float :=
  match nearest z with
  | S754_infinity _ => None
  | f => Some f
  end.

End Num.

Local Open Scope list_scope.

(** ** Values decoded by [json.loads] *)

#[warnings="-register-all"]
Inductive json : Type :=
| JNull
| JBool (b : bool)
| JInt (n : Z)
| JFloat (x : Num.float)
| JStr (s : string)
| JList (items : list json)
| JDict (entries : list (string * json)).

(** The keys of a Python dict are distinct; an entry is found by its key. *)
Fixpoint dict_lookup (key : string) (entries : list (string * json)) : option json :=
  match entries with
  | [] => None
  | (k, v) :: rest => if String.eqb k key then Some v else dict_lookup key rest
  end.

(** [v == s] and [v != s] for a string literal [s]. *)
Definition eq_str (v : json) (s : string) : bool :=
  match v with
  | JStr t => String.eqb t s
  | _ => false
  end.

(** ** Formatted text *)

(** What the interpreter reports when a built-in operation fails; the
    wording of the report is the interpreter's. *)
Inductive builtin_error : Type :=
| BadInt (s : string)
| BadFloat (s : string)
| IntTooLarge
| NoAttribute (v : json) (attr : string)
| NotIterable (v : json).

(** One piece of an f-string: literal characters, [str(x)] of a float,
    [str(v)] of a value that is not a string, or the text of a built-in
    error. The last three are never empty. *)
Inductive piece : Type :=
| PStr (s : string)
| PFloat (x : Num.float)
| PValue (v : json)
| PError (err : builtin_error).

Definition text : Type := list piece.

Definition lit (s : string) : text := [PStr s].

Definition nl : string := String "010"%char EmptyString.

(** [message + "\n"], what one call of [write_log] appends. *)
Definition log_line (message : text) : text := message ++ lit nl.

(** [f"{v}"] for a decoded value. *)
Definition str_of_value (v : json) : text :=
  match v with
  | JStr s => [PStr s]
  | _ => [PValue v]
  end.

(** [f"{x}"] for a duration that may be [None]. *)
Definition str_of_duration (x : option Num.float) : text :=
  match x with
  | Some d => [PFloat d]
  | None => [PStr "None"]
  end.

Definition piece_nonempty (p : piece) : bool :=
  match p with
  | PStr s => negb (String.eqb s "")
  | PFloat _ | PValue _ | PError _ => true
  end.

(** A string is true when it is not empty. *)
Definition truthy (t : text) : bool := existsb piece_nonempty t.

(** ** Exceptions and results *)

Record exn : Type := mk_exn { exn_class : string; exn_msg : text }.

Inductive result (A : Type) : Type :=
| Ok (a : A)
| Raise (e : exn).
Arguments Ok {A} a.
Arguments Raise {A} e.

Definition rbind {A B : Type} (r : result A) (k : A -> result B) : result B :=
  match r with
  | Ok a => k a
  | Raise e => Raise e
  end.

Definition ValueError (msg : text) : exn := mk_exn "ValueError" msg.
Definition OverflowError : exn := mk_exn "OverflowError" [PError IntTooLarge].
Definition AttributeError (v : json) (attr : string) : exn :=
  mk_exn "AttributeError" [PError (NoAttribute v attr)].
Definition TypeError (v : json) : exn := mk_exn "TypeError" [PError (NotIterable v)].

(** [int(s)] and [float(s)] with their exceptions. *)
Definition int_of (s : string) : result Z :=
  match Num.py_int s with
  | Some n => Ok n
  | None => Raise (ValueError [PError (BadInt s)])
  end.

Definition float_of (s : string) : result Num.float :=
  match Num.py_float s with
  | Some x => Ok x
  | None => Raise (ValueError [PError (BadFloat s)])
  end.

(** [n + x] for an [int] and a [float]. *)
Definition int_plus_float (n : Z) (x : Num.float) : result Num.float :=
  match Num.float_of_int n with
  | Some f => Ok (Num.fadd f x)
  | None => Raise OverflowError
  end.

(** [v.split(":")]. *)
Definition split_colon (v : json) : result (list string) :=
  match v with
  | JStr s => Ok (Str.split ":" s)
  | _ => Raise (AttributeError v "split")
  end.

(** [v.get(key, default)]. *)
Definition get (v : json) (key : string) (default : json) : result json :=
  match v with
  | JDict entries =>
      Ok (match dict_lookup key entries with Some x => x | None => default end)
  | _ => Raise (AttributeError v "get")
  end.

Fixpoint chars (s : string) : list json :=
  match s with
  | EmptyString => []
  | String c s' => JStr (String c EmptyString) :: chars s'
  end.

(** The items a [for] loop visits: the elements of a list, the keys of a
    dict, the characters of a string. *)
Definition iterate (v : json) : result (list json) :=
  match v with
  | JList items => Ok items
  | JDict entries => Ok (map (fun kv => JStr (fst kv)) entries)
  | JStr s => Ok (chars s)
  | _ => Raise (TypeError v)
  end.

(** ** [os.path.splitext] *)

Inductive flavour : Type := Posix | Nt.

Definition sep_of (f : flavour) : ascii :=
  match f with Posix => "/"%char | Nt => "\"%char end.

Definition altsep_of (f : flavour) : option ascii :=
  match f with Posix => None | Nt => Some "/"%char end.

(** The loop of [genericpath._splitext] that skips the leading dots of the
    file name; [fuel] is [dotIndex - filenameIndex], the iterations left. *)
Fixpoint skip_leading_dots (p : string) (extsep : ascii) (dotIndex filenameIndex : Z)
    (fuel : nat) : string * string :=
  match fuel with
  | O => (p, Str.slice_to p 0)
  | S fuel' =>
      if negb (String.eqb (Str.char_at p filenameIndex) (String extsep EmptyString))
      then (Str.slice_to p dotIndex, Str.slice_from p dotIndex)
      else skip_leading_dots p extsep dotIndex (filenameIndex + 1) fuel'
  end.

Definition _splitext (p : string) (sep : ascii) (altsep : option ascii) (extsep : ascii)
    : string * string :=
  let sepIndex := Str.rfind sep p in
  let sepIndex :=
    match altsep with
    | Some a => Z.max sepIndex (Str.rfind a p)
    | None => sepIndex
    end in
  let dotIndex := Str.rfind extsep p in
  if sepIndex <? dotIndex then
    skip_leading_dots p extsep dotIndex (sepIndex + 1) (Z.to_nat (dotIndex - (sepIndex + 1)))
  else (p, Str.slice_to p 0).

Definition splitext (f : flavour) (p : string) : string * string :=
  _splitext p (sep_of f) (altsep_of f) "."%char.

(** [f"{file_name}_1{file_ext}"] of lines 82-83. *)
Definition output_path (f : flavour) (input_file : string) : string :=
  let '(file_name, file_ext) := splitext f input_file in
  (file_name ++ "_1" ++ file_ext)%string.

(** ** [parse_duration_to_seconds]: the body of its [try] *)

Definition duration_seconds (duration : json) : result Num.float :=
  rbind (split_colon duration) (fun parts =>
  match parts with
  | [hours; minutes; seconds] =>
      rbind (int_of hours) (fun h =>
      rbind (int_of minutes) (fun m =>
      rbind (float_of seconds) (fun s =>
      rbind (int_plus_float (h * 3600 + m * 60) s) (fun total_seconds =>
      Ok (Num.round4 total_seconds)))))
  | _ => Raise (ValueError (lit "Invalid duration format"))
  end).

(** ** The outside world *)

Inductive completed : Type :=
| Completed (returncode : Z) (stdout stderr : string).

Definition returncode (c : completed) : Z := let 'Completed r _ _ := c in r.
Definition stdout (c : completed) : string := let 'Completed _ o _ := c in o.
Definition stderr (c : completed) : string := let 'Completed _ _ e := c in e.

(** What the program cannot decide itself. [spawn] is [subprocess.run] on a
    command line: the process result or the exception of the spawn, and the
    world after it. *)
Record Env : Type := {
  World : Type;
  os_flavour : flavour;
  getcwd : string;
  path_join : string -> string -> string;
  isfile : string -> World -> bool;
  spawn : list text -> World -> result completed * World;
  json_loads : string -> result json;
  listdir : string -> World -> result (list string)
}.

Section Program.

Context (E : Env).

(** The world, the lines of the log file, and the command lines handed to
    [subprocess.run] so far (whether the spawn succeeded or raised). *)
Record state : Type := mk_state {
  world : World E;
  log_file : list text;
  spawned : list (list text)
}.

(** State passing with exceptions. *)
Definition M (A : Type) : Type := state -> result A * state.

Definition ret {A : Type} (a : A) : M A := fun st => (Ok a, st).

Definition bind {A B : Type} (m : M A) (k : A -> M B) : M B :=
  fun st =>
    match m st with
    | (Ok a, st') => k a st'
    | (Raise e, st') => (Raise e, st')
    end.

Definition lift {A : Type} (r : result A) : M A := fun st => (r, st).

(** [try: m except Exception as e: handler e]. *)
Definition try_except {A : Type} (m : M A) (handler : exn -> M A) : M A :=
  fun st =>
    match m st with
    | (Ok a, st') => (Ok a, st')
    | (Raise e, st') => handler e st'
    end.

Notation "x <- m ;; k" := (bind m (fun x => k))
  (at level 61, m at next level, right associativity).

(** [for x in items: acc = body x acc]. *)
Fixpoint for_each {A B : Type} (items : list A) (acc : B) (body : A -> B -> M B) : M B :=
  match items with
  | [] => ret acc
  | x :: rest => acc' <- body x acc ;; for_each rest acc' body
  end.

Definition os_path_isfile (path : string) : M bool :=
  fun st => (Ok (isfile E path (world st)), st).

Definition subprocess_run (command : list text) : M completed :=
  fun st =>
    let (r, w) := spawn E command (world st) in
    (r, mk_state w (log_file st) (spawned st ++ [command])).

Definition os_listdir (path : string) : M (list string) :=
  fun st => (listdir E path (world st), st).

End Program.

Arguments world {E} s.
Arguments log_file {E} s.
Arguments spawned {E} s.
Arguments mk_state {E} world log_file spawned.

(** ** The calls outside every [try] *)

(** [os.getcwd()] (lines 38 and 84) and the append of [write_log] (lines
    13-14) are covered by no [try] of their own: what they raise leaves the
    function that calls them, unless that call sits in a [try] of the
    caller. A host says when they raise: reading the working directory in a
    world, and appending a message to the log as it stands in a world. An
    append that raises leaves no entry. *)
Record Host (E : Env) : Type := {
  read_cwd : World E -> result string;
  append_log : list text -> text -> World E -> option exn
}.
Arguments read_cwd {E} h w.
Arguments append_log {E} h log message w.

(** The host on which they never raise: the working directory is [getcwd E]
    and the log takes every message. *)
Definition reliable (E : Env) : Host E :=
  {| read_cwd := fun _ => Ok (getcwd E);
     append_log := fun _ _ _ => None |}.

(** ** The program *)

(** [if error:] on a value that is [None] or a string. *)
Definition is_set (error : option text) : bool :=
  match error with
  | Some e => truthy e
  | None => false
  end.

(** [f"{error}"]. *)
Definition str_of_error (error : option text) : text :=
  match error with
  | Some e => e
  | None => lit "None"
  end.

Module Source.

(** [[mkvmerge_path, "-J", mkv_file]], line 44. *)
Definition inspect_command (mkvmerge_path mkv_file : string) : list text :=
  [lit mkvmerge_path; lit "-J"; lit mkv_file].

(** The list of lines 85-90. *)
Definition sync_command (mkvmerge_path output_file input_file : string)
    (video_time audio_time : Num.float) : list text :=
  [lit mkvmerge_path;
   lit "-o"; lit output_file;
   lit "--sync"; lit "1:0," ++ [PFloat video_time] ++ lit "/" ++ [PFloat audio_time];
   lit input_file].

Section Program.

Context (E : Env) (H : Host E).

Notation "x <- m ;; k" := (bind E m (fun x => k))
  (at level 61, m at next level, right associativity).
Notation "' pat <- m ;; k" := (bind E m (fun x => match x with pat => k end))
  (at level 61, pat pattern, m at next level, right associativity).
Notation "m ;;; k" := (bind E m (fun _ => k))
  (at level 61, right associativity).

(** Lines 11-14: one line appended to the log file, or the exception of the
    append. *)
Definition write_log (message : text) : M E unit :=
  fun st =>
    match append_log H (log_file st) message (world st) with
    | None => (Ok tt, mk_state (world st) (log_file st ++ [log_line message]) (spawned st))
    | Some e => (Raise e, st)
    end.

Definition os_getcwd : M E string :=
  fun st => (read_cwd H (world st), st).

(** [os.path.join(os.getcwd(), "mkvmerge.exe")], lines 38 and 84. *)
Definition mkvmerge_path : M E string :=
  cwd <- os_getcwd ;;
  ret E (path_join E cwd "mkvmerge.exe").

(** Lines 16-34. *)
Definition parse_duration_to_seconds (duration : json) : M E (option Num.float) :=
  try_except E
    (total <- lift E (duration_seconds duration) ;;
     ret E (Some total))
    (fun e =>
       write_log (lit "Error parsing duration '" ++ str_of_value duration
                  ++ lit "': " ++ exn_msg e) ;;;
       ret E None).

(** Lines 58-65: the body of the loop over the tracks. *)
Definition track_step (track : json) (times : option Num.float * option Num.float)
    : M E (option Num.float * option Num.float) :=
  track_type <- lift E (get track "type" (JStr "unknown")) ;;
  properties <- lift E (get track "properties" (JDict [])) ;;
  tag_duration <- lift E (get properties "tag_duration" (JStr "unknown")) ;;
  if negb (eq_str tag_duration "unknown") then
    duration_in_seconds <- parse_duration_to_seconds tag_duration ;;
    if eq_str track_type "video" then ret E (duration_in_seconds, snd times)
    else if eq_str track_type "audio" then ret E (fst times, duration_in_seconds)
    else ret E times
  else ret E times.

(** Lines 36-70: [(video_time, audio_time, error)]. *)
Definition get_tag_durations_and_seconds (mkv_file : string)
    : M E (option Num.float * option Num.float * option text) :=
  mkvmerge_path <- mkvmerge_path ;;
  present <- os_path_isfile E mkvmerge_path ;;
  if negb present then
    ret E (None, None, Some (lit "Error: mkvmerge.exe not found in the current directory."))
  else
    try_except E
      (result <- subprocess_run E (inspect_command mkvmerge_path mkv_file) ;;
       if negb (returncode result =? 0) then
         ret E (None, None, Some (lit "Error running mkvmerge: " ++ lit (stderr result)))
       else
         mkv_info <- lift E (json_loads E (stdout result)) ;;
         tracks <- lift E (get mkv_info "tracks" (JList [])) ;;
         items <- lift E (iterate tracks) ;;
         ' (video_time, audio_time) <- for_each E items (None, None) track_step ;;
         ret E (video_time, audio_time, None))
      (fun e =>
         ret E (None, None, Some (lit "Error processing mkvmerge output: " ++ exn_msg e))).

(** Lines 72-111: the message shown for the file. *)
Definition sync_audio_video (input_file : string) : M E text :=
  ' (video_time, audio_time, error) <- get_tag_durations_and_seconds input_file ;;
  if is_set error then
    write_log (lit "Error processing " ++ lit input_file ++ lit ": " ++ str_of_error error) ;;;
    ret E (lit "Error processing " ++ lit input_file ++ lit ": " ++ str_of_error error)
  else
    let log_message :=
      lit "File: " ++ lit input_file ++ lit nl
      ++ lit "Video Time: " ++ str_of_duration video_time ++ lit " s" ++ lit nl
      ++ lit "Audio Time: " ++ str_of_duration audio_time ++ lit " s" ++ lit nl in
    match video_time, audio_time with
    | Some v, Some a =>
        if Num.flt v a then
          let output_file := output_path (os_flavour E) input_file in
          mkvmerge_path <- mkvmerge_path ;;
          try_except E
            (result <- subprocess_run E
                         (sync_command mkvmerge_path output_file input_file v a) ;;
             if returncode result =? 0 then
               write_log (log_message ++ lit "Rule: video_time < audio_time" ++ lit nl
                          ++ lit "Generated File: " ++ lit output_file ++ lit nl) ;;;
               ret E (lit "Success: " ++ lit input_file ++ lit " -> " ++ lit output_file)
             else
               write_log (log_message ++ lit "Error: " ++ lit (stderr result) ++ lit nl) ;;;
               ret E (lit "Error processing " ++ lit input_file ++ lit ": "
                      ++ lit (stderr result)))
            (fun e =>
               write_log (log_message ++ lit "Error: " ++ exn_msg e ++ lit nl) ;;;
               ret E (lit "Error executing mkvmerge for " ++ lit input_file ++ lit ": "
                      ++ exn_msg e))
        else
          write_log (log_message ++ lit "Rule: video_time == audio_time" ++ lit nl
                     ++ lit "Skipped" ++ lit nl) ;;;
          ret E (lit "Skipped: " ++ lit input_file ++ lit " (video_time == audio_time)")
    | _, _ =>
        write_log (log_message ++ lit "Error: Unable to retrieve durations" ++ lit nl) ;;;
        ret E (lit "Error: Unable to retrieve durations for " ++ lit input_file)
    end.

(** Lines 113-121. *)
Definition process_folder (folder_path : string) : M E (list text) :=
  names <- os_listdir E folder_path ;;
  for_each E names []
    (fun file results =>
       if Str.endswith (Str.lower file) ".mkv" then
         result <- sync_audio_video (path_join E folder_path file) ;;
         ret E (results ++ [result])
       else ret E results).

End Program.

End Source.

(** ** The program on a reliable host

    What the program returns, logs and runs when its own two files do not
    fail it: the working directory can be read and the log takes every
    message. *)

Definition write_log (E : Env) : text -> M E unit := Source.write_log E (reliable E).

Definition mkvmerge_path (E : Env) : string := path_join E (getcwd E) "mkvmerge.exe".

Definition parse_duration_to_seconds (E : Env) : json -> M E (option Num.float) :=
  Source.parse_duration_to_seconds E (reliable E).

Definition track_step (E : Env)
    : json -> option Num.float * option Num.float
      -> M E (option Num.float * option Num.float) :=
  Source.track_step E (reliable E).

Definition inspect_command (E : Env) (mkv_file : string) : list text :=
  Source.inspect_command (mkvmerge_path E) mkv_file.

Definition get_tag_durations_and_seconds (E : Env)
    : string -> M E (option Num.float * option Num.float * option text) :=
  Source.get_tag_durations_and_seconds E (reliable E).

Definition sync_command (E : Env) (input_file : string) (video_time audio_time : Num.float)
    : list text :=
  Source.sync_command (mkvmerge_path E) (output_path (os_flavour E) input_file) input_file
    video_time audio_time.

Definition sync_audio_video (E : Env) : string -> M E text :=
  Source.sync_audio_video E (reliable E).

Definition process_folder (E : Env) : string -> M E (list text) :=
  Source.process_folder E (reliable E).

(** ** Reading runs and results *)

(** The state a run starts from: nothing logged, nothing spawned. *)
Definition start (E : Env) (w : World E) : state E := mk_state w [] [].

(** The remux command line is the one whose second argument is [-o]. *)
Definition is_remux (command : list text) : bool :=
  match command with
  | _ :: [PStr "-o"] :: _ => true
  | _ => false
  end.

Definition starts_with (prefix : string) (t : text) : bool :=
  match t with
  | PStr s :: _ => String.prefix prefix s
  | _ => false
  end.

(** The three outcomes of the specification, read off the message the
    program returns for a file. *)
Inductive outcome_kind : Type := Success | Skipped | Failed.

Definition classify (message : text) : option outcome_kind :=
  if starts_with "Success: " message then Some Success
  else if starts_with "Skipped: " message then Some Skipped
  else if starts_with "Error" message then Some Failed
  else None.

(** The decision of lines 80-81 on the two durations: the pair to
    resynchronise with, when both are present and the video is shorter. *)
Definition resync_pair (video audio : option Num.float) : option (Num.float * Num.float) :=
  match video, audio with
  | Some v, Some a => if Num.flt v a then Some (v, a) else None
  | _, _ => None
  end.

(** A duration text read outside any run: the seconds, or nothing when the
    reading fails. *)
Definition seconds_of (tag : json) : option Num.float :=
  match duration_seconds tag with
  | Ok x => Some x
  | Raise _ => None
  end.

(** The line [parse_duration_to_seconds] logs when reading [tag] fails. *)
Definition parse_error_line (tag : json) (e : exn) : text :=
  log_line (lit "Error parsing duration '" ++ str_of_value tag ++ lit "': " ++ exn_msg e).

(** A log entry is a parse report when it is the line of a reading that
    fails. *)
Definition parse_report (entry : text) : Prop :=
  exists tag e, duration_seconds tag = Raise e /\ entry = parse_error_line tag e.

(** A log entry is the block of [input_file] when it opens with the file
    or with the error of its extraction. *)
Definition file_block (input_file : string) (entry : text) : bool :=
  match entry with
  | PStr a :: PStr f :: _ =>
      (String.eqb a "File: " || String.eqb a "Error processing ") && String.eqb f input_file
  | _ => false
  end.

(** *** Tracks of a well-formed inspection document *)

Definition type_of_track (track : json) : json :=
  match get track "type" (JStr "unknown") with
  | Ok v => v
  | Raise _ => JStr "unknown"
  end.

Definition tag_of_track (track : json) : json :=
  match rbind (get track "properties" (JDict [])) (fun p => get p "tag_duration" (JStr "unknown")) with
  | Ok v => v
  | Raise _ => JStr "unknown"
  end.

(** A track is an object whose [properties], when present, is an object. *)
Definition well_formed_track (track : json) : bool :=
  match track with
  | JDict entries =>
      match dict_lookup "properties" entries with
      | Some (JDict _) | None => true
      | Some _ => false
      end
  | _ => false
  end.

(** The tagged durations of the tracks of one kind, in track order: the
    tracks whose [tag_duration] is not ["unknown"]. *)
Definition tagged (kind : string) (tracks : list json) : list json :=
  map tag_of_track
    (filter (fun t => eq_str (type_of_track t) kind && negb (eq_str (tag_of_track t) "unknown"))
       tracks).

Fixpoint last_opt {A : Type} (l : list A) : option A :=
  match l with
  | [] => None
  | [x] => Some x
  | _ :: rest => last_opt rest
  end.

Definition duration_of (tag : option json) : option Num.float :=
  match tag with
  | Some t => seconds_of t
  | None => None
  end.

Definition first_tagged (kind : string) (tracks : list json) : option Num.float :=
  duration_of (hd_error (tagged kind tracks)).

Definition last_tagged (kind : string) (tracks : list json) : option Num.float :=
  duration_of (last_opt (tagged kind tracks)).

(** *** Well-formed duration texts *)

Definition digits (s : string) : bool := Str.all_chars Str.is_digit s.

(** The number a run of decimal digits denotes. *)
Fixpoint decimal_from (acc : Z) (s : string) : Z :=
  match s with
  | EmptyString => acc
  | String c s' => decimal_from (acc * 10 + Str.digit_val c) s'
  end.

Definition decimal (s : string) : Z := decimal_from 0 s.

(** [H:MM:SS] with the optional fraction [.fff]. *)
Definition duration_text (H MM SS : string) (fraction : option string) : string :=
  (H ++ ":" ++ MM ++ ":" ++ SS
   ++ match fraction with Some F => "." ++ F | None => "" end)%string.

Definition fraction_digits (fraction : option string) : string :=
  match fraction with Some F => F | None => "" end.

(** The seconds [SS.fff] as the nearest float. *)
Definition seconds_value (SS : string) (fraction : option string) : Num.float :=
  Num.of_decimal false (decimal (SS ++ fraction_digits fraction)%string)
    (- Z.of_nat (String.length (fraction_digits fraction))).

(** *** File names *)

(** Equality up to the case of the ASCII letters. *)
Definition same_letter (a b : ascii) : bool :=
  Ascii.eqb a b
  || (let x := Str.code a in let y := Str.code b in
      ((65 <=? x) && (x <=? 90) && (y =? x + 32))
      || ((65 <=? y) && (y <=? 90) && (x =? y + 32))).

Fixpoint same_letters (a b : string) : bool :=
  match a, b with
  | EmptyString, EmptyString => true
  | String x a', String y b' => same_letter x y && same_letters a' b'
  | _, _ => false
  end.

(** The name ends with [suffix], whatever the case of its letters. *)
Definition ends_with_ci (name suffix : string) : bool :=
  let n := String.length name in
  let k := String.length suffix in
  (k <=? n)%nat && same_letters (Str.drop (n - k) name) suffix.

(** The outcomes of [sync_audio_video] over [files], one after the other:
    each file is processed in the state its predecessor left. *)
Inductive processed (E : Env) (H : Host E)
    : list string -> state E -> list text -> state E -> Prop :=
| processed_nil st : processed E H [] st [] st
| processed_cons file files st outcome st1 outcomes st2 :
    Source.sync_audio_video E H file st = (Ok outcome, st1) ->
    processed E H files st1 outcomes st2 ->
    processed E H (file :: files) st (outcome :: outcomes) st2.

(** An exception the host raises for [os.getcwd()] or for an append to the
    log. *)
Definition sink_fault {E : Env} (H : Host E) (e : exn) : Prop :=
  (exists w, read_cwd H w = Raise e)
  \/ (exists log message w, append_log H log message w = Some e).

(** *** Notions the statements are written with *)

(** [st'] differs from [st] by log entries that satisfy [P]: the world and
    the spawned commands are the same. *)
Definition only_logs {E : Env} (P : text -> Prop) (st st' : state E) : Prop :=
  world st' = world st /\ spawned st' = spawned st /\
  exists entries, log_file st' = log_file st ++ entries /\ Forall P entries.

(** The commands a file's processing adds after its extraction. *)
Definition resync_commands (E : Env) (file : string) (error : option text)
    (video audio : option Num.float) : list (list text) :=
  if is_set error then []
  else match resync_pair video audio with
       | Some (v, a) => [sync_command E file v a]
       | None => []
       end.

(** What one track does to the duration kept for [kind]. *)
Definition updated (kind : string) (track : json) (old : option Num.float)
    : option Num.float :=
  if eq_str (type_of_track track) kind && negb (eq_str (tag_of_track track) "unknown")
  then seconds_of (tag_of_track track) else old.

(** The parse reports the loop logs for the tracks: one for each track,
    of any kind, whose tag_duration is not ["unknown"] and cannot be read. *)
Definition report_of (track : json) : list text :=
  if negb (eq_str (tag_of_track track) "unknown") then
    match duration_seconds (tag_of_track track) with
    | Raise e => [parse_error_line (tag_of_track track) e]
    | Ok _ => []
    end
  else [].

Definition reports_of (tracks : list json) : list text := flat_map report_of tracks.

(** Lowering a character makes it [x] exactly when it is [x] up to case. *)
Definition plain (x : ascii) : Prop :=
  forall c, Ascii.eqb (Str.lower_char c) x = same_letter c x.

(** The index of the last [c] in [s], counted from the left. *)
Fixpoint last_index (c : ascii) (s : string) : option nat :=
  match s with
  | EmptyString => None
  | String a s' =>
      match last_index c s' with
      | Some k => Some (S k)
      | None => if Ascii.eqb a c then Some O else None
      end
  end.

Definition index_or (o : option nat) (default : Z) : Z :=
  match o with
  | Some k => Z.of_nat k
  | None => default
  end.

(** The separators of a flavour do not occur in [s]. *)
Definition no_separator (f : flavour) (s : string) : bool :=
  negb (Str.contains (sep_of f) s)
  && match altsep_of f with
     | Some a => negb (Str.contains a s)
     | None => true
     end.

(** The index [sepIndex] of [_splitext]. *)
Definition sep_index (f : flavour) (p : string) : Z :=
  match altsep_of f with
  | Some a => Z.max (Str.rfind (sep_of f) p) (Str.rfind a p)
  | None => Str.rfind (sep_of f) p
  end.

(** A separator of the flavour. *)
Definition is_separator (f : flavour) (c : ascii) : Prop :=
  c = sep_of f \/ altsep_of f = Some c.

(** The sign bit of a float is clear (NaN has none). *)
Definition sign_clear (x : Num.float) : bool :=
  match x with
  | S754_zero s | S754_infinity s | S754_finite s _ _ => negb s
  | S754_nan => true
  end.

(** The characters of [SS.fff]. *)
Definition numeric (c : ascii) : bool := Str.is_digit c || Str.is_dot c.

Definition is_infinity (x : Num.float) : bool :=
  match x with
  | S754_infinity _ => true
  | _ => false
  end.

(** *** Notions of the further properties *)

(** The head of the log block of a file, line 79. *)
Definition log_message (input_file : string) (video_time audio_time : option Num.float)
    : text :=
  lit "File: " ++ lit input_file ++ lit nl
  ++ lit "Video Time: " ++ str_of_duration video_time ++ lit " s" ++ lit nl
  ++ lit "Audio Time: " ++ str_of_duration audio_time ++ lit " s" ++ lit nl.

(** The message of a file whose extraction fails, lines 76-77. *)
Definition extraction_failure (input_file : string) (error : text) : text :=
  lit "Error processing " ++ lit input_file ++ lit ": " ++ error.

(** The text of line 40. *)
Definition tool_not_found : text :=
  lit "Error: mkvmerge.exe not found in the current directory.".

(** The items the loop of line 57 visits for a decoded document. *)
Definition tracks_of (mkv_info : json) : result (list json) :=
  rbind (get mkv_info "tracks" (JList [])) iterate.

(** The document is an object whose tracks can be visited and are all
    well formed. *)
Definition well_formed_document (mkv_info : json) : bool :=
  match tracks_of mkv_info with
  | Ok items => forallb well_formed_track items
  | Raise _ => false
  end.

(** The commands [sync_audio_video] hands to mkvmerge for [file]: none, its
    inspection, or its inspection and then a remux of it. *)
Definition commands_of_file (E : Env) (file : string) (cmds : list (list text)) : Prop :=
  cmds = []
  \/ cmds = [inspect_command E file]
  \/ exists video audio, cmds = [inspect_command E file; sync_command E file video audio].

(** A log entry that opens the block of a file. *)
Definition block_opening (entry : text) : bool :=
  match entry with
  | PStr a :: _ => String.eqb a "File: " || String.eqb a "Error processing "
  | _ => false
  end.

(** The number of [c] in [s]. *)
Fixpoint count_char (c : ascii) (s : string) : nat :=
  match s with
  | EmptyString => O
  | String a s' => ((if Ascii.eqb a c then 1 else 0) + count_char c s')%nat
  end.

(** The names [process_folder] passes on, with their folder. *)
Definition mkv_files (E : Env) (folder_path : string) (names : list string) : list string :=
  map (path_join E folder_path) (filter (fun n => ends_with_ci n ".mkv") names).

(** The path ends with a separator of the flavour, or is empty. *)
Definition directory_prefix (f : flavour) (dir : string) : Prop :=
  dir = ""%string \/ exists d0 s, dir = (d0 ++ String s "")%string /\ is_separator f s.

(** [sep.join(parts)] for a one-character separator. *)
Fixpoint join (sep : ascii) (parts : list string) : string :=
  match parts with
  | [] => EmptyString
  | [p] => p
  | p :: rest => (p ++ String sep (join sep rest))%string
  end.

(** Whitespace only. *)
Definition blank (s : string) : bool := Str.all_chars Str.is_space s.

(** What [sync_audio_video] has done when it returns [message]: the
    message is of a kind and names the file, and the log has the file's
    block as its last entry, after parse reports only. *)
Definition reports_file {E : Env} (file : string) (st : state E) (message : text)
    (st' : state E)
    : Prop :=
  (exists kind, classify message = Some kind)
  /\ In (PStr file) message
  /\ exists entries block,
       log_file st' = log_file st ++ entries ++ [block]
       /\ file_block file block = true
       /\ Forall parse_report entries.

(** ** Scripted worlds for concrete runs *)

Definition track (kind tag : string) : json :=
  JDict [("type", JStr kind); ("properties", JDict [("tag_duration", JStr tag)])].

Definition document (tracks : list json) : json := JDict [("tracks", JList tracks)].

(** A world without state on a Windows host: the tool is present or not,
    the inspection of a file and the decoding of its output are given by
    tables, every remux run answers [remux], a folder lists [names]. *)
Definition scripted (present : bool) (inspect : string -> result completed)
    (decode : string -> result json) (remux : result completed) (names : list string) : Env :=
  {| World := unit;
     os_flavour := Nt;
     getcwd := "C:\tools";
     path_join := fun a b => (a ++ "\" ++ b)%string;
     isfile := fun _ _ => present;
     spawn := fun command w =>
       (match command with
        | [_; [PStr "-J"]; [PStr file]] => inspect file
        | _ => remux
        end, w);
     json_loads := decode;
     listdir := fun _ _ => Ok names |}.

(** Every inspection prints the same document; [json_loads] is an oracle,
    so the printed text is a stand-in for it. *)
Definition one_document (doc : json) (remux : result completed) : Env :=
  scripted true (fun _ => Ok (Completed 0 "{...}" "")) (fun _ => Ok doc) remux [].

Definition remux_ok : result completed := Ok (Completed 0 "" "").

(** A file whose video track is shorter than its audio track. *)
Definition short_video : Env :=
  one_document (document [track "video" "0:00:09"; track "audio" "0:00:10"]) remux_ok.

(** Two tagged video tracks and two tagged audio tracks. *)
Definition two_of_each : Env :=
  one_document
    (document [track "video" "0:00:01"; track "video" "0:00:02";
               track "audio" "0:00:03"; track "audio" "0:00:05"]) remux_ok.

(** Only the audio track carries a usable tag. *)
Definition audio_only : Env :=
  one_document (document [track "video" "unknown"; track "audio" "0:00:10"]) remux_ok.

(** The video tag is not a duration. *)
Definition bad_tag : Env :=
  one_document (document [track "video" "abc"; track "audio" "0:00:10"]) remux_ok.

(** A folder of three entries; the inspection of the first fails. *)
Definition folder : Env :=
  scripted true
    (fun file => if String.eqb file "D:\in\a.MKV"
                 then Ok (Completed 2 "" "cannot open")
                 else Ok (Completed 0 "{...}" ""))
    (fun _ => Ok (document [track "video" "0:00:09"; track "audio" "0:00:10"]))
    remux_ok ["a.MKV"; "notes.txt"; "b.mkv"].

(** The float [4210.111], the nearest to that decimal. *)
#[warnings="-inexact-float"]
Definition seconds_4210_111 : Num.float := Prim2SF 4210.111%float.

(** An hours field of 401 digits. *)
Definition huge_hours : string :=
  String "1" (string_of_list_ascii (repeat "0"%char 400)).

(** The video track is longer than the audio track. *)
Definition long_video : Env :=
  one_document (document [track "video" "0:00:11"; track "audio" "0:00:10"]) remux_ok.

(** The remux of a file with a shorter video exits with status 2. *)
Definition remux_fails : Env :=
  one_document (document [track "video" "0:00:09"; track "audio" "0:00:10"])
    (Ok (Completed 2 "" "disk full")).

(** The remux of a file with a shorter video cannot be started. *)
Definition remux_raises : Env :=
  one_document (document [track "video" "0:00:09"; track "audio" "0:00:10"])
    (Raise (mk_exn "PermissionError" (lit "[WinError 5] Access is denied"))).

(** A folder of three entries on a host without the tool. *)
Definition tool_missing : Env :=
  scripted false (fun _ => Ok (Completed 0 "{...}" ""))
    (fun _ => Ok (document [track "video" "0:00:09"; track "audio" "0:00:10"]))
    remux_ok ["a.mkv"; "notes.txt"; "b.MKV"].

(** The inspection prints something that is not JSON. *)
Definition not_json : Env :=
  scripted true (fun _ => Ok (Completed 0 "mkvmerge v80.0" ""))
    (fun _ => Raise (mk_exn "JSONDecodeError" (lit "Expecting value: line 1 column 1 (char 0)")))
    remux_ok [].

(** The second track of the document is a string, not an object. *)
Definition odd_track : Env :=
  one_document (document [track "video" "0:00:09"; JStr "audio"]) remux_ok.

(** The document has no [tracks] key. *)
Definition no_tracks : Env :=
  one_document (JDict [("container", JDict [("recognized", JBool true)])]) remux_ok.

(** A folder without any [.mkv] entry. *)
Definition only_notes : Env :=
  scripted true (fun _ => Ok (Completed 0 "{...}" ""))
    (fun _ => Ok (document [])) remux_ok ["notes.txt"; "a.mkv.bak"; "mkv"].

(** A folder of three files, each with a video track shorter than its
    audio track. *)
Definition three_files : Env :=
  scripted true (fun _ => Ok (Completed 0 "{...}" ""))
    (fun _ => Ok (document [track "video" "0:00:09"; track "audio" "0:00:10"]))
    remux_ok ["a.mkv"; "b.mkv"; "c.mkv"].

(** The message carries the name [file]. *)
Definition mentions (file : string) (message : text) : bool :=
  existsb (fun p => match p with PStr s => String.eqb s file | _ => false end) message.

Definition UnicodeEncodeError : exn :=
  mk_exn "UnicodeEncodeError" (lit "'utf-8' codec can't encode character").

(** The log cannot take the name of the second file: every append of a
    message that carries it raises, as for a name the encoding of the log
    cannot write. *)
Definition unwritable_name : Host three_files :=
  {| read_cwd := fun _ => Ok "C:\tools";
     append_log := fun _ message _ =>
       if mentions "D:\in\b.mkv" message then Some UnicodeEncodeError else None |}.

Definition FileNotFoundError : exn :=
  mk_exn "FileNotFoundError" (lit "[Errno 2] No such file or directory").

(** The working directory is gone: [os.getcwd()] raises. *)
Definition no_cwd : Host short_video :=
  {| read_cwd := fun _ => Raise FileNotFoundError;
     append_log := fun _ _ _ => None |}.

(** * Properties *)

(** ** Runs of the program on the reliable host, in any world *)

(** Shows the program on the reliable host through its own names. *)
Ltac reliably E :=
  cbn [read_cwd append_log reliable];
  try fold (mkvmerge_path E);
  repeat match goal with
         | |- context [Source.inspect_command (mkvmerge_path E) ?f] =>
             change (Source.inspect_command (mkvmerge_path E) f) with (inspect_command E f)
         | |- context [Source.sync_command (mkvmerge_path E)
                         (output_path (os_flavour E) ?f) ?f ?v ?a] =>
             change (Source.sync_command (mkvmerge_path E) (output_path (os_flavour E) f) f v a)
               with (sync_command E f v a)
         end;
  try fold (write_log E);
  try fold (parse_duration_to_seconds E);
  try fold (track_step E);
  try fold (get_tag_durations_and_seconds E);
  try fold (sync_audio_video E).

Section Runs.

Context (E : Env).

Lemma only_logs_refl P (st : state E) : only_logs P st st.
Proof.
  repeat split. exists []. rewrite app_nil_r. auto.
Qed.

Lemma only_logs_trans P (st1 st2 st3 : state E) :
  only_logs P st1 st2 -> only_logs P st2 st3 -> only_logs P st1 st3.
Proof.
  intros (Hw1 & Hs1 & l1 & Hl1 & HP1) (Hw2 & Hs2 & l2 & Hl2 & HP2).
  repeat split; try congruence.
  exists (l1 ++ l2). split.
  - rewrite Hl2, Hl1, app_assoc. reflexivity.
  - apply Forall_app. auto.
Qed.

Lemma parse_duration_run (tag : json) (st : state E) :
  parse_duration_to_seconds E tag st =
    match duration_seconds tag with
    | Ok x => (Ok (Some x), st)
    | Raise e =>
        (Ok None, mk_state (world st) (log_file st ++ [parse_error_line tag e]) (spawned st))
    end.
Proof.
  unfold parse_duration_to_seconds, Source.parse_duration_to_seconds, try_except, bind, lift,
    ret, Source.write_log.
  destruct (duration_seconds tag); reflexivity.
Qed.

Lemma parse_duration_frame (tag : json) (st : state E) :
  exists st',
    parse_duration_to_seconds E tag st = (Ok (seconds_of tag), st')
    /\ only_logs parse_report st st'.
Proof.
  rewrite parse_duration_run. unfold seconds_of.
  destruct (duration_seconds tag) as [x | e] eqn:Hd.
  - exists st. split; [reflexivity | apply only_logs_refl].
  - eexists. split; [reflexivity |].
    repeat split; simpl. exists [parse_error_line tag e]. split; [reflexivity |].
    constructor; [| constructor]. exists tag, e. auto.
Qed.

Lemma track_step_frame (track : json) times (st : state E) :
  exists r st', track_step E track times st = (r, st') /\ only_logs parse_report st st'.
Proof.
  unfold track_step, Source.track_step, bind, lift, ret. reliably E.
  destruct (get track "type" _) as [ty |]; [| eauto using only_logs_refl].
  destruct (get track "properties" _) as [props |]; [| eauto using only_logs_refl].
  destruct (get props "tag_duration" _) as [tag |]; [| eauto using only_logs_refl].
  destruct (negb (eq_str tag "unknown")); [| eauto using only_logs_refl].
  destruct (parse_duration_frame tag st) as (st' & -> & Hl).
  destruct (eq_str ty "video"); [eauto |].
  destruct (eq_str ty "audio"); eauto.
Qed.

Lemma for_each_tracks_frame (items : list json) times (st : state E) :
  exists r st',
    for_each E items times (track_step E) st = (r, st') /\ only_logs parse_report st st'.
Proof.
  revert times st. induction items as [| track items IH]; intros times st; simpl.
  - unfold ret. eauto using only_logs_refl.
  - unfold bind.
    destruct (track_step_frame track times st) as (r & st1 & -> & H1).
    destruct r as [times' | e].
    + destruct (IH times' st1) as (r & st2 & -> & H2).
      eauto using only_logs_trans.
    + eauto.
Qed.

(** Closes a branch of the extraction that ends with an error text. *)
Ltac ends_with_error H :=
  do 4 eexists; split; [reflexivity |]; split; [right; auto | exact H].

(** On the reliable host the extraction never raises; with an error it
    carries no duration; it spawns at most the inspection, and logs only
    parse reports. *)
Lemma extraction_run (file : string) (st : state E) :
  exists video audio error st',
    get_tag_durations_and_seconds E file st = (Ok (video, audio, error), st')
    /\ (error = None \/ (video = None /\ audio = None /\ is_set error = true))
    /\ (exists cmds, spawned st' = spawned st ++ cmds /\ existsb is_remux cmds = false)
    /\ (exists entries, log_file st' = log_file st ++ entries /\ Forall parse_report entries).
Proof.
  unfold get_tag_durations_and_seconds, Source.get_tag_durations_and_seconds,
    Source.mkvmerge_path, Source.os_getcwd, bind, os_path_isfile, try_except, subprocess_run,
    lift, ret.
  reliably E.
  assert (H0 : (exists cmds, spawned st = spawned st ++ cmds /\ existsb is_remux cmds = false)
               /\ (exists entries, log_file st = log_file st ++ entries
                                   /\ Forall parse_report entries)).
  { split; exists []; rewrite app_nil_r; auto. }
  destruct (isfile E _ (world st)); simpl; [| ends_with_error H0].
  destruct (spawn E (inspect_command E file) (world st)) as [r w].
  set (st1 := mk_state w (log_file st) (spawned st ++ [inspect_command E file])).
  assert (H1 : (exists cmds, spawned st1 = spawned st ++ cmds /\ existsb is_remux cmds = false)
               /\ (exists entries, log_file st1 = log_file st ++ entries
                                   /\ Forall parse_report entries)).
  { split.
    - exists [inspect_command E file]. split; reflexivity.
    - exists []. rewrite app_nil_r. auto. }
  destruct r as [c | e]; [| ends_with_error H1].
  destruct (negb (returncode c =? 0)); [ends_with_error H1 |].
  destruct (json_loads E (stdout c)) as [info | e]; [| ends_with_error H1].
  destruct (get info "tracks" _) as [tracks | e]; [| ends_with_error H1].
  destruct (iterate tracks) as [items | e]; [| ends_with_error H1].
  destruct (for_each_tracks_frame items (None, None) st1) as (r & st2 & -> & Hw & Hs & l & Hl & HP).
  assert (H2 : (exists cmds, spawned st2 = spawned st ++ cmds /\ existsb is_remux cmds = false)
               /\ (exists entries, log_file st2 = log_file st ++ entries
                                   /\ Forall parse_report entries)).
  { split.
    - exists [inspect_command E file]. rewrite Hs. split; reflexivity.
    - exists l. rewrite Hl. auto. }
  destruct r as [[v a] | e]; [| ends_with_error H2].
  do 4 eexists. split; [reflexivity |]. split; [left; reflexivity | exact H2].
Qed.

(** Closes a branch of [sync_audio_video] that logs once and returns. *)
Ltac logs_one_block Hb :=
  unfold try_except, bind, write_log, Source.write_log, ret;
  cbn [read_cwd append_log reliable]; do 3 eexists; simpl;
  (split; [reflexivity |]); (split; [reflexivity |]);
  (split; [apply Hb; reflexivity | rewrite ?app_nil_r; reflexivity]).

(** After the extraction, [sync_audio_video] returns a message on every
    path, logs one block for the file, and spawns the remux exactly when the
    decision asks for it. *)
Lemma sync_after_extraction (file : string) (st st1 : state E) video audio error :
  get_tag_durations_and_seconds E file st = (Ok (video, audio, error), st1) ->
  exists out st2 block,
    sync_audio_video E file st = (Ok out, st2)
    /\ log_file st2 = log_file st1 ++ [block]
    /\ file_block file block = true
    /\ spawned st2 = spawned st1 ++ resync_commands E file error video audio.
Proof.
  intros Hx. unfold sync_audio_video, Source.sync_audio_video. reliably E.
  unfold bind at 1. rewrite Hx.
  unfold resync_commands, resync_pair.
  assert (Hb : forall a rest, (String.eqb a "File: " || String.eqb a "Error processing ") = true ->
                 file_block file (PStr a :: PStr file :: rest) = true).
  { intros a rest Ha. simpl. rewrite Ha, String.eqb_refl. reflexivity. }
  destruct (is_set error); [logs_one_block Hb |].
  destruct video as [v |], audio as [a |]; try logs_one_block Hb.
  destruct (Num.flt v a); [| logs_one_block Hb].
  unfold Source.mkvmerge_path, Source.os_getcwd, try_except, bind, ret, subprocess_run.
  reliably E.
  destruct (spawn E (sync_command E file v a) (world st1)) as [[c | e] w];
    [destruct (returncode c =? 0) |]; logs_one_block Hb.
Qed.

(** With the extraction done and a duration missing, the file is reported
    as an error and nothing more is spawned. *)
Lemma sync_without_durations (file : string) (st st1 : state E) video audio error :
  get_tag_durations_and_seconds E file st = (Ok (video, audio, error), st1) ->
  is_set error = false ->
  video = None \/ audio = None ->
  sync_audio_video E file st =
    (Ok (lit "Error: Unable to retrieve durations for " ++ lit file),
     mk_state (world st1)
       (log_file st1
        ++ [log_line (lit "File: " ++ lit file ++ lit nl
                      ++ lit "Video Time: " ++ str_of_duration video ++ lit " s" ++ lit nl
                      ++ lit "Audio Time: " ++ str_of_duration audio ++ lit " s" ++ lit nl
                      ++ lit "Error: Unable to retrieve durations" ++ lit nl)])
       (spawned st1)).
Proof.
  intros Hx He Hnone. unfold sync_audio_video, Source.sync_audio_video. reliably E.
  unfold bind at 1. rewrite Hx, He.
  unfold bind, write_log, Source.write_log, ret. cbn [append_log reliable].
  destruct Hnone as [-> | ->].
  - rewrite <- !app_assoc. reflexivity.
  - destruct video; rewrite <- !app_assoc; reflexivity.
Qed.

Lemma no_remux_among (cmds : list (list text)) :
  existsb is_remux cmds = false -> filter is_remux cmds = [].
Proof.
  induction cmds as [| c l IH]; [reflexivity |].
  simpl. intros H. apply orb_false_iff in H as [-> Hl]. auto.
Qed.

Lemma sync_total (file : string) (st : state E) :
  exists out st', sync_audio_video E file st = (Ok out, st').
Proof.
  destruct (extraction_run file st) as (v & a & err & st1 & Hx & _).
  destruct (sync_after_extraction file st st1 v a err Hx) as (out & st2 & _ & H & _).
  eauto.
Qed.

Lemma parse_report_not_block (file : string) (entry : text) :
  parse_report entry -> file_block file entry = false.
Proof.
  intros (tag & e & _ & ->). unfold parse_error_line, log_line.
  destruct tag; reflexivity.
Qed.

End Runs.

(** ** Runs of the program on any host *)

Section AnyHost.

Context (E : Env) (H : Host E).

Lemma parse_duration_on (tag : json) (st : state E) :
  Source.parse_duration_to_seconds E H tag st =
    match duration_seconds tag with
    | Ok x => (Ok (Some x), st)
    | Raise e =>
        match append_log H (log_file st)
                (lit "Error parsing duration '" ++ str_of_value tag ++ lit "': " ++ exn_msg e)
                (world st) with
        | None =>
            (Ok None,
             mk_state (world st) (log_file st ++ [parse_error_line tag e]) (spawned st))
        | Some e' => (Raise e', st)
        end
    end.
Proof.
  unfold Source.parse_duration_to_seconds, try_except, bind, lift, ret, Source.write_log.
  destruct (duration_seconds tag) as [x | e]; [reflexivity |].
  destruct (append_log H _ _ _); reflexivity.
Qed.

Lemma parse_duration_on_frame (tag : json) (st : state E) :
  exists r st',
    Source.parse_duration_to_seconds E H tag st = (r, st') /\ only_logs parse_report st st'.
Proof.
  rewrite parse_duration_on.
  destruct (duration_seconds tag) as [x | e] eqn:Hd; [eauto using only_logs_refl |].
  destruct (append_log H _ _ _); [eauto using only_logs_refl |].
  do 2 eexists. split; [reflexivity |].
  repeat split; simpl. exists [parse_error_line tag e]. split; [reflexivity |].
  constructor; [| constructor]. exists tag, e. auto.
Qed.

Lemma track_step_on_frame (track : json) times (st : state E) :
  exists r st',
    Source.track_step E H track times st = (r, st') /\ only_logs parse_report st st'.
Proof.
  unfold Source.track_step, bind, lift, ret.
  destruct (get track "type" _) as [ty |]; [| eauto using only_logs_refl].
  destruct (get track "properties" _) as [props |]; [| eauto using only_logs_refl].
  destruct (get props "tag_duration" _) as [tag |]; [| eauto using only_logs_refl].
  destruct (negb (eq_str tag "unknown")); [| eauto using only_logs_refl].
  destruct (parse_duration_on_frame tag st) as (r & st' & -> & Hl).
  destruct r as [d | e]; [| eauto].
  destruct (eq_str ty "video"); [eauto |].
  destruct (eq_str ty "audio"); eauto.
Qed.

Lemma for_each_on_frame (items : list json) times (st : state E) :
  exists r st',
    for_each E items times (Source.track_step E H) st = (r, st')
    /\ only_logs parse_report st st'.
Proof.
  revert times st. induction items as [| track items IH]; intros times st; simpl.
  - unfold ret. eauto using only_logs_refl.
  - unfold bind.
    destruct (track_step_on_frame track times st) as (r & st1 & -> & H1).
    destruct r as [times' | e].
    + destruct (IH times' st1) as (r & st2 & -> & H2).
      eauto using only_logs_trans.
    + eauto.
Qed.

(** Closes a branch of the extraction that ends with an error text. *)
Ltac error_text H :=
  do 4 eexists; split; [reflexivity |]; split; [right; auto | exact H].

(** The extraction raises what [os.getcwd()] raises at line 38 and nothing
    else; with an error it carries no duration; it spawns at most the
    inspection, and logs only parse reports. *)
Lemma extraction_on (file : string) (st : state E) :
  match read_cwd H (world st) with
  | Raise e => Source.get_tag_durations_and_seconds E H file st = (Raise e, st)
  | Ok cwd =>
      exists video audio error st',
        Source.get_tag_durations_and_seconds E H file st = (Ok (video, audio, error), st')
        /\ (error = None \/ (video = None /\ audio = None /\ is_set error = true))
        /\ (exists cmds, spawned st' = spawned st ++ cmds /\ existsb is_remux cmds = false)
        /\ (exists entries, log_file st' = log_file st ++ entries
                            /\ Forall parse_report entries)
  end.
Proof.
  unfold Source.get_tag_durations_and_seconds, Source.mkvmerge_path, Source.os_getcwd, bind,
    os_path_isfile, try_except, subprocess_run, lift, ret.
  destruct (read_cwd H (world st)) as [cwd | e]; [| reflexivity].
  set (exe := path_join E cwd "mkvmerge.exe").
  assert (H0 : (exists cmds, spawned st = spawned st ++ cmds /\ existsb is_remux cmds = false)
               /\ (exists entries, log_file st = log_file st ++ entries
                                   /\ Forall parse_report entries)).
  { split; exists []; rewrite app_nil_r; auto. }
  destruct (isfile E exe (world st)); simpl; [| error_text H0].
  destruct (spawn E (Source.inspect_command exe file) (world st)) as [r w].
  set (st1 := mk_state w (log_file st) (spawned st ++ [Source.inspect_command exe file])).
  assert (H1 : (exists cmds, spawned st1 = spawned st ++ cmds /\ existsb is_remux cmds = false)
               /\ (exists entries, log_file st1 = log_file st ++ entries
                                   /\ Forall parse_report entries)).
  { split.
    - exists [Source.inspect_command exe file]. split; reflexivity.
    - exists []. rewrite app_nil_r. auto. }
  destruct r as [c | e]; [| error_text H1].
  destruct (negb (returncode c =? 0)); [error_text H1 |].
  destruct (json_loads E (stdout c)) as [info | e]; [| error_text H1].
  destruct (get info "tracks" _) as [tracks | e]; [| error_text H1].
  destruct (iterate tracks) as [items | e]; [| error_text H1].
  destruct (for_each_on_frame items (None, None) st1) as (r & st2 & -> & Hw & Hs & l & Hl & HP).
  assert (H2 : (exists cmds, spawned st2 = spawned st ++ cmds /\ existsb is_remux cmds = false)
               /\ (exists entries, log_file st2 = log_file st ++ entries
                                   /\ Forall parse_report entries)).
  { split.
    - exists [Source.inspect_command exe file]. rewrite Hs. split; reflexivity.
    - exists l. rewrite Hl. auto. }
  destruct r as [[v a] | e]; [| error_text H2].
  do 4 eexists. split; [reflexivity |]. split; [left; reflexivity | exact H2].
Qed.

(** One file on any host: a message with the file's block logged, or the
    exception of [os.getcwd()] or of an append to the log. *)
Lemma try_spawn {A : Type} (command : list text) (k : completed -> M E A)
    (handler : exn -> M E A) (st : state E) :
  try_except E (bind E (subprocess_run E command) k) handler st
  = match spawn E command (world st) with
    | (Ok c, w) =>
        try_except E (k c) handler (mk_state w (log_file st) (spawned st ++ [command]))
    | (Raise e, w) => handler e (mk_state w (log_file st) (spawned st ++ [command]))
    end.
Proof.
  unfold try_except, bind, subprocess_run.
  destruct (spawn E command (world st)) as [[c | e] w]; reflexivity.
Qed.

Lemma try_write {A : Type} (message : text) (out : A) (handler : exn -> M E A)
    (st : state E) :
  try_except E (bind E (Source.write_log E H message) (fun _ => ret E out)) handler st
  = match append_log H (log_file st) message (world st) with
    | None =>
        (Ok out, mk_state (world st) (log_file st ++ [log_line message]) (spawned st))
    | Some e => handler e st
    end.
Proof.
  unfold try_except, bind, Source.write_log, ret.
  destruct (append_log H _ _ _); reflexivity.
Qed.

Lemma sync_on (file : string) (st : state E) :
  exists r st',
    Source.sync_audio_video E H file st = (r, st')
    /\ match r with
       | Ok message => reports_file file st message st'
       | Raise e => sink_fault H e
       end.
Proof.
  unfold Source.sync_audio_video, bind at 1.
  pose proof (extraction_on file st) as Hx.
  destruct (read_cwd H (world st)) as [cwd | e] eqn:Hcwd.
  2: { rewrite Hx. do 2 eexists. split; [reflexivity |]. left. eauto. }
  destruct Hx as (video & audio & error & st1 & -> & _ & _ & (l1 & Hl1 & HP)).
  cbn beta iota.
  assert (Hok : forall (st2 : state E) (a : string) (rest out : text),
             log_file st2 = log_file st1 ->
             (String.eqb a "File: " || String.eqb a "Error processing ") = true ->
             (exists kind, classify out = Some kind) ->
             In (PStr file) out ->
             reports_file file st out
               (mk_state (world st2)
                  (log_file st2 ++ [log_line (PStr a :: PStr file :: rest)]) (spawned st2))).
  { intros st2 a rest out Hlog Ha Hkind Hin.
    split; [exact Hkind |]. split; [exact Hin |].
    exists l1, (log_line (PStr a :: PStr file :: rest)).
    simpl. rewrite Hlog, Hl1, <- app_assoc. split; [reflexivity |]. split; [| exact HP].
    rewrite Ha, String.eqb_refl. reflexivity. }
  assert (Hdone : forall (st2 : state E) (a : string) (rest out : text),
             log_file st2 = log_file st1 ->
             (String.eqb a "File: " || String.eqb a "Error processing ") = true ->
             (exists kind, classify out = Some kind) ->
             In (PStr file) out ->
             exists r st',
               bind E (Source.write_log E H (PStr a :: PStr file :: rest))
                 (fun _ => ret E out) st2 = (r, st')
               /\ match r with
                  | Ok message => reports_file file st message st'
                  | Raise e => sink_fault H e
                  end).
  { intros st2 a rest out Hlog Ha Hkind Hin. unfold bind, Source.write_log, ret.
    destruct (append_log H (log_file st2) _ (world st2)) as [e |] eqn:Happ.
    - do 2 eexists. split; [reflexivity |]. right. eauto.
    - do 2 eexists. split; [reflexivity |]. apply Hok; assumption. }
  destruct (is_set error).
  { apply (Hdone st1); [reflexivity | reflexivity | eexists; reflexivity | simpl; auto]. }
  destruct video as [v |], audio as [a |];
    try (apply (Hdone st1); [reflexivity | reflexivity | eexists; reflexivity | simpl; auto]).
  destruct (Num.flt v a);
    [| apply (Hdone st1); [reflexivity | reflexivity | eexists; reflexivity | simpl; auto]].
  unfold bind at 1, Source.mkvmerge_path, bind at 1, Source.os_getcwd.
  destruct (read_cwd H (world st1)) as [cwd1 | e] eqn:Hcwd1.
  2: { do 2 eexists. split; [reflexivity |]. left. eauto. }
  unfold ret at 1. rewrite try_spawn.
  destruct (spawn E _ (world st1)) as [r w].
  set (st2 := mk_state w (log_file st1) (spawned st1 ++ _)).
  assert (Hcaught : forall e : exn,
             exists r' st',
               bind E (Source.write_log E H
                         (lit "File: " ++ lit file ++ lit nl
                          ++ lit "Video Time: " ++ str_of_duration (Some v) ++ lit " s" ++ lit nl
                          ++ lit "Audio Time: " ++ str_of_duration (Some a) ++ lit " s" ++ lit nl
                          ++ lit "Error: " ++ exn_msg e ++ lit nl))
                 (fun _ => ret E (lit "Error executing mkvmerge for " ++ lit file ++ lit ": "
                                  ++ exn_msg e)) st2 = (r', st')
               /\ match r' with
                  | Ok message => reports_file file st message st'
                  | Raise e' => sink_fault H e'
                  end).
  { intros e. apply (Hdone st2); [reflexivity | reflexivity | eexists; reflexivity | simpl; auto]. }
  destruct r as [c | e]; [| apply Hcaught].
  destruct (returncode c =? 0); rewrite try_write;
    (destruct (append_log H (log_file st2) _ (world st2)) as [e |]; [apply Hcaught |]);
    do 2 eexists; (split; [reflexivity |]);
    apply (Hok st2); [reflexivity | reflexivity | eexists; reflexivity | simpl; auto
                      | reflexivity | reflexivity | eexists; reflexivity | simpl; auto].
Qed.

End AnyHost.

(** ** The decision and the remux run *)

(** C10, as the code has it. Whatever the tool runs, the decoder and the
    duration texts do (tool missing, non-zero exit, malformed JSON, malformed
    duration text, an exception of a spawn), processing one file returns a
    message of one of the three kinds that names the file, with the file's
    block logged, unless [os.getcwd()] or an append to the log raises: those
    calls are outside the [try] blocks, and what reaches the caller is their
    exception and no other. On a host where neither raises, a message is
    always returned. *)
Theorem sync_returns_unless_a_sink_raises (E : Env) (H : Host E) (input_file : string)
    (st : state E) :
  let run := Source.sync_audio_video E H input_file st in
  match fst run with
  | Ok message =>
      (exists kind, classify message = Some kind)
      /\ In (PStr input_file) message
      /\ exists entries block,
           log_file (snd run) = log_file st ++ entries ++ [block]
           /\ file_block input_file block = true
           /\ Forall parse_report entries
  | Raise e =>
      (exists w, read_cwd H w = Raise e)
      \/ (exists log message w, append_log H log message w = Some e)
  end
  /\ ((forall w, exists cwd, read_cwd H w = Ok cwd) ->
      (forall log message w, append_log H log message w = None) ->
      exists message, fst run = Ok message).
Proof.
  cbv zeta.
  destruct (sync_on E H input_file st) as (r & st' & -> & Hr). simpl.
  split; [destruct r; exact Hr |].
  intros Hcwd Hlog. destruct r as [message | e]; [eauto |].
  destruct Hr as [(w & Hw) | (log & message & w & Ha)].
  - destruct (Hcwd w) as (cwd & Hc). congruence.
  - rewrite Hlog in Ha. discriminate Ha.
Qed.

(** C10 as stated fails: with the working directory gone the call raises
    before anything is run, and when the log cannot take the file's name the
    call raises after the file has been remuxed. *)
Lemma sink_exceptions_reach_the_caller :
  Source.sync_audio_video short_video no_cwd "D:\in\a.mkv" (start short_video tt)
  = (Raise FileNotFoundError, start short_video tt)
  /\ fst (Source.sync_audio_video three_files unwritable_name "D:\in\b.mkv"
            (start three_files tt))
     = Raise UnicodeEncodeError
  /\ filter is_remux
       (spawned (snd (Source.sync_audio_video three_files unwritable_name "D:\in\b.mkv"
                        (start three_files tt))))
     = [sync_command three_files "D:\in\b.mkv" (Prim2SF 9%float) (Prim2SF 10%float)].
Proof.
  split; [vm_compute; reflexivity |].
  split; vm_compute; reflexivity.
Qed.

(** C1. The remux tool is run for a file if and only if the extraction
    yields both durations and the video one is smaller than the audio one;
    it is run at most once, and not at all in every other case. *)
Theorem remux_iff_video_shorter (E : Env) (input_file : string) (st : state E) :
  exists cmds,
    spawned (snd (sync_audio_video E input_file st)) = spawned st ++ cmds
    /\ ((exists v a error,
           fst (get_tag_durations_and_seconds E input_file st) = Ok (Some v, Some a, error)
           /\ Num.flt v a = true)
        <-> existsb is_remux cmds = true)
    /\ (List.length (filter is_remux cmds) <= 1)%nat.
Proof.
  destruct (extraction_run E input_file st)
    as (video & audio & error & st1 & Hx & Herr & (c1 & Hs1 & Hc1) & _).
  destruct (sync_after_extraction E input_file st st1 video audio error Hx)
    as (out & st2 & block & Hrun & _ & _ & Hs2).
  rewrite Hrun, Hx. simpl.
  exists (c1 ++ resync_commands E input_file error video audio).
  rewrite Hs2, Hs1, <- app_assoc. split; [reflexivity |].
  rewrite existsb_app, Hc1, filter_app. simpl.
  rewrite (no_remux_among c1 Hc1). simpl.
  unfold resync_commands, resync_pair.
  destruct Herr as [-> | (-> & -> & ->)]; simpl.
  - destruct video as [v |], audio as [a |]; simpl;
      try (split; [split; [intros (v' & a' & e' & Heq & _); discriminate Heq | discriminate] | lia]).
    destruct (Num.flt v a) eqn:Hlt; simpl.
    + split; [| lia]. split; [reflexivity |]. intros _. exists v, a, None. auto.
    + split; [| lia]. split; [| discriminate].
      intros (v' & a' & e' & Heq & Hlt'). injection Heq as -> -> _. congruence.
  - split; [| lia]. split; [| discriminate].
    intros (v' & a' & e' & Heq & _). discriminate Heq.
Qed.

(** C2. When the remux tool is run for durations [video] and [audio], its
    command line is exactly: the executable path, [-o], the output path,
    [--sync], the text [1:0,<video>/<audio>] with the two durations
    themselves (no quotient is computed), and the input path. *)
Theorem remux_command_line (E : Env) (input_file : string) (st : state E)
    (video audio : Num.float) (error : option text) :
  fst (get_tag_durations_and_seconds E input_file st) = Ok (Some video, Some audio, error) ->
  Num.flt video audio = true ->
  exists cmds,
    spawned (snd (sync_audio_video E input_file st)) = spawned st ++ cmds
    /\ filter is_remux cmds =
         [[ [PStr (path_join E (getcwd E) "mkvmerge.exe")];
            [PStr "-o"]; [PStr (output_path (os_flavour E) input_file)];
            [PStr "--sync"]; [PStr "1:0,"; PFloat video; PStr "/"; PFloat audio];
            [PStr input_file] ]].
Proof.
  intros Hex Hlt.
  destruct (extraction_run E input_file st)
    as (v & a & err & st1 & Hx & Herr & (c1 & Hs1 & Hc1) & _).
  rewrite Hx in Hex. simpl in Hex. injection Hex as -> -> ->.
  destruct (sync_after_extraction E input_file st st1 _ _ _ Hx)
    as (out & st2 & block & Hrun & _ & _ & Hs2).
  rewrite Hrun. simpl.
  exists (c1 ++ resync_commands E input_file error (Some video) (Some audio)).
  rewrite Hs2, Hs1, <- app_assoc. split; [reflexivity |].
  rewrite filter_app, (no_remux_among c1 Hc1). simpl.
  unfold resync_commands, resync_pair. rewrite Hlt.
  destruct Herr as [-> | (Hv & _)]; [| discriminate Hv].
  reflexivity.
Qed.

Lemma remux_command_line_witness :
  exists cmds,
    spawned (snd (sync_audio_video short_video "D:\in\a.mkv" (start short_video tt))) = cmds
    /\ filter is_remux cmds =
         [[ [PStr "C:\tools\mkvmerge.exe"]; [PStr "-o"]; [PStr "D:\in\a_1.mkv"];
            [PStr "--sync"];
            [PStr "1:0,"; PFloat (Prim2SF 9%float); PStr "/"; PFloat (Prim2SF 10%float)];
            [PStr "D:\in\a.mkv"] ]].
Proof.
  destruct (remux_command_line short_video "D:\in\a.mkv" (start short_video tt)
              (Prim2SF 9%float) (Prim2SF 10%float) None)
    as (cmds & Hs & Hf).
  - vm_compute. reflexivity.
  - vm_compute. reflexivity.
  - exists cmds. split; [exact Hs | exact Hf].
Defined.

(** C4, as the code has it. When the extraction succeeds and a duration
    is absent, the file's message is
    [Error: Unable to retrieve durations for <file>]: it reads as an error,
    not as a skip. The log block of the file ends with
    [Error: Unable to retrieve durations], and no remux is run. *)
Theorem absent_duration_is_reported (E : Env) (input_file : string) (st : state E)
    (video audio : option Num.float) (error : option text) :
  fst (get_tag_durations_and_seconds E input_file st) = Ok (video, audio, error) ->
  is_set error = false ->
  video = None \/ audio = None ->
  let run := sync_audio_video E input_file st in
  let message := lit "Error: Unable to retrieve durations for " ++ lit input_file in
  fst run = Ok message
  /\ classify message = Some Failed
  /\ (exists cmds, spawned (snd run) = spawned st ++ cmds /\ existsb is_remux cmds = false)
  /\ (exists entries details,
        log_file (snd run) = log_file st ++ entries
                               ++ [log_line (lit "File: " ++ lit input_file ++ details
                                             ++ lit "Error: Unable to retrieve durations" ++ lit nl)]).
Proof.
  intros Hex Herr Hnone run message.
  destruct (extraction_run E input_file st)
    as (v & a & err & st1 & Hx & _ & (c1 & Hs1 & Hc1) & (l1 & Hl1 & _)).
  rewrite Hx in Hex. simpl in Hex. injection Hex as -> -> ->.
  subst run. rewrite (sync_without_durations E input_file st st1 video audio error Hx Herr Hnone).
  simpl. split; [reflexivity |]. split; [reflexivity |]. split.
  - exists c1. auto.
  - exists l1.
    exists (lit nl ++ lit "Video Time: " ++ str_of_duration video ++ lit " s" ++ lit nl
            ++ lit "Audio Time: " ++ str_of_duration audio ++ lit " s" ++ lit nl).
    rewrite Hl1, <- !app_assoc. reflexivity.
Qed.

Lemma absent_duration_is_reported_witness :
  fst (sync_audio_video audio_only "D:\in\a.mkv" (start audio_only tt))
  = Ok [PStr "Error: Unable to retrieve durations for "; PStr "D:\in\a.mkv"].
Proof.
  apply (absent_duration_is_reported audio_only "D:\in\a.mkv" (start audio_only tt)
           None (Some (Prim2SF 10%float)) None).
  - vm_compute. reflexivity.
  - reflexivity.
  - left. reflexivity.
Defined.

(** C4 as stated fails: with only the audio track tagged the extraction
    succeeds, and the file's message is an error, not a skip. *)
Lemma absent_duration_not_a_skip :
  fst (get_tag_durations_and_seconds audio_only "D:\in\a.mkv" (start audio_only tt))
  = Ok (None, Some (Prim2SF 10%float), None)
  /\ fst (sync_audio_video audio_only "D:\in\a.mkv" (start audio_only tt))
     = Ok [PStr "Error: Unable to retrieve durations for "; PStr "D:\in\a.mkv"]
  /\ classify [PStr "Error: Unable to retrieve durations for "; PStr "D:\in\a.mkv"]
     = Some Failed
  /\ Some Failed <> Some Skipped.
Proof.
  split; [vm_compute; reflexivity |].
  split; [vm_compute; reflexivity |].
  split; [reflexivity | discriminate].
Qed.

(** ** Extraction from a well-formed document *)

Section Extraction.

Context (E : Env).

Lemma track_step_well_formed (track : json) times (st : state E) :
  well_formed_track track = true ->
  exists st',
    track_step E track times st
    = (Ok (updated "video" track (fst times), updated "audio" track (snd times)), st')
    /\ world st' = world st /\ spawned st' = spawned st
    /\ log_file st' = log_file st ++ report_of track.
Proof.
  intros Hwf. destruct track as [| | | | | | entries]; try discriminate Hwf.
  unfold track_step, Source.track_step, bind, lift, ret, updated, report_of, type_of_track,
    tag_of_track.
  reliably E. simpl in *.
  set (ty := match dict_lookup "type" entries with Some x => x | None => JStr "unknown" end).
  destruct (dict_lookup "properties" entries) as [props |].
  - destruct props as [| | | | | | ps]; try discriminate Hwf. simpl.
    set (tag := match dict_lookup "tag_duration" ps with Some x => x | None => JStr "unknown" end).
    destruct (eq_str tag "unknown") eqn:Hu; simpl.
    + rewrite !andb_false_r, app_nil_r. destruct times. eauto.
    + rewrite !andb_true_r, parse_duration_run. unfold seconds_of.
      assert (Ha : eq_str ty "video" = true -> eq_str ty "audio" = false).
      { intros Hv. destruct ty; try reflexivity. simpl in *.
        apply String.eqb_eq in Hv. subst. reflexivity. }
      destruct (duration_seconds tag) as [x | e];
        destruct (eq_str ty "video"); try rewrite (Ha eq_refl);
        try destruct (eq_str ty "audio"); destruct times;
        eexists; (split; [reflexivity |]); simpl; rewrite ?app_nil_r; auto.
  - simpl. rewrite !andb_false_r, app_nil_r. destruct times. eauto.
Qed.

Lemma last_opt_cons {A : Type} (x : A) (l : list A) :
  last_opt (x :: l) = match last_opt l with Some y => Some y | None => Some x end.
Proof.
  revert x. induction l as [| y l IH]; intros x; [reflexivity |].
  change (last_opt (x :: y :: l)) with (last_opt (y :: l)).
  rewrite (IH y). destruct (last_opt l); reflexivity.
Qed.

Lemma kept_cons (kind : string) (track : json) (tracks : list json) old :
  match last_opt (tagged kind (track :: tracks)) with
  | Some t => seconds_of t
  | None => old
  end
  = match last_opt (tagged kind tracks) with
    | Some t => seconds_of t
    | None => updated kind track old
    end.
Proof.
  unfold tagged, updated. simpl.
  destruct (eq_str (type_of_track track) kind && negb (eq_str (tag_of_track track) "unknown")).
  - simpl map. rewrite last_opt_cons.
    destruct (last_opt _); reflexivity.
  - reflexivity.
Qed.

(** The loop over well-formed tracks keeps, for each kind, the reading of
    the last tagged track of that kind, and logs the reports of the tracks. *)
Lemma for_each_well_formed (tracks : list json) times (st : state E) :
  forallb well_formed_track tracks = true ->
  exists st',
    for_each E tracks times (track_step E) st
    = (Ok (match last_opt (tagged "video" tracks) with
           | Some t => seconds_of t
           | None => fst times
           end,
           match last_opt (tagged "audio" tracks) with
           | Some t => seconds_of t
           | None => snd times
           end), st')
    /\ world st' = world st /\ spawned st' = spawned st
    /\ log_file st' = log_file st ++ reports_of tracks.
Proof.
  revert times st. induction tracks as [| track tracks IH]; intros times st Hwf.
  - simpl. unfold ret. rewrite app_nil_r. destruct times. eauto.
  - simpl in Hwf. apply andb_true_iff in Hwf as [Ht Hwf].
    rewrite !kept_cons. simpl. unfold bind.
    destruct (track_step_well_formed track times st Ht) as (st1 & -> & Hw1 & Hs1 & Hl1).
    destruct (IH (updated "video" track (fst times), updated "audio" track (snd times)) st1 Hwf)
      as (st2 & -> & Hw2 & Hs2 & Hl2).
    exists st2. split; [reflexivity |].
    rewrite Hw2, Hs2, Hl2, Hl1, <- app_assoc. auto.
Qed.

(** The extraction from a well-formed document. *)
Lemma extraction_of_well_formed (mkv_file : string) (st : state E)
    (c : completed) (w : World E) (info : list (string * json)) (tracks : list json) :
  isfile E (mkvmerge_path E) (world st) = true ->
  spawn E (inspect_command E mkv_file) (world st) = (Ok c, w) ->
  returncode c = 0 ->
  json_loads E (stdout c) = Ok (JDict info) ->
  dict_lookup "tracks" info = Some (JList tracks) ->
  forallb well_formed_track tracks = true ->
  exists st',
    get_tag_durations_and_seconds E mkv_file st
    = (Ok (last_tagged "video" tracks, last_tagged "audio" tracks, None), st')
    /\ log_file st' = log_file st ++ reports_of tracks.
Proof.
  intros Hp Hs Hr Hj Ht Hwf.
  unfold get_tag_durations_and_seconds, Source.get_tag_durations_and_seconds,
    Source.mkvmerge_path, Source.os_getcwd, bind, os_path_isfile, try_except, subprocess_run,
    lift, ret.
  reliably E.
  rewrite Hp. cbn beta iota delta [negb]. rewrite Hs.
  cbn beta iota. rewrite Hr. cbn beta iota delta [Z.eqb negb]. rewrite Hj.
  cbn beta iota delta [get]. rewrite Ht. cbn beta iota delta [iterate].
  destruct (for_each_well_formed tracks (None, None)
              (mk_state w (log_file st) (spawned st ++ [inspect_command E mkv_file])) Hwf)
    as (st' & -> & _ & _ & Hl).
  exists st'. split; [reflexivity | exact Hl].
Qed.

End Extraction.

(** C3, as the code has it. When the inspection document is well formed,
    the extraction assigns to [video] the reading of the LAST video track
    whose tag_duration is not "unknown", and to [audio] that of the last
    such audio track: a later tagged track of a kind replaces an earlier
    one. *)
Theorem extraction_keeps_last_tagged (E : Env) (mkv_file : string) (st : state E)
    (c : completed) (w : World E) (info : list (string * json)) (tracks : list json) :
  isfile E (mkvmerge_path E) (world st) = true ->
  spawn E (inspect_command E mkv_file) (world st) = (Ok c, w) ->
  returncode c = 0 ->
  json_loads E (stdout c) = Ok (JDict info) ->
  dict_lookup "tracks" info = Some (JList tracks) ->
  forallb well_formed_track tracks = true ->
  fst (get_tag_durations_and_seconds E mkv_file st)
  = Ok (last_tagged "video" tracks, last_tagged "audio" tracks, None).
Proof.
  intros Hp Hs Hr Hj Ht Hwf.
  destruct (extraction_of_well_formed E mkv_file st c w info tracks Hp Hs Hr Hj Ht Hwf)
    as (st' & -> & _).
  reflexivity.
Qed.

Lemma extraction_keeps_last_tagged_witness :
  fst (get_tag_durations_and_seconds two_of_each "D:\in\a.mkv" (start two_of_each tt))
  = Ok (Some (Prim2SF 2%float), Some (Prim2SF 5%float), None).
Proof.
  apply (extraction_keeps_last_tagged two_of_each "D:\in\a.mkv" (start two_of_each tt)
           (Completed 0 "{...}" "") tt
           [("tracks", JList [track "video" "0:00:01"; track "video" "0:00:02";
                              track "audio" "0:00:03"; track "audio" "0:00:05"])]
           [track "video" "0:00:01"; track "video" "0:00:02";
            track "audio" "0:00:03"; track "audio" "0:00:05"]);
    reflexivity.
Defined.

(** C3 as stated fails: of two tagged video tracks (1 s, then 2 s) and two
    tagged audio tracks (3 s, then 5 s) the extraction keeps 2 s and 5 s,
    while the first tagged tracks read 1 s and 3 s. *)
Lemma extraction_does_not_keep_first :
  let tracks := [track "video" "0:00:01"; track "video" "0:00:02";
                 track "audio" "0:00:03"; track "audio" "0:00:05"] in
  json_loads two_of_each "{...}" = Ok (document tracks)
  /\ fst (get_tag_durations_and_seconds two_of_each "D:\in\a.mkv" (start two_of_each tt))
     = Ok (Some (Prim2SF 2%float), Some (Prim2SF 5%float), None)
  /\ first_tagged "video" tracks = Some (Prim2SF 1%float)
  /\ first_tagged "audio" tracks = Some (Prim2SF 3%float)
  /\ Prim2SF 2%float <> Prim2SF 1%float
  /\ Prim2SF 5%float <> Prim2SF 3%float.
Proof.
  cbv zeta.
  split; [reflexivity |].
  split; [vm_compute; reflexivity |].
  split; [vm_compute; reflexivity |].
  split; [vm_compute; reflexivity |].
  split; vm_compute; discriminate.
Qed.

(** ** The log entries of a file *)

(** C9, as the code has it. Processing a file appends exactly one block
    for the file, whatever the outcome, as the last of its log entries;
    before it comes one report for each tagged duration whose reading
    failed, so the entries of a file are one more than its failed readings.
    For a well-formed document the reports are those of its tracks, in
    order. *)
Theorem log_entries_of_a_file (E : Env) (input_file : string) (st : state E) :
  (exists reports block,
     log_file (snd (sync_audio_video E input_file st)) = log_file st ++ reports ++ [block]
     /\ file_block input_file block = true
     /\ Forall (fun r => parse_report r /\ file_block input_file r = false) reports)
  /\ (forall c w info tracks,
        isfile E (mkvmerge_path E) (world st) = true ->
        spawn E (inspect_command E input_file) (world st) = (Ok c, w) ->
        returncode c = 0 ->
        json_loads E (stdout c) = Ok (JDict info) ->
        dict_lookup "tracks" info = Some (JList tracks) ->
        forallb well_formed_track tracks = true ->
        exists block,
          log_file (snd (sync_audio_video E input_file st))
          = log_file st ++ reports_of tracks ++ [block]
          /\ file_block input_file block = true).
Proof.
  split.
  - destruct (extraction_run E input_file st)
      as (v & a & err & st1 & Hx & _ & _ & (l1 & Hl1 & HP)).
    destruct (sync_after_extraction E input_file st st1 v a err Hx)
      as (out & st2 & block & Hrun & Hl2 & Hb & _).
    rewrite Hrun. simpl. exists l1, block.
    rewrite Hl2, Hl1, <- app_assoc. split; [reflexivity |]. split; [exact Hb |].
    eapply Forall_impl; [| exact HP].
    intros r Hr. split; [exact Hr | apply parse_report_not_block; exact Hr].
  - intros c w info tracks Hp Hs Hr Hj Ht Hwf.
    destruct (extraction_of_well_formed E input_file st c w info tracks Hp Hs Hr Hj Ht Hwf)
      as (st1 & Hx & Hl1).
    destruct (sync_after_extraction E input_file st st1 _ _ _ Hx)
      as (out & st2 & block & Hrun & Hl2 & Hb & _).
    rewrite Hrun. simpl. exists block.
    rewrite Hl2, Hl1, <- app_assoc. auto.
Qed.

Lemma log_entries_of_a_file_witness :
  exists block,
    log_file (snd (sync_audio_video bad_tag "D:\in\a.mkv" (start bad_tag tt)))
    = [ [PStr "Error parsing duration '"; PStr "abc"; PStr "': ";
         PStr "Invalid duration format"; PStr nl]; block ]
    /\ file_block "D:\in\a.mkv" block = true.
Proof.
  destruct (log_entries_of_a_file bad_tag "D:\in\a.mkv" (start bad_tag tt)) as [_ Hdoc].
  destruct (Hdoc (Completed 0 "{...}" "") tt
              [("tracks", JList [track "video" "abc"; track "audio" "0:00:10"])]
              [track "video" "abc"; track "audio" "0:00:10"]
              eq_refl eq_refl eq_refl eq_refl eq_refl eq_refl)
    as (block & Hlog & Hblock).
  exists block. split; [exact Hlog | exact Hblock].
Defined.

(** C9 as stated fails: a video tag that is not a duration adds a report
    of its own, and the file has two log entries. *)
Lemma two_log_entries_for_one_file :
  log_file (snd (sync_audio_video bad_tag "D:\in\a.mkv" (start bad_tag tt)))
  = [ [PStr "Error parsing duration '"; PStr "abc"; PStr "': ";
       PStr "Invalid duration format"; PStr nl];
      [PStr "File: "; PStr "D:\in\a.mkv"; PStr nl;
       PStr "Video Time: "; PStr "None"; PStr " s"; PStr nl;
       PStr "Audio Time: "; PFloat (Prim2SF 10%float); PStr " s"; PStr nl;
       PStr "Error: Unable to retrieve durations"; PStr nl; PStr nl] ].
Proof.
  vm_compute. reflexivity.
Qed.

(** ** Folder runs *)

Lemma length_lower (s : string) : String.length (Str.lower s) = String.length s.
Proof.
  induction s as [| c s IH]; simpl; congruence.
Qed.

Lemma drop_lower (n : nat) (s : string) : Str.drop n (Str.lower s) = Str.lower (Str.drop n s).
Proof.
  revert n. induction s as [| c s IH]; intros [| n]; simpl; auto.
Qed.

Ltac every_char c := destruct c as [[] [] [] [] [] [] [] []]; reflexivity.

Lemma plain_dot : plain ".".
Proof. intros c. every_char c. Qed.

Lemma plain_m : plain "m".
Proof. intros c. every_char c. Qed.

Lemma plain_k : plain "k".
Proof. intros c. every_char c. Qed.

Lemma plain_v : plain "v".
Proof. intros c. every_char c. Qed.

Lemma lower_eqb_same_letters (t suffix : string) :
  Forall plain (list_ascii_of_string suffix) ->
  String.eqb (Str.lower t) suffix = same_letters t suffix.
Proof.
  revert suffix. induction t as [| c t IH]; intros [| x suffix] Hp; try reflexivity.
  cbn [Str.lower String.eqb same_letters list_ascii_of_string] in *.
  inversion Hp as [| ? ? Hx Hrest]; subst.
  rewrite (IH suffix Hrest), (Hx c). reflexivity.
Qed.

(** The test of line 117 is the case-insensitive suffix test. *)
Lemma endswith_lower_mkv (name : string) :
  Str.endswith (Str.lower name) ".mkv" = ends_with_ci name ".mkv".
Proof.
  unfold Str.endswith, ends_with_ci. rewrite length_lower, drop_lower.
  f_equal. apply lower_eqb_same_letters.
  repeat constructor; [apply plain_dot | apply plain_m | apply plain_k | apply plain_v].
Qed.

Section Folder.

Context (E : Env).

Lemma folder_loop (folder_path : string) (names : list string) (acc : list text)
    (st : state E) :
  exists outcomes st',
    for_each E names acc
      (fun file results =>
         if Str.endswith (Str.lower file) ".mkv" then
           bind E (sync_audio_video E (path_join E folder_path file))
             (fun result => ret E (results ++ [result]))
         else ret E results) st
    = (Ok (acc ++ outcomes), st')
    /\ processed E (reliable E)
         (map (path_join E folder_path) (filter (fun n => ends_with_ci n ".mkv") names))
         st outcomes st'.
Proof.
  revert acc st. induction names as [| name names IH]; intros acc st.
  - exists [], st. simpl. rewrite app_nil_r. split; [reflexivity | constructor].
  - simpl. rewrite <- endswith_lower_mkv.
    destruct (Str.endswith (Str.lower name) ".mkv").
    + unfold bind at 1. unfold bind at 1.
      destruct (sync_total E (path_join E folder_path name) st) as (out & st1 & Hrun).
      rewrite Hrun. unfold ret at 1.
      destruct (IH (acc ++ [out]) st1) as (outs & st2 & Hloop & Hp).
      exists (out :: outs), st2. split.
      * rewrite Hloop, <- app_assoc. reflexivity.
      * simpl. econstructor; eassumption.
    + unfold bind at 1, ret at 1. apply IH.
Qed.

Lemma processed_length (H : Host E) files (st st' : state E) outcomes :
  processed E H files st outcomes st' -> List.length outcomes = List.length files.
Proof.
  induction 1; simpl; congruence.
Qed.

End Folder.

(** The loop of [process_folder] on any host: it runs to the end, or stops
    at the first file whose processing raises. *)
Lemma folder_loop_on (E : Env) (H : Host E) (folder_path : string) (names : list string)
    (acc : list text) (st : state E) :
  exists r st',
    for_each E names acc
      (fun file results =>
         if Str.endswith (Str.lower file) ".mkv" then
           bind E (Source.sync_audio_video E H (path_join E folder_path file))
             (fun result => ret E (results ++ [result]))
         else ret E results) st
    = (r, st')
    /\ match r with
       | Ok results =>
           exists outcomes,
             results = acc ++ outcomes
             /\ processed E H (mkv_files E folder_path names) st outcomes st'
       | Raise e =>
           exists done file rest outcomes st1,
             mkv_files E folder_path names = done ++ file :: rest
             /\ processed E H done st outcomes st1
             /\ Source.sync_audio_video E H file st1 = (Raise e, st')
       end.
Proof.
  revert acc st. induction names as [| name names IH]; intros acc st.
  - exists (Ok acc), st. split; [reflexivity |].
    exists []. rewrite app_nil_r. split; [reflexivity | constructor].
  - unfold mkv_files in *. simpl. rewrite <- endswith_lower_mkv.
    destruct (Str.endswith (Str.lower name) ".mkv").
    + unfold bind at 1. unfold bind at 1.
      destruct (Source.sync_audio_video E H (path_join E folder_path name) st)
        as [[out | e] st1] eqn:Hrun.
      * unfold ret at 1.
        destruct (IH (acc ++ [out]) st1) as (r & st2 & -> & Hr).
        exists r, st2. split; [reflexivity |].
        destruct r as [results | e].
        -- destruct Hr as (outs & -> & Hp).
           exists (out :: outs). rewrite <- app_assoc. split; [reflexivity |].
           simpl. econstructor; eassumption.
        -- destruct Hr as (done & file & rest & outs & st3 & Hfiles & Hp & Hraise).
           exists (path_join E folder_path name :: done), file, rest, (out :: outs), st3.
           simpl. rewrite Hfiles. split; [reflexivity |]. split; [| exact Hraise].
           econstructor; eassumption.
      * exists (Raise e), st1. split; [reflexivity |].
        exists []. do 2 eexists. exists [], st.
        split; [reflexivity |]. split; [constructor | exact Hrun].
    + unfold bind at 1, ret at 1. apply IH.
Qed.

(** C8, as the code has it. For every folder that can be listed,
    [process_folder] takes the entries whose names end with [.mkv] whatever
    the case of the letters, in the order of the listing, and processes each
    after its predecessors. A file that ends in an error message, at any
    stage, stops nothing: when every file returns, there is one outcome for
    each, in order. A file whose processing raises, which only an exception
    of [os.getcwd()] or of an append to the log makes it do, ends the run
    with that exception: the files after it are not processed and no outcome
    is returned. On a host where neither raises the run is always
    complete. *)
Theorem folder_run_completes_or_aborts (E : Env) (H : Host E) (folder_path : string)
    (st : state E) (names : list string) :
  listdir E folder_path (world st) = Ok names ->
  let files := map (path_join E folder_path) (filter (fun n => ends_with_ci n ".mkv") names) in
  let run := Source.process_folder E H folder_path st in
  ((exists outcomes,
      fst run = Ok outcomes
      /\ List.length outcomes = List.length files
      /\ processed E H files st outcomes (snd run))
   \/ (exists done file rest outcomes st1 e,
         files = done ++ file :: rest
         /\ processed E H done st outcomes st1
         /\ Source.sync_audio_video E H file st1 = (Raise e, snd run)
         /\ fst run = Raise e
         /\ ((exists w, read_cwd H w = Raise e)
             \/ (exists log message w, append_log H log message w = Some e))))
  /\ ((forall w, exists cwd, read_cwd H w = Ok cwd) ->
      (forall log message w, append_log H log message w = None) ->
      exists outcomes,
        fst run = Ok outcomes
        /\ List.length outcomes = List.length files
        /\ processed E H files st outcomes (snd run)).
Proof.
  intros Hl files run.
  assert (Hcases :
            (exists outcomes,
               fst run = Ok outcomes
               /\ List.length outcomes = List.length files
               /\ processed E H files st outcomes (snd run))
            \/ (exists done file rest outcomes st1 e,
                  files = done ++ file :: rest
                  /\ processed E H done st outcomes st1
                  /\ Source.sync_audio_video E H file st1 = (Raise e, snd run)
                  /\ fst run = Raise e
                  /\ sink_fault H e)).
  { destruct (folder_loop_on E H folder_path names [] st) as (r & st' & Hloop & Hr).
    assert (Hrun : run = (r, st')).
    { rewrite <- Hloop. subst run.
      unfold Source.process_folder, bind at 1, os_listdir. rewrite Hl. reflexivity. }
    clearbody run. subst run.
    destruct r as [results | e]; simpl.
    - left. destruct Hr as (outs & -> & Hp). exists outs.
      split; [reflexivity |]. split; [| exact Hp].
      eapply processed_length. exact Hp.
    - right. destruct Hr as (done & file & rest & outs & st1 & Hfiles & Hp & Hraise).
      exists done, file, rest, outs, st1, e.
      split; [exact Hfiles |]. split; [exact Hp |]. split; [exact Hraise |].
      split; [reflexivity |].
      destruct (sync_on E H file st1) as (r & st2 & Hrun & Hfault).
      rewrite Hraise in Hrun. injection Hrun as <- <-. exact Hfault. }
  split; [exact Hcases |].
  intros Hcwd Hlog.
  destruct Hcases as [Hdone | (done & file & rest & outs & st1 & e & _ & _ & _ & _ & Hfault)];
    [exact Hdone |].
  destruct Hfault as [(w & Hw) | (log & message & w & Ha)].
  - destruct (Hcwd w) as (cwd & Hc). congruence.
  - rewrite Hlog in Ha. discriminate Ha.
Qed.

Lemma folder_run_completes_or_aborts_witness :
  exists st',
    process_folder folder "D:\in" (start folder tt)
    = (Ok [ [PStr "Error processing "; PStr "D:\in\a.MKV"; PStr ": ";
             PStr "Error running mkvmerge: "; PStr "cannot open"];
            [PStr "Success: "; PStr "D:\in\b.mkv"; PStr " -> "; PStr "D:\in\b_1.mkv"] ],
       st').
Proof.
  destruct (folder_run_completes_or_aborts folder (reliable folder) "D:\in" (start folder tt)
              ["a.MKV"; "notes.txt"; "b.mkv"] eq_refl)
    as [_ Hcomplete].
  destruct Hcomplete as (outcomes & Hrun & _ & _).
  - intros w. exists "C:\tools". reflexivity.
  - intros log message w. reflexivity.
  - exists (snd (process_folder folder "D:\in" (start folder tt))).
    vm_compute in Hrun. vm_compute. injection Hrun as <-. reflexivity.
Defined.

(** C8 as stated fails: of three [.mkv] entries the second has a name the
    log cannot take; the first is processed, the second is remuxed and then
    raises, the run ends with that exception without an outcome, and the
    third is never inspected. *)
Lemma one_file_aborts_the_folder_run :
  listdir three_files "D:\in" tt = Ok ["a.mkv"; "b.mkv"; "c.mkv"]
  /\ fst (Source.process_folder three_files unwritable_name "D:\in" (start three_files tt))
     = Raise UnicodeEncodeError
  /\ spawned (snd (Source.process_folder three_files unwritable_name "D:\in"
                     (start three_files tt)))
     = [ inspect_command three_files "D:\in\a.mkv";
         sync_command three_files "D:\in\a.mkv" (Prim2SF 9%float) (Prim2SF 10%float);
         inspect_command three_files "D:\in\b.mkv";
         sync_command three_files "D:\in\b.mkv" (Prim2SF 9%float) (Prim2SF 10%float) ].
Proof.
  split; [reflexivity |].
  split; vm_compute; reflexivity.
Qed.

(** ** Strings *)

Local Open Scope string_scope.

Lemma append_assoc (a b c : string) : (a ++ b) ++ c = a ++ b ++ c.
Proof.
  induction a as [| x a IH]; simpl; congruence.
Qed.

Lemma append_nil_r (a : string) : a ++ "" = a.
Proof.
  induction a as [| x a IH]; simpl; congruence.
Qed.

Lemma length_append (a b : string) :
  String.length (a ++ b) = (String.length a + String.length b)%nat.
Proof.
  induction a as [| x a IH]; simpl; congruence.
Qed.

Lemma take_drop (n : nat) (s : string) : Str.take n s ++ Str.drop n s = s.
Proof.
  revert n. induction s as [| c s IH]; intros [| n]; simpl; try reflexivity.
  rewrite IH. reflexivity.
Qed.

Lemma drop_append (a b : string) : Str.drop (String.length a) (a ++ b) = b.
Proof.
  induction a as [| x a IH]; simpl; [destruct b |]; auto.
Qed.

Lemma take_append (a b : string) : Str.take (String.length a) (a ++ b) = a.
Proof.
  induction a as [| x a IH]; simpl; [destruct b; reflexivity | congruence].
Qed.

Lemma contains_append (c : ascii) (a b : string) :
  Str.contains c (a ++ b) = Str.contains c a || Str.contains c b.
Proof.
  induction a as [| x a IH]; simpl; [reflexivity |].
  rewrite IH, orb_assoc. reflexivity.
Qed.

Lemma contains_drop (c : ascii) (n : nat) (s : string) :
  Str.contains c s = false -> Str.contains c (Str.drop n s) = false.
Proof.
  revert n. induction s as [| a s IH]; intros [| n] H; simpl in *; auto.
  apply orb_false_iff in H as [_ H]. auto.
Qed.

Lemma rfind_from_last_index (c : ascii) (s : string) (i last : Z) :
  Str.rfind_from c s i last
  = match last_index c s with
    | Some k => i + Z.of_nat k
    | None => last
    end.
Proof.
  revert i last. induction s as [| a s IH]; intros i last; simpl; [reflexivity |].
  rewrite IH. destruct (last_index c s) as [k |].
  - lia.
  - destruct (Ascii.eqb a c); lia.
Qed.

Lemma rfind_last_index (c : ascii) (s : string) :
  Str.rfind c s = index_or (last_index c s) (-1).
Proof.
  unfold Str.rfind. rewrite rfind_from_last_index.
  destruct (last_index c s); reflexivity.
Qed.

Lemma last_index_none (c : ascii) (s : string) :
  last_index c s = None -> Str.contains c s = false.
Proof.
  induction s as [| a s IH]; simpl; [reflexivity |].
  destruct (last_index c s); [discriminate |].
  destruct (Ascii.eqb a c); [discriminate |].
  intros _. simpl. auto.
Qed.

(** At the last index of [c] stands [c], and none follows. *)
Lemma last_index_some (c : ascii) (s : string) (k : nat) :
  last_index c s = Some k ->
  Str.drop k s = String c (Str.drop (S k) s)
  /\ Str.contains c (Str.drop (S k) s) = false
  /\ (k < String.length s)%nat.
Proof.
  revert k. induction s as [| a s IH]; intros k; simpl; [discriminate |].
  destruct (last_index c s) as [j |] eqn:Hj.
  - intros [= <-]. destruct (IH j eq_refl) as (Hd & Hc & Hl).
    simpl. repeat split; [exact Hd | exact Hc | lia].
  - destruct (Ascii.eqb a c) eqn:Ha; [| discriminate].
    intros [= <-]. apply Ascii.eqb_eq in Ha. subst a. simpl.
    repeat split; [| lia].
    destruct s; simpl; apply last_index_none in Hj; exact Hj.
Qed.

Lemma last_index_clean (c : ascii) (b : string) :
  Str.contains c b = false -> last_index c b = None.
Proof.
  intros Hb. destruct (last_index c b) as [k |] eqn:Hk; [| reflexivity].
  apply last_index_some in Hk as (Hd & _ & _).
  assert (Hc : Str.contains c (Str.drop k b) = false) by (apply contains_drop; exact Hb).
  rewrite Hd in Hc. simpl in Hc. rewrite Ascii.eqb_refl in Hc. discriminate.
Qed.

Lemma last_index_append_clean (c : ascii) (a b : string) :
  Str.contains c b = false -> last_index c (a ++ b) = last_index c a.
Proof.
  intros Hb. induction a as [| x a IH]; simpl.
  - apply last_index_clean. exact Hb.
  - rewrite IH. reflexivity.
Qed.

Lemma last_index_at (c : ascii) (a b : string) :
  Str.contains c b = false -> last_index c (a ++ String c b) = Some (String.length a).
Proof.
  intros Hb. induction a as [| x a IH]; simpl.
  - rewrite (last_index_clean c b Hb), Ascii.eqb_refl. reflexivity.
  - rewrite IH. reflexivity.
Qed.

Lemma last_index_lt (c : ascii) (s : string) :
  index_or (last_index c s) (-1) < Z.of_nat (String.length s).
Proof.
  destruct (last_index c s) as [k |] eqn:Hk; simpl.
  - apply last_index_some in Hk as (_ & _ & Hl). lia.
  - lia.
Qed.

Lemma drop_drop (n m : nat) (s : string) : Str.drop n (Str.drop m s) = Str.drop (m + n) s.
Proof.
  revert m. induction s as [| a s IH]; intros [| m]; simpl; try reflexivity.
  - destruct n; reflexivity.
  - apply IH.
Qed.

(** No [c] after an index beyond the last [c]. *)
Lemma contains_after_last (c : ascii) (s : string) (n : nat) :
  index_or (last_index c s) (-1) < Z.of_nat n ->
  Str.contains c (Str.drop n s) = false.
Proof.
  destruct (last_index c s) as [k |] eqn:Hk; simpl; intros Hn.
  - apply last_index_some in Hk as (_ & Hc & _).
    replace n with (S k + (n - S k))%nat by lia.
    rewrite <- drop_drop. apply contains_drop. exact Hc.
  - apply contains_drop. apply last_index_none. exact Hk.
Qed.

Lemma char_at_append (a : string) (c : ascii) (b : string) :
  Str.char_at (a ++ String c b) (Z.of_nat (String.length a)) = String c "".
Proof.
  unfold Str.char_at. rewrite Nat2Z.id, drop_append. destruct b; reflexivity.
Qed.

(** ** The two parts of a path *)

Lemma skip_leading_dots_cases (p : string) (x : ascii) (dotIndex j : Z) (fuel : nat) :
  skip_leading_dots p x dotIndex j fuel = (p, "")
  \/ skip_leading_dots p x dotIndex j fuel = (Str.slice_to p dotIndex, Str.slice_from p dotIndex).
Proof.
  revert j. induction fuel as [| fuel IH]; intros j; simpl.
  - left. unfold Str.slice_to. simpl. destruct p; reflexivity.
  - destruct (negb _); [right; reflexivity | apply IH].
Qed.

(** A character other than the dot between the two indices makes the loop
    split the path at the dot. *)
Lemma skip_leading_dots_found (p : string) (x : ascii) (dotIndex j k : Z) (fuel : nat) :
  Z.of_nat fuel = dotIndex - j ->
  j <= k < dotIndex ->
  Str.char_at p k <> String x "" ->
  skip_leading_dots p x dotIndex j fuel = (Str.slice_to p dotIndex, Str.slice_from p dotIndex).
Proof.
  revert j. induction fuel as [| fuel IH]; intros j Hf Hk Hc; simpl.
  - lia.
  - destruct (String.eqb (Str.char_at p j) (String x "")) eqn:Hj; simpl; [| reflexivity].
    apply String.eqb_eq in Hj.
    assert (j <> k) by (intros ->; contradiction).
    apply IH; [lia | lia | exact Hc].
Qed.

Lemma splitext_unfold (f : flavour) (p : string) :
  splitext f p
  = if (sep_index f p <? Str.rfind "." p)%Z then
      skip_leading_dots p "." (Str.rfind "." p) (sep_index f p + 1)
        (Z.to_nat (Str.rfind "." p - (sep_index f p + 1)))
    else (p, "").
Proof.
  unfold splitext, _splitext, sep_index.
  destruct (altsep_of f); destruct (_ <? _)%Z; try reflexivity;
    unfold Str.slice_to; simpl; destruct p; reflexivity.
Qed.

Lemma no_separator_after (f : flavour) (p : string) (n : nat) :
  sep_index f p < Z.of_nat n -> no_separator f (Str.drop n p) = true.
Proof.
  unfold sep_index, no_separator. rewrite !rfind_last_index.
  destruct (altsep_of f) as [a |]; intros H.
  - rewrite rfind_last_index in H.
    rewrite !contains_after_last by lia. reflexivity.
  - rewrite contains_after_last by lia. reflexivity.
Qed.

Lemma sep_index_append_clean (f : flavour) (a b : string) :
  no_separator f b = true -> sep_index f (a ++ b) = sep_index f a.
Proof.
  unfold no_separator, sep_index. rewrite !rfind_last_index. intros H.
  apply andb_true_iff in H as [H1 H2]. apply negb_true_iff in H1.
  rewrite (last_index_append_clean _ a b H1).
  destruct (altsep_of f) as [x |]; [| reflexivity].
  apply negb_true_iff in H2.
  rewrite !rfind_last_index, (last_index_append_clean _ a b H2). reflexivity.
Qed.

Lemma sep_index_lt (f : flavour) (p : string) : sep_index f p < Z.of_nat (String.length p).
Proof.
  unfold sep_index. rewrite !rfind_last_index.
  pose proof (last_index_lt (sep_of f) p).
  destruct (altsep_of f) as [a |]; [| assumption].
  rewrite rfind_last_index. pose proof (last_index_lt a p). lia.
Qed.

(** Where [splitext] cuts: nowhere, or at the last dot of the path, which
    then lies after the last separator. *)
Lemma splitext_sound (f : flavour) (p : string) :
  splitext f p = (p, "")
  \/ exists e,
       splitext f p = (Str.take (String.length p - S (String.length e)) p, String "." e)
       /\ Str.contains "." e = false /\ no_separator f e = true.
Proof.
  rewrite splitext_unfold.
  destruct (sep_index f p <? Str.rfind "." p)%Z eqn:Hlt; [| left; reflexivity].
  apply Z.ltb_lt in Hlt.
  destruct (skip_leading_dots_cases p "." (Str.rfind "." p) (sep_index f p + 1)
              (Z.to_nat (Str.rfind "." p - (sep_index f p + 1)))) as [-> | ->];
    [left; reflexivity | right].
  rewrite rfind_last_index in *.
  destruct (last_index "." p) as [k |] eqn:Hk; simpl in *.
  2: { pose proof (sep_index_lt f p).
       assert (-1 <= sep_index f p); [| lia].
       unfold sep_index. rewrite !rfind_last_index.
       destruct (altsep_of f); [rewrite rfind_last_index |];
         destruct (last_index _ p); simpl; try destruct (last_index _ p); simpl; lia. }
  pose proof (last_index_some "." p k Hk) as (Hd & Hc & Hl).
  exists (Str.drop (S k) p).
  unfold Str.slice_to, Str.slice_from. rewrite Nat2Z.id, Hd.
  assert (Hlen : String.length (Str.drop (S k) p) = (String.length p - S k)%nat).
  { pose proof (f_equal String.length (take_drop (S k) p)) as H.
    rewrite length_append in H.
    assert (String.length (Str.take (S k) p) = S k); [| lia].
    clear - Hl. revert k Hl. induction p as [| a p IH]; intros k Hl; simpl in *; [lia |].
    destruct k; [destruct p; reflexivity |].
    f_equal. apply IH. lia. }
  rewrite Hlen. replace (String.length p - S (String.length p - S k))%nat with k by lia.
  split; [reflexivity |]. split; [exact Hc |].
  apply no_separator_after. lia.
Qed.

Lemma splitext_append (f : flavour) (p : string) :
  fst (splitext f p) ++ snd (splitext f p) = p.
Proof.
  rewrite splitext_unfold. destruct (_ <? _)%Z; [| apply append_nil_r].
  destruct (skip_leading_dots_cases p "." (Str.rfind "." p) (sep_index f p + 1)
              (Z.to_nat (Str.rfind "." p - (sep_index f p + 1)))) as [-> | ->]; simpl.
  - apply append_nil_r.
  - apply take_drop.
Qed.

Lemma not_all_dots (stem : string) :
  Str.all_chars Str.is_dot stem = false ->
  exists s1 c s2, stem = s1 ++ String c s2 /\ c <> "."%char.
Proof.
  induction stem as [| a stem IH]; cbn [Str.all_chars]; [discriminate |].
  destruct (Str.is_dot a) eqn:Ha; cbn [andb].
  - intros H. destruct (IH H) as (s1 & c & s2 & -> & Hc).
    exists (String a s1), c, s2. auto.
  - intros _. exists "", a, stem. split; [reflexivity |].
    apply Ascii.eqb_neq in Ha. exact Ha.
Qed.

Lemma no_separator_append (f : flavour) (a b : string) :
  no_separator f (a ++ b) = no_separator f a && no_separator f b.
Proof.
  unfold no_separator. rewrite contains_append.
  destruct (altsep_of f) as [x |]; [rewrite contains_append |];
    repeat destruct (Str.contains _ _); reflexivity.
Qed.

(** A file name with a stem that is not made of dots alone and a last dot
    is cut at that dot. *)
Lemma splitext_complete (f : flavour) (d stem e : string) :
  Str.all_chars Str.is_dot stem = false ->
  no_separator f stem = true ->
  Str.contains "." e = false ->
  no_separator f e = true ->
  splitext f (d ++ stem ++ String "." e) = (d ++ stem, String "." e).
Proof.
  intros Hstem Hs1 He Hs2.
  destruct (not_all_dots stem Hstem) as (s1 & c & s2 & -> & Hc).
  set (p := d ++ (s1 ++ String c s2) ++ String "." e).
  assert (Hp1 : p = (d ++ s1 ++ String c s2) ++ String "." e).
  { unfold p. rewrite !append_assoc. reflexivity. }
  assert (Hp2 : p = (d ++ s1) ++ String c (s2 ++ String "." e)).
  { unfold p. rewrite !append_assoc. reflexivity. }
  assert (Hdot : Str.rfind "." p = Z.of_nat (String.length (d ++ s1 ++ String c s2))).
  { rewrite rfind_last_index, Hp1, (last_index_at "." _ e He). reflexivity. }
  assert (Hsep : sep_index f p < Z.of_nat (String.length d)).
  { unfold p. rewrite sep_index_append_clean; [apply sep_index_lt |].
    rewrite no_separator_append, Hs1. simpl.
    change (String "." e) with ("." ++ e). rewrite no_separator_append, Hs2.
    destruct f; reflexivity. }
  rewrite splitext_unfold. fold p.
  assert (Hlen : String.length (d ++ s1 ++ String c s2)
                 = (String.length d + String.length s1 + S (String.length s2))%nat).
  { rewrite !length_append. simpl. lia. }
  assert (Hlt : (sep_index f p <? Str.rfind "." p)%Z = true).
  { apply Z.ltb_lt. rewrite Hdot, Hlen. lia. }
  rewrite Hlt.
  rewrite (skip_leading_dots_found p "." _ _ (Z.of_nat (String.length (d ++ s1)))).
  - rewrite Hdot. unfold Str.slice_to, Str.slice_from. rewrite Nat2Z.id.
    rewrite Hp1, take_append, drop_append. rewrite ?append_assoc. reflexivity.
  - rewrite Hdot, Hlen. lia.
  - rewrite Hdot, Hlen, length_append. lia.
  - rewrite Hp2, char_at_append. intros [= ->]. apply Hc. reflexivity.
Qed.

(** A file name without a dot has no extension. *)
Lemma splitext_no_dot (f : flavour) (dir name : string) :
  dir = "" \/ (exists d0 s, dir = d0 ++ String s "" /\ is_separator f s) ->
  Str.contains "." name = false ->
  no_separator f name = true ->
  splitext f (dir ++ name) = (dir ++ name, "").
Proof.
  intros Hdir Hdot Hsep.
  rewrite splitext_unfold.
  assert (Hlt : (sep_index f (dir ++ name) <? Str.rfind "." (dir ++ name))%Z = false);
    [| rewrite Hlt; reflexivity].
  apply Z.ltb_ge.
  rewrite sep_index_append_clean by exact Hsep.
  rewrite rfind_last_index, (last_index_append_clean "." dir name Hdot).
  destruct Hdir as [-> | (d0 & s & -> & Hs)].
  - destruct f; vm_compute; discriminate.
  - pose proof (last_index_lt "." (d0 ++ String s "")) as Hl.
    rewrite length_append in Hl. simpl in Hl.
    assert (Z.of_nat (String.length d0) <= sep_index f (d0 ++ String s "")); [| lia].
    unfold sep_index. rewrite !rfind_last_index.
    destruct Hs as [-> | Ha].
    + rewrite (last_index_at (sep_of f) d0 "" eq_refl). simpl.
      destruct (altsep_of f); lia.
    + rewrite Ha, rfind_last_index, (last_index_at s d0 "" eq_refl). simpl. lia.
Qed.



(** ** Signs of the numbers read *)

Lemma sign_clear_not_negative (x : Num.float) :
  sign_clear x = true -> Num.flt x Num.fzero = false.
Proof.
  destruct x as [[] | [] | | [] m e]; simpl; intros H; try discriminate H; reflexivity.
Qed.

Lemma round_aux_sign (m e : Z) (l : location) :
  sign_clear (binary_round_aux Num.prec Num.emax false m e l) = true.
Proof.
  unfold binary_round_aux.
  destruct (shr_fexp _ _ m e l) as [mrs' e'].
  destruct (shr_fexp _ _ _ e' loc_Exact) as [mrs'' e''].
  destruct (shr_m mrs''); [reflexivity | | reflexivity].
  destruct (e'' <=? _)%Z; reflexivity.
Qed.

Lemma binary_round_sign (m : positive) (e : Z) :
  sign_clear (binary_round Num.prec Num.emax false m e) = true.
Proof.
  unfold binary_round. destruct (shl_align _ _ _). apply round_aux_sign.
Qed.

Lemma normalize_sign (z e : Z) :
  0 <= z -> sign_clear (binary_normalize Num.prec Num.emax z e false) = true.
Proof.
  intros Hz. destruct z as [| p | p]; [reflexivity | | lia].
  apply binary_round_sign.
Qed.

Lemma of_decimal_sign (m e : Z) : sign_clear (Num.of_decimal false m e) = true.
Proof.
  unfold Num.of_decimal. destruct m as [| p | p]; try reflexivity.
  destruct (0 <=? e)%Z eqn:He.
  - apply normalize_sign. apply Z.leb_le in He. cbn [cond_Zopp].
    apply Z.mul_nonneg_nonneg; [lia | apply Z.pow_nonneg; lia].
  - destruct (SFdiv_core_binary _ _ _ _ _ _) as [[q e'] l]. apply round_aux_sign.
Qed.

Lemma fadd_sign (x y : Num.float) :
  sign_clear x = true -> sign_clear y = true -> sign_clear (Num.fadd x y) = true.
Proof.
  destruct x as [[] | [] | | [] mx ex]; destruct y as [[] | [] | | [] my ey];
    simpl; intros Hx Hy; try discriminate; try reflexivity.
  apply binary_round_sign.
Qed.

Lemma round4_sign (x : Num.float) : sign_clear x = true -> sign_clear (Num.round4 x) = true.
Proof.
  destruct x as [s | s | | [] m e]; simpl; intros H; try exact H; try discriminate H.
  apply of_decimal_sign.
Qed.

Lemma float_of_int_sign (z : Z) (f : Num.float) :
  0 <= z -> Num.float_of_int z = Some f -> sign_clear f = true.
Proof.
  intros Hz. unfold Num.float_of_int, Num.nearest.
  pose proof (normalize_sign z 0 Hz) as H.
  destruct (binary_normalize _ _ z 0 false); intros [= <-]; exact H.
Qed.

(** *** Texts without a minus sign *)

Lemma contains_drop_while (c : ascii) (p : ascii -> bool) (s : string) :
  Str.contains c s = false -> Str.contains c (Str.drop_while p s) = false.
Proof.
  induction s as [| a s IH]; simpl; [reflexivity |].
  intros H. destruct (p a); [| exact H].
  apply orb_false_iff in H as [_ H]. auto.
Qed.

Lemma contains_drop_while_end (c : ascii) (p : ascii -> bool) (s : string) :
  Str.contains c s = false -> Str.contains c (Str.drop_while_end p s) = false.
Proof.
  induction s as [| a s IH]; simpl; [reflexivity |].
  intros H. apply orb_false_iff in H as [Ha H]. specialize (IH H).
  destruct (Str.drop_while_end p s) as [| b r].
  - destruct (p a); simpl; [reflexivity | rewrite Ha; reflexivity].
  - cbn [Str.contains]. rewrite Ha. exact IH.
Qed.

Lemma contains_strip (c : ascii) (s : string) :
  Str.contains c s = false -> Str.contains c (Str.strip s) = false.
Proof.
  intros H. unfold Str.strip. apply contains_drop_while_end, contains_drop_while, H.
Qed.

Lemma split_parts_clean (c sep : ascii) (s : string) :
  Str.contains c s = false ->
  Forall (fun part => Str.contains c part = false) (Str.split sep s).
Proof.
  induction s as [| a s IH]; simpl; intros H.
  - constructor; [reflexivity | constructor].
  - apply orb_false_iff in H as [Ha H]. specialize (IH H).
    destruct (Ascii.eqb a sep).
    + constructor; [reflexivity | exact IH].
    + destruct (Str.split sep s) as [| part parts].
      * constructor; [simpl; rewrite Ha; reflexivity | constructor].
      * inversion IH; subst. constructor; [simpl; rewrite Ha; assumption | assumption].
Qed.

Lemma split_sign_positive (s : string) :
  Str.contains "-" s = false ->
  fst (Num.split_sign s) = false /\ Str.contains "-" (snd (Num.split_sign s)) = false.
Proof.
  destruct s as [| a s]; [auto |].
  intros H. cbn [Str.contains] in H. apply orb_false_iff in H as [Ha H].
  unfold Num.split_sign.
  destruct a as [[] [] [] [] [] [] [] []]; simpl; try discriminate Ha;
    (split; [reflexivity | assumption]).
Qed.

Lemma digit_val_nonneg (c : ascii) : Str.is_digit c = true -> 0 <= Str.digit_val c <= 9.
Proof.
  unfold Str.is_digit, Str.digit_val. intros H.
  apply andb_true_iff in H as [H1 H2]. apply Z.leb_le in H1, H2. lia.
Qed.

Lemma scan_digits_nonneg (s : string) (prev : bool) (acc n : Z) :
  0 <= acc -> Num.scan_digits prev acc s = Some n -> 0 <= n.
Proof.
  revert prev acc. induction s as [| c s IH]; intros prev acc Hacc; simpl.
  - destruct prev; [intros [= <-]; exact Hacc | discriminate].
  - destruct (Str.is_digit c) eqn:Hd.
    + apply IH. pose proof (digit_val_nonneg c Hd). lia.
    + destruct (Ascii.eqb c "_"); [| discriminate].
      destruct prev; [apply IH; exact Hacc | discriminate].
Qed.

Lemma py_int_nonneg (s : string) (n : Z) :
  Str.contains "-" s = false -> Num.py_int s = Some n -> 0 <= n.
Proof.
  intros Hs. unfold Num.py_int.
  destruct (split_sign_positive (Str.strip s) (contains_strip _ _ Hs)) as [Hneg _].
  destruct (Num.split_sign (Str.strip s)) as [neg body]. simpl in Hneg. subst neg.
  destruct (Num.scan_digits false 0 body) as [v |] eqn:Hv; [| discriminate].
  destruct (_ <=? _)%Z; [| discriminate].
  intros [= <-]. eapply scan_digits_nonneg; [| exact Hv]. lia.
Qed.

Lemma strip_underscores_clean (c : ascii) (s t : string) (prev : option ascii) :
  Str.contains c s = false ->
  Num.strip_underscores prev s = Some t ->
  Str.contains c t = false.
Proof.
  revert prev t. induction s as [| a s IH]; intros prev t Hs.
  - simpl. destruct prev as [p |]; [| intros [= <-]; reflexivity].
    destruct (Ascii.eqb p "_") eqn:Hp.
    + apply Ascii.eqb_eq in Hp. subst p. discriminate.
    + intros H. assert (Some "" = Some t) as [= <-]; [| reflexivity].
      rewrite <- H. destruct p as [[] [] [] [] [] [] [] []]; try reflexivity; discriminate Hp.
  - cbn [Str.contains] in Hs. apply orb_false_iff in Hs as [Ha Hs].
    cbn [Num.strip_underscores].
    destruct (Ascii.eqb a "_").
    + destruct prev as [p |]; [| discriminate].
      destruct (Str.is_digit p); [apply IH; exact Hs | discriminate].
    + assert (Hstep : forall r, option_map (String a) (Num.strip_underscores (Some a) s) = Some r ->
                                Str.contains c r = false).
      { intros r Hr. destruct (Num.strip_underscores (Some a) s) as [u |] eqn:Hu; [| discriminate].
        injection Hr as <-. cbn [Str.contains]. rewrite Ha. simpl. eapply IH; eassumption. }
      intros H. apply Hstep.
      destruct prev as [p |]; [| exact H].
      destruct p as [[] [] [] [] [] [] [] []]; try exact H.
      destruct (Str.is_digit a); [exact H | discriminate].
Qed.

Lemma py_float_sign (s : string) (x : Num.float) :
  Str.contains "-" s = false -> Num.py_float s = Some x -> sign_clear x = true.
Proof.
  intros Hs. unfold Num.py_float.
  destruct (Num.strip_underscores None (Str.strip s)) as [t |] eqn:Ht; [| discriminate].
  pose proof (strip_underscores_clean "-" _ _ _ (contains_strip _ _ Hs) Ht) as Hclean.
  destruct (split_sign_positive t Hclean) as [Hneg _].
  destruct (Num.split_sign t) as [neg body]. simpl in Hneg. subst neg.
  destruct (_ || _); [intros [= <-]; reflexivity |].
  destruct (String.eqb _ "nan"); [intros [= <-]; reflexivity |].
  unfold Num.read_decimal.
  destruct (Num.read_digits 0 0 body) as [[ip ni] r1].
  destruct (match r1 with String "." r => _ | _ => _ end) as [[m nf] r2].
  destruct (_ <? _)%Z; [| discriminate].
  destruct (Num.read_exponent r2); [| discriminate].
  intros [= <-]. apply of_decimal_sign.
Qed.

(** A duration read from a text without a minus sign is not negative. *)
Lemma duration_sign (s : string) (v : Num.float) :
  Str.contains "-" s = false ->
  duration_seconds (JStr s) = Ok v ->
  sign_clear v = true.
Proof.
  intros Hs. unfold duration_seconds, split_colon, rbind.
  pose proof (split_parts_clean "-" ":" s Hs) as Hparts.
  destruct (Str.split ":" s) as [| hours [| minutes [| seconds [| x rest]]]]; try discriminate.
  inversion Hparts as [| ? ? Hh Hp1]; subst. inversion Hp1 as [| ? ? Hm Hp2]; subst.
  inversion Hp2 as [| ? ? Hsec _]; subst.
  unfold int_of, float_of, int_plus_float.
  destruct (Num.py_int hours) as [h |] eqn:Hhv; [| discriminate].
  destruct (Num.py_int minutes) as [m |] eqn:Hmv; [| discriminate].
  destruct (Num.py_float seconds) as [sec |] eqn:Hsv; [| discriminate].
  destruct (Num.float_of_int (h * 3600 + m * 60)) as [f |] eqn:Hf; [| discriminate].
  intros [= <-]. apply round4_sign, fadd_sign.
  - eapply float_of_int_sign; [| exact Hf].
    pose proof (py_int_nonneg hours h Hh Hhv). pose proof (py_int_nonneg minutes m Hm Hmv). lia.
  - eapply py_float_sign; eassumption.
Qed.

(** C6, as the code has it. [parse_duration_to_seconds] returns a number
    exactly when the reading succeeds, and returns [None] (never a number
    standing for the failure) when it fails. The number is not negative
    when the text has no minus sign; a component with a leading minus is read
    as a negative number and can make the result negative. *)
Theorem parse_is_absent_or_unsigned (E : Env) (duration : string) (st : state E) :
  (forall v, duration_seconds (JStr duration) = Ok v ->
             fst (parse_duration_to_seconds E (JStr duration) st) = Ok (Some v)
             /\ (Str.contains "-" duration = false -> Num.flt v Num.fzero = false))
  /\ (forall e, duration_seconds (JStr duration) = Raise e ->
                fst (parse_duration_to_seconds E (JStr duration) st) = Ok None).
Proof.
  rewrite parse_duration_run. split.
  - intros v Hv. rewrite Hv. split; [reflexivity |].
    intros Hs. apply sign_clear_not_negative. eapply duration_sign; eassumption.
  - intros e He. rewrite He. reflexivity.
Qed.

Lemma parse_is_absent_or_unsigned_witness :
  fst (parse_duration_to_seconds short_video (JStr "1:10:10.1110000") (start short_video tt))
  = Ok (Some seconds_4210_111)
  /\ Num.flt seconds_4210_111 Num.fzero = false.
Proof.
  destruct (parse_is_absent_or_unsigned short_video "1:10:10.1110000" (start short_video tt))
    as [Hnumber _].
  assert (Hread : duration_seconds (JStr "1:10:10.1110000") = Ok seconds_4210_111)
    by (vm_compute; reflexivity).
  destruct (Hnumber _ Hread) as [Hreturned Hsign].
  split; [exact Hreturned | apply Hsign; reflexivity].
Defined.

(** C6 as stated fails: the hours [-1] are accepted, and the duration read
    is -3600 seconds. *)
Lemma negative_duration_is_returned :
  fst (parse_duration_to_seconds short_video (JStr "-1:00:00") (start short_video tt))
  = Ok (Some (Prim2SF (-3600)%float))
  /\ Num.flt (Prim2SF (-3600)%float) Num.fzero = true.
Proof.
  split; vm_compute; reflexivity.
Qed.

(** ** Reading well-formed texts *)

(** What a decimal digit is not. *)
Lemma digit_char (c : ascii) :
  Str.is_digit c = true ->
  Str.is_space c = false
  /\ Ascii.eqb c ":" = false /\ Ascii.eqb c "_" = false /\ Ascii.eqb c "." = false
  /\ Num.split_sign (String c "") = (false, String c "")
  /\ Str.lower_char c = c
  /\ Ascii.eqb c "i" = false /\ Ascii.eqb c "n" = false.
Proof.
  destruct c as [[] [] [] [] [] [] [] []]; intros H; try discriminate H;
    repeat split; reflexivity.
Qed.

Lemma numeric_char (c : ascii) :
  numeric c = true ->
  Str.is_space c = false /\ Ascii.eqb c ":" = false /\ Ascii.eqb c "_" = false.
Proof.
  destruct c as [[] [] [] [] [] [] [] []]; intros H; try discriminate H;
    repeat split; reflexivity.
Qed.

Lemma digits_numeric (s : string) : digits s = true -> Str.all_chars numeric s = true.
Proof.
  unfold digits. induction s as [| c s IH]; cbn [Str.all_chars]; [reflexivity |].
  intros H. apply andb_true_iff in H as [Hc H].
  unfold numeric at 1. rewrite Hc. simpl. auto.
Qed.

Lemma all_chars_append (p : ascii -> bool) (a b : string) :
  Str.all_chars p (a ++ b) = Str.all_chars p a && Str.all_chars p b.
Proof.
  induction a as [| c a IH]; cbn [Str.all_chars append]; [reflexivity |].
  rewrite IH, andb_assoc. reflexivity.
Qed.

Lemma strip_numeric (s : string) : Str.all_chars numeric s = true -> Str.strip s = s.
Proof.
  intros H. unfold Str.strip.
  assert (H1 : Str.drop_while Str.is_space s = s).
  { destruct s as [| c s]; [reflexivity |]. cbn [Str.all_chars] in H.
    apply andb_true_iff in H as [Hc _]. apply numeric_char in Hc as (Hs & _).
    cbn [Str.drop_while]. rewrite Hs. reflexivity. }
  rewrite H1. clear H1. induction s as [| c s IH]; [reflexivity |].
  cbn [Str.all_chars] in H. apply andb_true_iff in H as [Hc H].
  cbn [Str.drop_while_end]. rewrite (IH H).
  apply numeric_char in Hc as (Hs & _). rewrite Hs. destruct s; reflexivity.
Qed.

Lemma numeric_no_colon (s : string) :
  Str.all_chars numeric s = true -> Str.contains ":" s = false.
Proof.
  induction s as [| c s IH]; cbn [Str.all_chars Str.contains]; [reflexivity |].
  intros H. apply andb_true_iff in H as [Hc H].
  apply numeric_char in Hc as (_ & Hc & _). rewrite Hc. simpl. auto.
Qed.

Lemma split_clean (sep : ascii) (s : string) :
  Str.contains sep s = false -> Str.split sep s = [s].
Proof.
  induction s as [| c s IH]; cbn [Str.contains Str.split]; [reflexivity |].
  intros H. apply orb_false_iff in H as [Hc H]. rewrite Hc, (IH H). reflexivity.
Qed.

Lemma split_append (sep : ascii) (a b : string) :
  Str.contains sep a = false ->
  Str.split sep (a ++ String sep b) = a :: Str.split sep b.
Proof.
  induction a as [| c a IH]; cbn [Str.contains Str.split append].
  - intros _. rewrite Ascii.eqb_refl. reflexivity.
  - intros H. apply orb_false_iff in H as [Hc H]. rewrite Hc, (IH H). reflexivity.
Qed.

Lemma decimal_from_append (acc : Z) (a b : string) :
  decimal_from acc (a ++ b) = decimal_from (decimal_from acc a) b.
Proof.
  revert acc. induction a as [| c a IH]; intros acc; simpl; [reflexivity | apply IH].
Qed.

Lemma scan_digits_decimal (s : string) (prev : bool) (acc : Z) :
  digits s = true ->
  s <> "" \/ prev = true ->
  Num.scan_digits prev acc s = Some (decimal_from acc s).
Proof.
  unfold digits. revert prev acc. induction s as [| c s IH]; intros prev acc Hd Hne.
  - destruct Hne as [Hne | ->]; [contradiction | reflexivity].
  - cbn [Str.all_chars] in Hd. apply andb_true_iff in Hd as [Hc Hd].
    cbn [Num.scan_digits decimal_from]. rewrite Hc. apply IH; auto.
Qed.

Lemma count_digits_length (s : string) :
  digits s = true -> Num.count_digits s = Z.of_nat (String.length s).
Proof.
  unfold digits. induction s as [| c s IH]; cbn [Str.all_chars]; [reflexivity |].
  intros H. apply andb_true_iff in H as [Hc H].
  cbn [Num.count_digits String.length]. rewrite Hc, (IH H). lia.
Qed.

Lemma split_sign_digit (c : ascii) (s : string) :
  Str.is_digit c = true -> Num.split_sign (String c s) = (false, String c s).
Proof.
  destruct c as [[] [] [] [] [] [] [] []]; intros H; try discriminate H; reflexivity.
Qed.

(** [int()] on a run of digits. *)
Lemma py_int_digits (s : string) :
  digits s = true -> s <> "" -> (String.length s <= 4300)%nat ->
  Num.py_int s = Some (decimal s).
Proof.
  intros Hd Hne Hlen. unfold Num.py_int.
  rewrite (strip_numeric s (digits_numeric s Hd)).
  destruct s as [| c s]; [contradiction |].
  assert (Hc : Str.is_digit c = true).
  { unfold digits in Hd. cbn [Str.all_chars] in Hd. apply andb_true_iff in Hd as [Hc _]. exact Hc. }
  rewrite (split_sign_digit c s Hc).
  rewrite (scan_digits_decimal (String c s) false 0 Hd) by (left; discriminate).
  rewrite (count_digits_length _ Hd).
  unfold Num.int_max_str_digits.
  destruct (Z.leb_spec (Z.of_nat (String.length (String c s))) 4300); [reflexivity | lia].
Qed.

Lemma strip_underscores_numeric (s : string) (prev : option ascii) :
  Str.all_chars numeric s = true ->
  prev <> Some "_"%char ->
  Num.strip_underscores prev s = Some s.
Proof.
  revert prev. induction s as [| c s IH]; intros prev Hs Hp.
  - cbn [Num.strip_underscores]. destruct prev as [p |]; [| reflexivity].
    destruct p as [[] [] [] [] [] [] [] []]; try reflexivity. contradiction Hp. reflexivity.
  - cbn [Str.all_chars] in Hs. apply andb_true_iff in Hs as [Hc Hs].
    pose proof (numeric_char c Hc) as (_ & _ & Hu).
    cbn [Num.strip_underscores]. rewrite Hu.
    assert (Hrec : Num.strip_underscores (Some c) s = Some s).
    { apply IH; [exact Hs |]. intros [= ->]. discriminate Hu. }
    rewrite Hrec. cbn [option_map].
    destruct prev as [p |]; [| reflexivity].
    destruct p as [[] [] [] [] [] [] [] []]; try reflexivity. contradiction Hp. reflexivity.
Qed.

Lemma read_digits_run (ds rest : string) (acc n : Z) :
  digits ds = true ->
  match rest with String c _ => Str.is_digit c = false | EmptyString => True end ->
  Num.read_digits acc n (ds ++ rest)
  = (decimal_from acc ds, n + Z.of_nat (String.length ds), rest).
Proof.
  unfold digits. revert acc n. induction ds as [| c ds IH]; intros acc n Hd Hr.
  - cbn [append decimal_from String.length]. rewrite Z.add_0_r.
    destruct rest as [| r rest]; [reflexivity |].
    cbn [Num.read_digits]. rewrite Hr. reflexivity.
  - cbn [Str.all_chars] in Hd. apply andb_true_iff in Hd as [Hc Hd].
    cbn [append Num.read_digits decimal_from String.length]. rewrite Hc.
    rewrite (IH _ _ Hd Hr). f_equal. f_equal. lia.
Qed.

Lemma lower_numeric_not_word (c : ascii) (s w : string) (x : ascii) :
  Str.is_digit c = true ->
  x = "i"%char \/ x = "n"%char ->
  String.eqb (Str.lower (String c s)) (String x w) = false.
Proof.
  intros Hc Hx. cbn [Str.lower String.eqb].
  pose proof (digit_char c Hc) as (_ & _ & _ & _ & _ & Hl & Hi & Hn).
  rewrite Hl. destruct Hx as [-> | ->]; [rewrite Hi | rewrite Hn]; reflexivity.
Qed.

(** [float()] on [SS] or [SS.fff]. *)
Lemma py_float_seconds (SS : string) (fraction : option string) :
  digits SS = true -> SS <> "" -> digits (fraction_digits fraction) = true ->
  Num.py_float (SS ++ match fraction with Some F => "." ++ F | None => "" end)
  = Some (seconds_value SS fraction).
Proof.
  intros Hs Hne Hf.
  set (t := SS ++ match fraction with Some F => "." ++ F | None => "" end).
  assert (Ht : Str.all_chars numeric t = true).
  { unfold t. rewrite all_chars_append, (digits_numeric _ Hs). simpl.
    destruct fraction as [F |]; [| reflexivity].
    cbn [append Str.all_chars]. simpl in Hf. rewrite (digits_numeric _ Hf). reflexivity. }
  unfold Num.py_float.
  rewrite (strip_numeric t Ht), (strip_underscores_numeric t None Ht) by discriminate.
  destruct SS as [| c SS]; [contradiction |].
  assert (Hc : Str.is_digit c = true).
  { unfold digits in Hs. cbn [Str.all_chars] in Hs. apply andb_true_iff in Hs as [Hc _]. exact Hc. }
  unfold t at 1. cbn [append]. rewrite (split_sign_digit c _ Hc).
  rewrite !(lower_numeric_not_word c _ _ _ Hc) by auto.
  cbn [orb]. unfold Num.read_decimal, seconds_value.
  destruct fraction as [F |]; cbn [fraction_digits] in *.
  - pose proof (read_digits_run (String c SS) (String "." F) 0 0 Hs eq_refl) as Hrun.
    cbn [append] in Hrun. rewrite Hrun.
    rewrite <- (append_nil_r F) at 1.
    rewrite (read_digits_run F "" _ 0 Hf) by exact I.
    unfold decimal. rewrite decimal_from_append.
    destruct (Z.ltb_spec 0 (0 + Z.of_nat (String.length (String c SS)) + (0 + Z.of_nat (String.length F))));
      [| cbn [String.length] in *; lia].
    cbn [Num.read_exponent]. do 2 f_equal; lia.
  - pose proof (read_digits_run (String c SS) "" 0 0 Hs I) as Hrun.
    cbn [append] in Hrun. rewrite Hrun.
    destruct (Z.ltb_spec 0 (0 + Z.of_nat (String.length (String c SS)) + 0));
      [| cbn [String.length] in *; lia].
    cbn [Num.read_exponent]. rewrite append_nil_r. reflexivity.
Qed.

(** ** Integers within the range of a float *)

Lemma digits2_size (p : positive) : digits2_pos p = Pos.size p.
Proof.
  induction p; simpl; congruence.
Qed.

Lemma Zdigits2_log2 (p : positive) : Zdigits2 (Zpos p) = Z.log2 (Zpos p) + 1.
Proof.
  unfold Zdigits2. rewrite digits2_size. destruct p; simpl; lia.
Qed.

Lemma Zdigits2_nonneg (m : Z) : 0 <= Zdigits2 m.
Proof.
  destruct m; simpl; lia.
Qed.

Lemma Zdigits2_succ (m : Z) : 0 <= m -> Zdigits2 (m + 1) <= Zdigits2 m + 1.
Proof.
  intros Hm. destruct m as [| p | p]; [simpl; lia | | lia].
  replace (Zpos p + 1) with (Zpos (p + 1)) by lia.
  rewrite !Zdigits2_log2.
  pose proof (Z.log2_succ_le (Zpos p)). replace (Z.succ (Zpos p)) with (Zpos (p + 1)) in * by lia.
  lia.
Qed.

Lemma shr_1_digits (mrs : shr_record) :
  0 <= shr_m mrs ->
  0 <= shr_m (shr_1 mrs) /\ Zdigits2 (shr_m (shr_1 mrs)) <= Z.max 0 (Zdigits2 (shr_m mrs) - 1).
Proof.
  destruct mrs as [m r s]. cbn [shr_m]. intros Hm.
  destruct m as [| [p | p |] | p];
    cbn [shr_1 shr_m Zdigits2 digits2_pos]; rewrite ?Pos2Z.inj_succ; lia.
Qed.

Lemma iter_shr_1_digits (p : positive) (mrs : shr_record) :
  0 <= shr_m mrs ->
  0 <= shr_m (iter_pos shr_1 p mrs)
  /\ Zdigits2 (shr_m (iter_pos shr_1 p mrs)) <= Z.max 0 (Zdigits2 (shr_m mrs) - Zpos p).
Proof.
  revert mrs. induction p as [p IH | p IH |]; intros mrs Hm; simpl.
  - destruct (shr_1_digits mrs Hm) as [H0 H1].
    destruct (IH _ H0) as [H2 H3]. destruct (IH _ H2) as [H4 H5].
    split; [exact H4 | lia].
  - destruct (IH _ Hm) as [H2 H3]. destruct (IH _ H2) as [H4 H5].
    split; [exact H4 | lia].
  - apply shr_1_digits. exact Hm.
Qed.

Lemma shr_record_of_loc_m (m : Z) (l : location) : shr_m (shr_record_of_loc m l) = m.
Proof.
  destruct l as [| []]; reflexivity.
Qed.

Lemma shr_fexp_bounds (m e : Z) (l : location) :
  0 <= m ->
  let '(mrs, e') := shr_fexp Num.prec Num.emax m e l in
  0 <= shr_m mrs
  /\ e' = Z.max e (fexp Num.prec Num.emax (Zdigits2 m + e))
  /\ Zdigits2 (shr_m mrs) + e' <= Z.max (Zdigits2 m + e) e'.
Proof.
  intros Hm. unfold shr_fexp, shr.
  destruct (fexp Num.prec Num.emax (Zdigits2 m + e) - e) as [| n | n] eqn:Hn.
  - rewrite shr_record_of_loc_m. lia.
  - destruct (iter_shr_1_digits n (shr_record_of_loc m l)) as [H0 H1];
      rewrite ?shr_record_of_loc_m in *; [exact Hm |].
    split; [exact H0 | lia].
  - rewrite shr_record_of_loc_m. lia.
Qed.

Lemma round_nearest_even_digits (m : Z) (l : location) :
  0 <= m ->
  0 <= round_nearest_even m l /\ Zdigits2 (round_nearest_even m l) <= Zdigits2 m + 1.
Proof.
  intros Hm. pose proof (Zdigits2_succ m Hm).
  unfold round_nearest_even. destruct l as [| []]; try destruct (Z.even m); lia.
Qed.

(** A value below [2 ^ 1023] rounds to a finite float. *)
Lemma round_aux_finite (s : bool) (m e : Z) (l : location) :
  0 <= m -> Zdigits2 m + e <= 1023 -> e <= 971 ->
  is_infinity (binary_round_aux Num.prec Num.emax s m e l) = false.
Proof.
  intros Hm Hd He. unfold binary_round_aux.
  pose proof (shr_fexp_bounds m e l Hm) as H1.
  destruct (shr_fexp Num.prec Num.emax m e l) as [mrs' e'].
  destruct H1 as (Hm1 & He1 & Hd1).
  destruct (round_nearest_even_digits (shr_m mrs') (loc_of_shr_record mrs') Hm1) as [Hm2 Hd2].
  pose proof (shr_fexp_bounds _ e' loc_Exact Hm2) as H2.
  destruct (shr_fexp Num.prec Num.emax _ e' loc_Exact) as [mrs'' e''].
  destruct H2 as (_ & He2 & _).
  destruct (shr_m mrs''); [reflexivity | | reflexivity].
  unfold fexp, emin, Num.prec, Num.emax in *.
  destruct (Z.leb_spec e'' (1024 - 53)); [reflexivity | lia].
Qed.

Lemma iter_xO_digits (m k : positive) :
  Zpos (digits2_pos (Pos.iter xO m k)) = Zpos (digits2_pos m) + Zpos k.
Proof.
  induction k as [| k IH] using Pos.peano_ind.
  - simpl. lia.
  - rewrite Pos.iter_succ. simpl. lia.
Qed.

Lemma nearest_finite (z : Z) :
  0 <= z < 2 ^ 1023 -> is_infinity (Num.nearest z) = false.
Proof.
  intros [Hz Hlt]. unfold Num.nearest, binary_normalize.
  destruct z as [| m | m]; [reflexivity | | lia].
  assert (Hd : Zpos (digits2_pos m) <= 1023).
  { change (Zpos (digits2_pos m)) with (Zdigits2 (Zpos m)). rewrite Zdigits2_log2.
    assert (Z.log2 (Zpos m) < 1023); [| lia].
    apply Z.log2_lt_pow2; lia. }
  unfold binary_round, shl_align.
  destruct (fexp Num.prec Num.emax (Zpos (digits2_pos m) + 0) - 0) as [| k | k] eqn:Hk.
  - apply round_aux_finite; simpl; lia.
  - apply round_aux_finite; simpl; lia.
  - apply round_aux_finite; [lia | |].
    + cbn [Zdigits2]. rewrite iter_xO_digits. lia.
    + unfold fexp, emin, Num.prec, Num.emax in *. lia.
Qed.

Lemma float_of_int_nearest (z : Z) :
  0 <= z < 2 ^ 1023 -> Num.float_of_int z = Some (Num.nearest z).
Proof.
  intros Hz. unfold Num.float_of_int.
  pose proof (nearest_finite z Hz) as H.
  destruct (Num.nearest z); try reflexivity. discriminate H.
Qed.

Lemma decimal_from_bound (s : string) (acc : Z) :
  digits s = true -> 0 <= acc ->
  0 <= decimal_from acc s < (acc + 1) * 10 ^ Z.of_nat (String.length s).
Proof.
  unfold digits. revert acc. induction s as [| c s IH]; intros acc Hd Hacc.
  - simpl. lia.
  - cbn [Str.all_chars] in Hd. apply andb_true_iff in Hd as [Hc Hd].
    pose proof (digit_val_nonneg c Hc) as Hv.
    cbn [decimal_from String.length].
    destruct (IH (acc * 10 + Str.digit_val c) Hd ltac:(lia)) as [H0 H1].
    split; [exact H0 |].
    rewrite Nat2Z.inj_succ, Z.pow_succ_r by lia.
    eapply Z.lt_le_trans; [exact H1 |].
    assert (0 < 10 ^ Z.of_nat (String.length s)) by (apply Z.pow_pos_nonneg; lia).
    nia.
Qed.

(** ** Durations of well-formed texts *)

Lemma digits_not_empty (s : string) (n : nat) : String.length s = S n -> s <> "".
Proof.
  intros H ->. discriminate H.
Qed.

(** C5, as the code has it. For every well-formed duration text
    [H:MM:SS] or [H:MM:SS.fff] whose hours have no more digits than [int()]
    reads (4300), the parser returns hours*3600 + minutes*60 + seconds
    rounded to four decimals whenever the whole seconds [hours*3600 +
    minutes*60] convert to a float, as they do when the hours have at most
    300 digits; when they are too large for a float it logs the overflow and
    returns [None]. The arithmetic is that of floats: the whole seconds are
    an exact integer converted to the nearest float, the seconds text is read
    as the nearest float, and their float sum is rounded with [round(_, 4)]. *)
Theorem well_formed_duration_is_parsed (E : Env) (st : state E)
    (H MM SS : string) (fraction : option string) :
  digits H = true -> H <> "" -> (String.length H <= 4300)%nat ->
  digits MM = true -> String.length MM = 2%nat ->
  digits SS = true -> String.length SS = 2%nat ->
  digits (fraction_digits fraction) = true ->
  let whole := decimal H * 3600 + decimal MM * 60 in
  let duration := duration_text H MM SS fraction in
  parse_duration_to_seconds E (JStr duration) st
  = match Num.float_of_int whole with
    | Some f => (Ok (Some (Num.round4 (Num.fadd f (seconds_value SS fraction)))), st)
    | None =>
        (Ok None,
         mk_state (world st)
           (log_file st ++ [parse_error_line (JStr duration) OverflowError]) (spawned st))
    end
  /\ ((String.length H <= 300)%nat -> Num.float_of_int whole = Some (Num.nearest whole)).
Proof.
  intros HH HHne HHlen HM HMlen HS HSlen HF whole duration.
  split.
  - rewrite parse_duration_run.
    assert (Hsec : Str.all_chars numeric
                     (SS ++ match fraction with Some F => "." ++ F | None => "" end) = true).
    { rewrite all_chars_append, (digits_numeric _ HS). simpl.
      destruct fraction as [F |]; [| reflexivity].
      cbn [append Str.all_chars]. simpl in HF. rewrite (digits_numeric _ HF). reflexivity. }
    assert (Hsplit : Str.split ":" duration
                     = [H; MM; SS ++ match fraction with Some F => "." ++ F | None => "" end]).
    { unfold duration, duration_text.
      change (":" ++ MM ++ ":" ++ SS ++ match fraction with Some F => "." ++ F | None => "" end)
        with (String ":" (MM ++ String ":"
                (SS ++ match fraction with Some F => "." ++ F | None => "" end))).
      rewrite split_append by (apply numeric_no_colon, digits_numeric, HH).
      rewrite split_append by (apply numeric_no_colon, digits_numeric, HM).
      rewrite split_clean by (apply numeric_no_colon, Hsec). reflexivity. }
    unfold duration_seconds, split_colon, rbind. rewrite Hsplit.
    unfold int_of, float_of, int_plus_float.
    rewrite (py_int_digits H HH HHne HHlen).
    rewrite (py_int_digits MM HM (digits_not_empty MM 1 HMlen)) by lia.
    rewrite (py_float_seconds SS fraction HS (digits_not_empty SS 1 HSlen) HF).
    fold whole. destruct (Num.float_of_int whole); reflexivity.
  - intros Hshort. apply float_of_int_nearest.
    pose proof (decimal_from_bound H 0 HH ltac:(lia)) as [Hh0 Hh1].
    pose proof (decimal_from_bound MM 0 HM ltac:(lia)) as [Hm0 Hm1].
    fold (decimal H) in *. fold (decimal MM) in *. rewrite HMlen in Hm1.
    assert (Hpow : 10 ^ Z.of_nat (String.length H) <= 10 ^ 300).
    { apply Z.pow_le_mono_r; lia. }
    assert (Hbig : 3600 * 10 ^ 300 + 6000 < 2 ^ 1023) by (vm_compute; reflexivity).
    change (10 ^ Z.of_nat 2) with 100 in Hm1.
    unfold whole. split; [lia |].
    eapply Z.lt_trans; [| exact Hbig]. lia.
Qed.

Lemma well_formed_duration_is_parsed_witness :
  parse_duration_to_seconds short_video (JStr "1:10:10.1110000") (start short_video tt)
  = (Ok (Some seconds_4210_111), start short_video tt).
Proof.
  assert (Hlen : (String.length "1" <= 4300)%nat) by (simpl; lia).
  assert (Hne : "1" <> "") by discriminate.
  pose proof (well_formed_duration_is_parsed short_video (start short_video tt)
                "1" "10" "10" (Some "1110000")
                eq_refl Hne Hlen eq_refl eq_refl eq_refl eq_refl eq_refl) as [H _].
  vm_compute in H. vm_compute. exact H.
Defined.

(** C5 as stated fails: hours of 401 digits are well formed, and their
    seconds are too large for a float; the parser logs the overflow and
    returns [None]. *)
Lemma huge_hours_are_not_parsed :
  digits huge_hours = true
  /\ parse_duration_to_seconds short_video
       (JStr (duration_text huge_hours "00" "00" None)) (start short_video tt)
     = (Ok None,
        @mk_state short_video tt
          [ [PStr "Error parsing duration '"; PStr (duration_text huge_hours "00" "00" None);
             PStr "': "; PError IntTooLarge; PStr nl] ]
          []).
Proof.
  split; vm_compute; reflexivity.
Qed.

(** * Further properties of the program *)

Local Open Scope list_scope.
Local Open Scope Z_scope.

(** ** The paths through one file *)

Section Outcomes.

Context (E : Env).

(** A duration comes only from an extraction without error. *)
Lemma error_free_with_duration (file : string) (st st1 : state E) video audio error :
  get_tag_durations_and_seconds E file st = (Ok (video, audio, error), st1) ->
  video <> None \/ audio <> None ->
  error = None.
Proof.
  intros Hx Hsome.
  destruct (extraction_run E file st) as (v & a & err & st' & Hx' & Herr & _).
  rewrite Hx in Hx'. injection Hx' as <- <- <- <-.
  destruct Herr as [-> | (-> & -> & _)]; [reflexivity |].
  destruct Hsome as [H | H]; contradiction H; reflexivity.
Qed.

Lemma sync_with_error (file : string) (st st1 : state E) video audio error :
  get_tag_durations_and_seconds E file st = (Ok (video, audio, error), st1) ->
  is_set error = true ->
  sync_audio_video E file st =
    (Ok (extraction_failure file (str_of_error error)),
     mk_state (world st1)
       (log_file st1 ++ [log_line (extraction_failure file (str_of_error error))])
       (spawned st1)).
Proof.
  intros Hx He. unfold sync_audio_video, Source.sync_audio_video. reliably E.
  unfold bind at 1. rewrite Hx. cbn beta iota.
  rewrite He. reflexivity.
Qed.

Lemma sync_not_shorter (file : string) (st st1 : state E) v a error :
  get_tag_durations_and_seconds E file st = (Ok (Some v, Some a, error), st1) ->
  Num.flt v a = false ->
  sync_audio_video E file st =
    (Ok (lit "Skipped: " ++ lit file ++ lit " (video_time == audio_time)"),
     mk_state (world st1)
       (log_file st1
        ++ [log_line (log_message file (Some v) (Some a)
                      ++ lit "Rule: video_time == audio_time" ++ lit nl
                      ++ lit "Skipped" ++ lit nl)])
       (spawned st1)).
Proof.
  intros Hx Hlt.
  rewrite (error_free_with_duration file st st1 _ _ _ Hx) in Hx
    by (left; discriminate).
  unfold sync_audio_video, Source.sync_audio_video. reliably E.
  unfold bind at 1. rewrite Hx. cbn beta iota delta [is_set].
  rewrite Hlt. reflexivity.
Qed.

(** The run of lines 91-104, by the result of the spawn. *)
Lemma sync_remux (file : string) (st st1 : state E) v a error r w :
  get_tag_durations_and_seconds E file st = (Ok (Some v, Some a, error), st1) ->
  Num.flt v a = true ->
  spawn E (sync_command E file v a) (world st1) = (r, w) ->
  sync_audio_video E file st =
    (Ok match r with
        | Ok c =>
            if returncode c =? 0
            then lit "Success: " ++ lit file ++ lit " -> "
                 ++ lit (output_path (os_flavour E) file)
            else lit "Error processing " ++ lit file ++ lit ": " ++ lit (stderr c)
        | Raise e => lit "Error executing mkvmerge for " ++ lit file ++ lit ": " ++ exn_msg e
        end,
     mk_state w
       (log_file st1
        ++ [log_line (log_message file (Some v) (Some a)
                      ++ match r with
                         | Ok c =>
                             if returncode c =? 0
                             then lit "Rule: video_time < audio_time" ++ lit nl
                                  ++ lit "Generated File: "
                                  ++ lit (output_path (os_flavour E) file) ++ lit nl
                             else lit "Error: " ++ lit (stderr c) ++ lit nl
                         | Raise e => lit "Error: " ++ exn_msg e ++ lit nl
                         end)])
       (spawned st1 ++ [sync_command E file v a])).
Proof.
  intros Hx Hlt Hs.
  rewrite (error_free_with_duration file st st1 _ _ _ Hx) in Hx
    by (left; discriminate).
  unfold sync_audio_video, Source.sync_audio_video. reliably E.
  unfold bind at 1. rewrite Hx. cbn beta iota delta [is_set].
  rewrite Hlt.
  unfold Source.mkvmerge_path, Source.os_getcwd, try_except, bind, ret, subprocess_run.
  reliably E. rewrite Hs.
  destruct r as [c | e]; [destruct (returncode c =? 0) |]; reflexivity.
Qed.

(** What the extraction spawns: the inspection when the tool is there. *)
Lemma extraction_spawns (file : string) (st : state E) :
  spawned (snd (get_tag_durations_and_seconds E file st))
  = spawned st
    ++ (if isfile E (mkvmerge_path E) (world st) then [inspect_command E file] else []).
Proof.
  unfold get_tag_durations_and_seconds, Source.get_tag_durations_and_seconds,
    Source.mkvmerge_path, Source.os_getcwd, bind, os_path_isfile, try_except, subprocess_run,
    lift, ret.
  reliably E.
  destruct (isfile E _ (world st)); simpl; [| rewrite app_nil_r; reflexivity].
  destruct (spawn E (inspect_command E file) (world st)) as [r w].
  destruct r as [c | e]; [| reflexivity].
  destruct (negb (returncode c =? 0)); [reflexivity |].
  destruct (json_loads E (stdout c)) as [info | e]; [| reflexivity].
  destruct (get info "tracks" _) as [tracks | e]; [| reflexivity].
  destruct (iterate tracks) as [items | e]; [| reflexivity].
  destruct (for_each_tracks_frame E items (None, None)
              (mk_state w (log_file st) (spawned st ++ [inspect_command E file])))
    as (r & st2 & -> & _ & Hs & _).
  destruct r as [[v a] | e]; exact Hs.
Qed.

Lemma sync_tool_missing (file : string) (st : state E) :
  isfile E (mkvmerge_path E) (world st) = false ->
  sync_audio_video E file st =
    (Ok (extraction_failure file tool_not_found),
     mk_state (world st)
       (log_file st ++ [log_line (extraction_failure file tool_not_found)])
       (spawned st)).
Proof.
  intros Hp.
  assert (Hx : get_tag_durations_and_seconds E file st
               = (Ok (None, None, Some tool_not_found), st)).
  { unfold get_tag_durations_and_seconds, Source.get_tag_durations_and_seconds,
      Source.mkvmerge_path, Source.os_getcwd, bind, os_path_isfile, ret.
    reliably E. rewrite Hp. reflexivity. }
  rewrite (sync_with_error file st st _ _ _ Hx eq_refl). reflexivity.
Qed.

(** The extraction up to the decoding of the inspection output. *)
Lemma extraction_inspects (file : string) (st : state E) (r : result completed) (w : World E) :
  isfile E (mkvmerge_path E) (world st) = true ->
  spawn E (inspect_command E file) (world st) = (r, w) ->
  let st1 := mk_state w (log_file st) (spawned st ++ [inspect_command E file]) in
  get_tag_durations_and_seconds E file st =
    match r with
    | Raise e => (Ok (None, None, Some (lit "Error processing mkvmerge output: " ++ exn_msg e)), st1)
    | Ok c =>
        if returncode c =? 0 then
          match json_loads E (stdout c) with
          | Raise e =>
              (Ok (None, None, Some (lit "Error processing mkvmerge output: " ++ exn_msg e)), st1)
          | Ok mkv_info =>
              match tracks_of mkv_info with
              | Raise e =>
                  (Ok (None, None, Some (lit "Error processing mkvmerge output: " ++ exn_msg e)),
                   st1)
              | Ok items =>
                  match for_each E items (None, None) (track_step E) st1 with
                  | (Ok (video, audio), st2) => (Ok (video, audio, None), st2)
                  | (Raise e, st2) =>
                      (Ok (None, None,
                           Some (lit "Error processing mkvmerge output: " ++ exn_msg e)), st2)
                  end
              end
          end
        else (Ok (None, None, Some (lit "Error running mkvmerge: " ++ lit (stderr c))), st1)
    end.
Proof.
  intros Hp Hs st1.
  unfold get_tag_durations_and_seconds, Source.get_tag_durations_and_seconds,
    Source.mkvmerge_path, Source.os_getcwd, bind, os_path_isfile, try_except, subprocess_run,
    lift, ret, tracks_of, rbind.
  reliably E.
  rewrite Hp. cbn beta iota delta [negb]. rewrite Hs. cbn beta iota. fold st1.
  destruct r as [c | e]; [| reflexivity].
  destruct (returncode c =? 0); cbn beta iota delta [negb]; [| reflexivity].
  destruct (json_loads E (stdout c)) as [info | e]; [| reflexivity].
  destruct (get info "tracks" _) as [tracks | e]; [| reflexivity].
  destruct (iterate tracks) as [items | e]; [| reflexivity].
  destruct (for_each E items (None, None) (track_step E) st1) as [[[v a] | e] st2];
    reflexivity.
Qed.

Lemma track_step_ill_formed (track : json) times (st : state E) :
  well_formed_track track = false ->
  exists v, track_step E track times st = (Raise (AttributeError v "get"), st).
Proof.
  intros Hwf. unfold track_step, Source.track_step, bind, lift.
  destruct track as [| | | | | | entries]; try (eexists; reflexivity).
  simpl in *.
  destruct (dict_lookup "properties" entries) as [props |]; [| discriminate Hwf].
  destruct props; try discriminate Hwf; eexists; reflexivity.
Qed.

(** The loop stops with an [AttributeError] at the first track that is not
    well formed. *)
Lemma for_each_ill_formed (items : list json) times (st : state E) :
  forallb well_formed_track items = false ->
  exists v st',
    for_each E items times (track_step E) st = (Raise (AttributeError v "get"), st').
Proof.
  revert times st. induction items as [| track items IH]; intros times st Hwf;
    [discriminate Hwf |].
  simpl in Hwf. simpl. unfold bind.
  destruct (well_formed_track track) eqn:Ht.
  - destruct (track_step_well_formed E track times st Ht) as (st1 & -> & _).
    apply IH. exact Hwf.
  - destruct (track_step_ill_formed track times st Ht) as (v & ->). eauto.
Qed.

(** The commands of one file: its inspection, then at most its remux. *)
Lemma sync_spawns (file : string) (st : state E) :
  exists cmds,
    spawned (snd (sync_audio_video E file st)) = spawned st ++ cmds
    /\ commands_of_file E file cmds.
Proof.
  destruct (isfile E (mkvmerge_path E) (world st)) eqn:Hp.
  - destruct (extraction_run E file st) as (v & a & err & st1 & Hx & _).
    destruct (sync_after_extraction E file st st1 v a err Hx)
      as (out & st2 & block & Hrun & _ & _ & Hs2).
    pose proof (extraction_spawns file st) as Hs1. rewrite Hx, Hp in Hs1. simpl in Hs1.
    rewrite Hrun. simpl. rewrite Hs2, Hs1, <- app_assoc.
    eexists. split; [reflexivity |].
    unfold resync_commands, resync_pair, commands_of_file.
    destruct (is_set err); destruct v as [x |]; destruct a as [y |];
      try destruct (Num.flt x y); simpl; eauto.
  - rewrite (sync_tool_missing file st Hp). simpl.
    exists []. rewrite app_nil_r. split; [reflexivity | left; reflexivity].
Qed.

(** The log of one file: parse reports, then the block of the file. *)
Lemma sync_logs (file : string) (st : state E) :
  exists reports block,
    log_file (snd (sync_audio_video E file st)) = log_file st ++ reports ++ [block]
    /\ Forall parse_report reports
    /\ file_block file block = true.
Proof.
  destruct (extraction_run E file st) as (v & a & err & st1 & Hx & _ & _ & (l1 & Hl1 & HP)).
  destruct (sync_after_extraction E file st st1 v a err Hx)
    as (out & st2 & block & Hrun & Hl2 & Hb & _).
  exists l1, block. rewrite Hrun. simpl. rewrite Hl2, Hl1, <- app_assoc. auto.
Qed.

End Outcomes.

(** X1. When both durations are present and the video one is not smaller
    than the audio one (equal, larger, or not comparable), the file is
    skipped: its message is [Skipped: <file> (video_time == audio_time)],
    its log block records both durations and the rule
    [video_time == audio_time], and nothing runs after the extraction. *)
Theorem not_shorter_is_skipped (E : Env) (input_file : string) (st : state E)
    (v a : Num.float) (error : option text) :
  fst (get_tag_durations_and_seconds E input_file st) = Ok (Some v, Some a, error) ->
  Num.flt v a = false ->
  let extraction := snd (get_tag_durations_and_seconds E input_file st) in
  let run := sync_audio_video E input_file st in
  let message := lit "Skipped: " ++ lit input_file ++ lit " (video_time == audio_time)" in
  fst run = Ok message
  /\ classify message = Some Skipped
  /\ world (snd run) = world extraction
  /\ spawned (snd run) = spawned extraction
  /\ log_file (snd run)
     = log_file extraction
       ++ [[PStr "File: "; PStr input_file; PStr nl;
            PStr "Video Time: "; PFloat v; PStr " s"; PStr nl;
            PStr "Audio Time: "; PFloat a; PStr " s"; PStr nl;
            PStr "Rule: video_time == audio_time"; PStr nl;
            PStr "Skipped"; PStr nl; PStr nl]].
Proof.
  intros Hex Hlt extraction run message. subst extraction run message.
  destruct (get_tag_durations_and_seconds E input_file st) as [r st1] eqn:Hx.
  simpl in Hex. subst r.
  rewrite (sync_not_shorter E input_file st st1 v a error Hx Hlt).
  repeat split.
Qed.

Lemma not_shorter_is_skipped_witness :
  fst (sync_audio_video long_video "D:\in\a.mkv" (start long_video tt))
  = Ok [PStr "Skipped: "; PStr "D:\in\a.mkv"; PStr " (video_time == audio_time)"].
Proof.
  apply (not_shorter_is_skipped long_video "D:\in\a.mkv" (start long_video tt)
           (Prim2SF 11%float) (Prim2SF 10%float) None).
  - vm_compute. reflexivity.
  - vm_compute. reflexivity.
Defined.

(** X2. A file's message reads as a success exactly when its remux was
    run and exited with status 0. The message is then
    [Success: <file> -> <output>], and the log block of the file ends with
    the rule [video_time < audio_time] and [Generated File: <output>]. *)
Theorem success_iff_remux_exits_zero (E : Env) (input_file : string) (st : state E) :
  ((exists message,
      fst (sync_audio_video E input_file st) = Ok message
      /\ classify message = Some Success)
   <-> (exists v a error st1 c w,
          get_tag_durations_and_seconds E input_file st = (Ok (Some v, Some a, error), st1)
          /\ Num.flt v a = true
          /\ spawn E (sync_command E input_file v a) (world st1) = (Ok c, w)
          /\ returncode c = 0))
  /\ (forall v a error st1 c w,
        get_tag_durations_and_seconds E input_file st = (Ok (Some v, Some a, error), st1) ->
        Num.flt v a = true ->
        spawn E (sync_command E input_file v a) (world st1) = (Ok c, w) ->
        returncode c = 0 ->
        sync_audio_video E input_file st
        = (Ok [PStr "Success: "; PStr input_file; PStr " -> ";
               PStr (output_path (os_flavour E) input_file)],
           mk_state w
             (log_file st1
              ++ [log_line (log_message input_file (Some v) (Some a)
                            ++ [PStr "Rule: video_time < audio_time"; PStr nl;
                                PStr "Generated File: ";
                                PStr (output_path (os_flavour E) input_file);
                                PStr nl])])
             (spawned st1 ++ [sync_command E input_file v a]))).
Proof.
  assert (Hrun : forall v a error st1 c w,
             get_tag_durations_and_seconds E input_file st
             = (Ok (Some v, Some a, error), st1) ->
             Num.flt v a = true ->
             spawn E (sync_command E input_file v a) (world st1) = (Ok c, w) ->
             returncode c = 0 ->
             sync_audio_video E input_file st
             = (Ok [PStr "Success: "; PStr input_file; PStr " -> ";
                    PStr (output_path (os_flavour E) input_file)],
                mk_state w
                  (log_file st1
                   ++ [log_line (log_message input_file (Some v) (Some a)
                                 ++ [PStr "Rule: video_time < audio_time"; PStr nl;
                                     PStr "Generated File: ";
                                     PStr (output_path (os_flavour E) input_file);
                                     PStr nl])])
                  (spawned st1 ++ [sync_command E input_file v a]))).
  { intros v a error st1 c w Hx Hlt Hs Hr.
    rewrite (sync_remux E input_file st st1 v a error (Ok c) w Hx Hlt Hs), Hr.
    reflexivity. }
  split; [| exact Hrun]. split.
  - intros (message & Hmsg & Hc).
    destruct (extraction_run E input_file st) as (video & audio & err & st1 & Hx & Herr & _).
    destruct (is_set err) eqn:He.
    { rewrite (sync_with_error E input_file st st1 _ _ _ Hx He) in Hmsg.
      injection Hmsg as <-. discriminate Hc. }
    destruct Herr as [-> | (_ & _ & Hset)]; [| congruence].
    destruct video as [v |], audio as [a |];
      try (rewrite (sync_without_durations E input_file st st1 _ _ _ Hx eq_refl) in Hmsg
             by auto;
           injection Hmsg as <-; discriminate Hc).
    destruct (Num.flt v a) eqn:Hlt.
    + destruct (spawn E (sync_command E input_file v a) (world st1)) as [r w] eqn:Hs.
      rewrite (sync_remux E input_file st st1 v a None r w Hx Hlt Hs) in Hmsg.
      destruct r as [c | e].
      * destruct (returncode c =? 0) eqn:Hr.
        -- apply Z.eqb_eq in Hr. exists v, a, None, st1, c, w. auto.
        -- injection Hmsg as <-. discriminate Hc.
      * injection Hmsg as <-. discriminate Hc.
    + rewrite (sync_not_shorter E input_file st st1 v a None Hx Hlt) in Hmsg.
      injection Hmsg as <-. discriminate Hc.
  - intros (v & a & error & st1 & c & w & Hx & Hlt & Hs & Hr).
    rewrite (Hrun v a error st1 c w Hx Hlt Hs Hr).
    eexists. split; reflexivity.
Qed.

(** X3. When the remux exits with a status other than 0, the file's
    message is [Error processing <file>: <stderr>] with the tool's error
    output as it is, and the log block of the file ends with
    [Error: <stderr>]. *)
Theorem failed_remux_reports_stderr (E : Env) (input_file : string) (st st1 : state E)
    (v a : Num.float) (error : option text) (c : completed) (w : World E) :
  get_tag_durations_and_seconds E input_file st = (Ok (Some v, Some a, error), st1) ->
  Num.flt v a = true ->
  spawn E (sync_command E input_file v a) (world st1) = (Ok c, w) ->
  returncode c <> 0 ->
  let message := [PStr "Error processing "; PStr input_file; PStr ": "; PStr (stderr c)] in
  sync_audio_video E input_file st =
    (Ok message,
     mk_state w
       (log_file st1
        ++ [log_line (log_message input_file (Some v) (Some a)
                      ++ [PStr "Error: "; PStr (stderr c); PStr nl])])
       (spawned st1 ++ [sync_command E input_file v a]))
  /\ classify message = Some Failed.
Proof.
  intros Hx Hlt Hs Hr message.
  rewrite (sync_remux E input_file st st1 v a error (Ok c) w Hx Hlt Hs).
  apply Z.eqb_neq in Hr. rewrite Hr. split; reflexivity.
Qed.

Lemma failed_remux_reports_stderr_witness :
  fst (sync_audio_video remux_fails "D:\in\a.mkv" (start remux_fails tt))
  = Ok [PStr "Error processing "; PStr "D:\in\a.mkv"; PStr ": "; PStr "disk full"].
Proof.
  assert (Hr : returncode (Completed 2 "" "disk full") <> 0) by discriminate.
  destruct (failed_remux_reports_stderr remux_fails "D:\in\a.mkv" (start remux_fails tt)
              (snd (get_tag_durations_and_seconds remux_fails "D:\in\a.mkv"
                      (start remux_fails tt)))
              (Prim2SF 9%float) (Prim2SF 10%float) None (Completed 2 "" "disk full") tt
              eq_refl eq_refl eq_refl Hr) as [Hrun _].
  rewrite Hrun. reflexivity.
Defined.

(** X4. When the remux cannot be started, the exception is caught: the
    file's message is [Error executing mkvmerge for <file>: <exception>], and
    the log block of the file ends with [Error: <exception>]. *)
Theorem remux_exception_is_reported (E : Env) (input_file : string) (st st1 : state E)
    (v a : Num.float) (error : option text) (e : exn) (w : World E) :
  get_tag_durations_and_seconds E input_file st = (Ok (Some v, Some a, error), st1) ->
  Num.flt v a = true ->
  spawn E (sync_command E input_file v a) (world st1) = (Raise e, w) ->
  let message := [PStr "Error executing mkvmerge for "; PStr input_file; PStr ": "]
                 ++ exn_msg e in
  sync_audio_video E input_file st =
    (Ok message,
     mk_state w
       (log_file st1
        ++ [log_line (log_message input_file (Some v) (Some a)
                      ++ [PStr "Error: "] ++ exn_msg e ++ [PStr nl])])
       (spawned st1 ++ [sync_command E input_file v a]))
  /\ classify message = Some Failed.
Proof.
  intros Hx Hlt Hs message.
  rewrite (sync_remux E input_file st st1 v a error (Raise e) w Hx Hlt Hs).
  split; reflexivity.
Qed.

Lemma remux_exception_is_reported_witness :
  fst (sync_audio_video remux_raises "D:\in\a.mkv" (start remux_raises tt))
  = Ok [PStr "Error executing mkvmerge for "; PStr "D:\in\a.mkv"; PStr ": ";
        PStr "[WinError 5] Access is denied"].
Proof.
  destruct (remux_exception_is_reported remux_raises "D:\in\a.mkv" (start remux_raises tt)
              (snd (get_tag_durations_and_seconds remux_raises "D:\in\a.mkv"
                      (start remux_raises tt)))
              (Prim2SF 9%float) (Prim2SF 10%float) None
              (mk_exn "PermissionError" (lit "[WinError 5] Access is denied")) tt
              eq_refl eq_refl eq_refl) as [Hrun _].
  rewrite Hrun. reflexivity.
Defined.

(** X5. Without [mkvmerge.exe] in the working directory a file is
    reported with
    [Error processing <file>: Error: mkvmerge.exe not found in the current directory.],
    the same text is the one entry logged, and nothing is run: no inspection,
    no remux, the world is untouched. *)
Theorem missing_tool_runs_nothing (E : Env) (input_file : string) (st : state E) :
  isfile E (path_join E (getcwd E) "mkvmerge.exe") (world st) = false ->
  let message :=
    [PStr "Error processing "; PStr input_file; PStr ": ";
     PStr "Error: mkvmerge.exe not found in the current directory."] in
  sync_audio_video E input_file st
  = (Ok message, mk_state (world st) (log_file st ++ [message ++ [PStr nl]]) (spawned st)).
Proof.
  intros Hp message. apply (sync_tool_missing E input_file st Hp).
Qed.

Lemma missing_tool_runs_nothing_witness :
  sync_audio_video tool_missing "D:\in\a.mkv" (start tool_missing tt)
  = (Ok [PStr "Error processing "; PStr "D:\in\a.mkv"; PStr ": ";
         PStr "Error: mkvmerge.exe not found in the current directory."],
     @mk_state tool_missing tt
       [[PStr "Error processing "; PStr "D:\in\a.mkv"; PStr ": ";
         PStr "Error: mkvmerge.exe not found in the current directory."; PStr nl]]
       []).
Proof.
  apply (missing_tool_runs_nothing tool_missing "D:\in\a.mkv" (start tool_missing tt)).
  reflexivity.
Defined.

(** X6. The extraction runs the tool at most once: with the tool in the
    working directory it spawns exactly [<exe> -J <file>], whatever comes of
    it, and without the tool it spawns nothing. *)
Theorem inspection_command_line (E : Env) (mkv_file : string) (st : state E) :
  spawned (snd (get_tag_durations_and_seconds E mkv_file st))
  = spawned st
    ++ (if isfile E (path_join E (getcwd E) "mkvmerge.exe") (world st)
        then [[ [PStr (path_join E (getcwd E) "mkvmerge.exe")]; [PStr "-J"]; [PStr mkv_file] ]]
        else []).
Proof.
  apply extraction_spawns.
Qed.

(** X7. When the inspection exits with a status other than 0, its output
    is not decoded: the file is reported with
    [Error processing <file>: Error running mkvmerge: <stderr>], that text is
    logged, and no remux is run. *)
Theorem failed_inspection_is_reported (E : Env) (input_file : string) (st : state E)
    (c : completed) (w : World E) :
  isfile E (mkvmerge_path E) (world st) = true ->
  spawn E (inspect_command E input_file) (world st) = (Ok c, w) ->
  returncode c <> 0 ->
  let message :=
    [PStr "Error processing "; PStr input_file; PStr ": ";
     PStr "Error running mkvmerge: "; PStr (stderr c)] in
  sync_audio_video E input_file st
  = (Ok message,
     mk_state w (log_file st ++ [message ++ [PStr nl]])
       (spawned st ++ [inspect_command E input_file])).
Proof.
  intros Hp Hs Hr message.
  pose proof (extraction_inspects E input_file st (Ok c) w Hp Hs) as Hx.
  cbn beta iota zeta in Hx. apply Z.eqb_neq in Hr. rewrite Hr in Hx.
  rewrite (sync_with_error E input_file st _ _ _ _ Hx eq_refl). reflexivity.
Qed.

Lemma failed_inspection_is_reported_witness :
  fst (sync_audio_video folder "D:\in\a.MKV" (start folder tt))
  = Ok [PStr "Error processing "; PStr "D:\in\a.MKV"; PStr ": ";
        PStr "Error running mkvmerge: "; PStr "cannot open"].
Proof.
  assert (Hr : returncode (Completed 2 "" "cannot open") <> 0) by discriminate.
  rewrite (failed_inspection_is_reported folder "D:\in\a.MKV" (start folder tt)
             (Completed 2 "" "cannot open") tt eq_refl eq_refl Hr).
  reflexivity.
Defined.

(** X8. An inspection that cannot be started, or whose output
    [json.loads] rejects, is caught by the extraction: the file is reported
    with [Error processing <file>: Error processing mkvmerge output: <exception>],
    that text is logged, and no remux is run. *)
Theorem undecodable_inspection_is_reported (E : Env) (input_file : string) (st : state E)
    (r : result completed) (w : World E) (e : exn) :
  isfile E (mkvmerge_path E) (world st) = true ->
  spawn E (inspect_command E input_file) (world st) = (r, w) ->
  r = Raise e
  \/ (exists c, r = Ok c /\ returncode c = 0 /\ json_loads E (stdout c) = Raise e) ->
  let message :=
    [PStr "Error processing "; PStr input_file; PStr ": ";
     PStr "Error processing mkvmerge output: "] ++ exn_msg e in
  sync_audio_video E input_file st
  = (Ok message,
     mk_state w (log_file st ++ [message ++ [PStr nl]])
       (spawned st ++ [inspect_command E input_file])).
Proof.
  intros Hp Hs Hcase message.
  pose proof (extraction_inspects E input_file st r w Hp Hs) as Hx. cbn beta iota zeta in Hx.
  assert (Hx' : get_tag_durations_and_seconds E input_file st
                = (Ok (None, None,
                       Some (lit "Error processing mkvmerge output: " ++ exn_msg e)),
                   mk_state w (log_file st) (spawned st ++ [inspect_command E input_file]))).
  { destruct Hcase as [-> | (c & -> & Hr & Hj)]; [exact Hx |].
    rewrite Hr, Hj in Hx. exact Hx. }
  rewrite (sync_with_error E input_file st _ _ _ _ Hx' eq_refl). reflexivity.
Qed.

Lemma undecodable_inspection_is_reported_witness :
  fst (sync_audio_video not_json "D:\in\a.mkv" (start not_json tt))
  = Ok [PStr "Error processing "; PStr "D:\in\a.mkv"; PStr ": ";
        PStr "Error processing mkvmerge output: ";
        PStr "Expecting value: line 1 column 1 (char 0)"].
Proof.
  rewrite (undecodable_inspection_is_reported not_json "D:\in\a.mkv" (start not_json tt)
             (Ok (Completed 0 "mkvmerge v80.0" "")) tt
             (mk_exn "JSONDecodeError" (lit "Expecting value: line 1 column 1 (char 0)"))
             eq_refl eq_refl).
  - reflexivity.
  - right. exists (Completed 0 "mkvmerge v80.0" ""). repeat split.
Defined.

(** X9. Once the inspection output is decoded, the extraction fails
    exactly when the document is not well formed: it is not an object, its
    tracks cannot be visited, or one of the items visited is not an object
    with an object for [properties]. It then returns no duration at all,
    whatever the tracks before the offending one carried, and the error
    [Error processing mkvmerge output: <exception>] of an [AttributeError] or
    a [TypeError]. *)
Theorem extraction_fails_iff_ill_formed (E : Env) (mkv_file : string) (st : state E)
    (c : completed) (w : World E) (mkv_info : json) :
  isfile E (mkvmerge_path E) (world st) = true ->
  spawn E (inspect_command E mkv_file) (world st) = (Ok c, w) ->
  returncode c = 0 ->
  json_loads E (stdout c) = Ok mkv_info ->
  exists video audio error,
    fst (get_tag_durations_and_seconds E mkv_file st) = Ok (video, audio, error)
    /\ (error = None <-> well_formed_document mkv_info = true)
    /\ (well_formed_document mkv_info = false ->
        video = None /\ audio = None
        /\ exists e,
             error = Some ([PStr "Error processing mkvmerge output: "] ++ exn_msg e)
             /\ (exn_class e = "AttributeError"%string \/ exn_class e = "TypeError"%string)).
Proof.
  intros Hp Hs Hr Hj.
  pose proof (extraction_inspects E mkv_file st (Ok c) w Hp Hs) as Hx. cbn beta iota zeta in Hx.
  rewrite Hr, Hj in Hx. cbn beta iota delta [Z.eqb] in Hx.
  unfold well_formed_document.
  assert (Hraise : forall e : exn,
             exn_class e = "AttributeError"%string \/ exn_class e = "TypeError"%string ->
             exists video audio error,
               Ok (A := option Num.float * option Num.float * option text)
                 (None, None, Some (lit "Error processing mkvmerge output: " ++ exn_msg e))
               = Ok (video, audio, error)
               /\ (error = None <-> false = true)
               /\ (false = false ->
                   video = None /\ audio = None
                   /\ exists e',
                        error = Some ([PStr "Error processing mkvmerge output: "] ++ exn_msg e')
                        /\ (exn_class e' = "AttributeError"%string
                            \/ exn_class e' = "TypeError"%string))).
  { intros e He. do 3 eexists. split; [reflexivity |]. split.
    - split; discriminate.
    - intros _. split; [reflexivity |]. split; [reflexivity |]. exists e. auto. }
  destruct (tracks_of mkv_info) as [items | e] eqn:Ht.
  - destruct (forallb well_formed_track items) eqn:Hwf.
    + destruct (for_each_well_formed E items (None, None)
                  (mk_state w (log_file st) (spawned st ++ [inspect_command E mkv_file])) Hwf)
        as (st2 & Hloop & _).
      rewrite Hloop in Hx. rewrite Hx. simpl.
      do 3 eexists. split; [reflexivity |]. split; [split; reflexivity | discriminate].
    + destruct (for_each_ill_formed E items (None, None)
                  (mk_state w (log_file st) (spawned st ++ [inspect_command E mkv_file])) Hwf)
        as (v & st2 & Hloop).
      rewrite Hloop in Hx. rewrite Hx. simpl.
      apply (Hraise (AttributeError v "get")). left. reflexivity.
  - rewrite Hx. simpl. apply Hraise.
    unfold tracks_of in Ht.
    destruct mkv_info as [| | | | | | info]; simpl in Ht;
      try (injection Ht as <-; left; reflexivity).
    destruct (match dict_lookup "tracks" info with Some x => x | None => JList [] end);
      simpl in Ht; try discriminate Ht; injection Ht as <-; right; reflexivity.
Qed.

Lemma extraction_fails_iff_ill_formed_witness :
  fst (get_tag_durations_and_seconds odd_track "D:\in\a.mkv" (start odd_track tt))
  = Ok (None, None,
        Some [PStr "Error processing mkvmerge output: ";
              PError (NoAttribute (JStr "audio") "get")]).
Proof.
  destruct (extraction_fails_iff_ill_formed odd_track "D:\in\a.mkv" (start odd_track tt)
              (Completed 0 "{...}" "") tt
              (document [track "video" "0:00:09"; JStr "audio"])
              eq_refl eq_refl eq_refl eq_refl)
    as (video & audio & error & Hx & _ & _).
  vm_compute in Hx. vm_compute. injection Hx as <- <- <-. reflexivity.
Defined.

(** X10. A decoded document without a [tracks] key reads as one without
    tracks: the extraction returns no duration and no error, and the file is
    reported with [Error: Unable to retrieve durations for <file>]; its log
    block shows [None] for both durations, and no remux is run. *)
Theorem document_without_tracks (E : Env) (input_file : string) (st : state E)
    (c : completed) (w : World E) (info : list (string * json)) :
  isfile E (mkvmerge_path E) (world st) = true ->
  spawn E (inspect_command E input_file) (world st) = (Ok c, w) ->
  returncode c = 0 ->
  json_loads E (stdout c) = Ok (JDict info) ->
  dict_lookup "tracks" info = None ->
  fst (get_tag_durations_and_seconds E input_file st) = Ok (None, None, None)
  /\ sync_audio_video E input_file st
     = (Ok [PStr "Error: Unable to retrieve durations for "; PStr input_file],
        mk_state w
          (log_file st
           ++ [[PStr "File: "; PStr input_file; PStr nl;
                PStr "Video Time: "; PStr "None"; PStr " s"; PStr nl;
                PStr "Audio Time: "; PStr "None"; PStr " s"; PStr nl;
                PStr "Error: Unable to retrieve durations"; PStr nl; PStr nl]])
          (spawned st ++ [inspect_command E input_file])).
Proof.
  intros Hp Hs Hr Hj Ht.
  pose proof (extraction_inspects E input_file st (Ok c) w Hp Hs) as Hx. cbn beta iota zeta in Hx.
  rewrite Hr, Hj in Hx. unfold tracks_of in Hx. simpl in Hx. rewrite Ht in Hx. simpl in Hx.
  split; [rewrite Hx; reflexivity |].
  rewrite (sync_without_durations E input_file st _ None None None Hx eq_refl)
    by (left; reflexivity).
  reflexivity.
Qed.

Lemma document_without_tracks_witness :
  fst (sync_audio_video no_tracks "D:\in\a.mkv" (start no_tracks tt))
  = Ok [PStr "Error: Unable to retrieve durations for "; PStr "D:\in\a.mkv"].
Proof.
  destruct (document_without_tracks no_tracks "D:\in\a.mkv" (start no_tracks tt)
              (Completed 0 "{...}" "") tt
              [("container", JDict [("recognized", JBool true)])]
              eq_refl eq_refl eq_refl eq_refl eq_refl) as [_ Hrun].
  rewrite Hrun. reflexivity.
Defined.

(** X11. On any host the extraction raises exactly when [os.getcwd()]
    raises at line 38, with that exception and before anything is run or
    logged. Otherwise it returns, with durations or with an error, never
    both: every other exception, that of an append to the log in the parser
    included, is caught at line 69, and with an error both durations are
    absent and the error text is not empty. *)
Theorem extraction_raises_only_for_getcwd (E : Env) (H : Host E) (mkv_file : string)
    (st : state E) :
  match read_cwd H (world st) with
  | Raise e => Source.get_tag_durations_and_seconds E H mkv_file st = (Raise e, st)
  | Ok cwd =>
      exists video audio error,
        fst (Source.get_tag_durations_and_seconds E H mkv_file st) = Ok (video, audio, error)
        /\ (error = None \/ (video = None /\ audio = None /\ is_set error = true))
  end.
Proof.
  pose proof (extraction_on E H mkv_file st) as Hx.
  destruct (read_cwd H (world st)) as [cwd | e]; [| exact Hx].
  destruct Hx as (v & a & err & st1 & -> & Herr & _).
  exists v, a, err. auto.
Qed.

(** X12. Every message of a file reads as a success, a skip or an
    error; it reads as a skip exactly when both durations are present and
    the video one is not smaller than the audio one. *)
Theorem skipped_iff_not_shorter (E : Env) (input_file : string) (st : state E) :
  exists message kind,
    fst (sync_audio_video E input_file st) = Ok message
    /\ classify message = Some kind
    /\ (kind = Skipped
        <-> exists v a error,
              fst (get_tag_durations_and_seconds E input_file st) = Ok (Some v, Some a, error)
              /\ Num.flt v a = false).
Proof.
  destruct (extraction_run E input_file st) as (video & audio & err & st1 & Hx & Herr & _).
  rewrite Hx. simpl.
  assert (Hno : forall v a error,
             Ok (A := option Num.float * option Num.float * option text) (video, audio, err)
             = Ok (Some v, Some a, error) ->
             video = Some v /\ audio = Some a) by (intros v a error [= -> -> _]; auto).
  destruct (is_set err) eqn:He.
  { rewrite (sync_with_error E input_file st st1 _ _ _ Hx He).
    destruct Herr as [-> | (-> & -> & _)]; [discriminate He |].
    eexists _, Failed. split; [reflexivity |]. split; [reflexivity |].
    split; [discriminate |]. intros (v & a & error & Heq & _).
    destruct (Hno v a error Heq) as [Hv _]. discriminate Hv. }
  destruct Herr as [-> | (_ & _ & Hset)]; [| congruence].
  destruct video as [v |], audio as [a |];
    try (rewrite (sync_without_durations E input_file st st1 _ _ _ Hx eq_refl) by auto;
         eexists _, Failed; split; [reflexivity |]; split; [reflexivity |];
         split; [discriminate |]; intros (v' & a' & error & Heq & _);
         destruct (Hno v' a' error Heq) as [Hv Ha]; discriminate).
  destruct (Num.flt v a) eqn:Hlt.
  - destruct (spawn E (sync_command E input_file v a) (world st1)) as [r w] eqn:Hs.
    rewrite (sync_remux E input_file st st1 v a None r w Hx Hlt Hs).
    assert (Hnot : ~ exists v' a' error,
                       Ok (A := option Num.float * option Num.float * option text)
                         (Some v, Some a, None) = Ok (Some v', Some a', error)
                       /\ Num.flt v' a' = false).
    { intros (v' & a' & error & Heq & Hlt'). injection Heq as <- <- _. congruence. }
    destruct r as [c | e]; [destruct (returncode c =? 0) |]; simpl;
      [eexists _, Success | eexists _, Failed | eexists _, Failed];
      (split; [reflexivity |]); (split; [reflexivity |]);
      (split; [discriminate | intros H; contradiction (Hnot H)]).
  - rewrite (sync_not_shorter E input_file st st1 v a None Hx Hlt).
    eexists _, Skipped. split; [reflexivity |]. split; [reflexivity |].
    split; [| reflexivity]. intros _. exists v, a, None. auto.
Qed.

(** ** Folders *)

Lemma parse_report_not_opening (entry : text) :
  parse_report entry -> block_opening entry = false.
Proof.
  intros (tag & e & _ & ->). reflexivity.
Qed.

Lemma file_block_opening (file : string) (entry : text) :
  file_block file entry = true -> block_opening entry = true.
Proof.
  destruct entry as [| [a | | |] [| [f | | |] rest]]; simpl; try discriminate.
  intros H. apply andb_true_iff in H as [H _]. exact H.
Qed.

Lemma filter_reports (reports : list text) :
  Forall parse_report reports -> filter block_opening reports = [].
Proof.
  induction 1 as [| r l Hr _ IH]; simpl; [reflexivity |].
  rewrite (parse_report_not_opening r Hr). exact IH.
Qed.

Lemma no_mkv_entries (names : list string) :
  forallb (fun n => negb (ends_with_ci n ".mkv")) names = true ->
  filter (fun n => ends_with_ci n ".mkv") names = [].
Proof.
  induction names as [| n names IH]; simpl; [reflexivity |].
  intros H. apply andb_true_iff in H as [Hn H].
  apply negb_true_iff in Hn. rewrite Hn. auto.
Qed.

Section FolderRuns.

Context (E : Env).

Lemma folder_run (folder_path : string) (names : list string) (st : state E) :
  listdir E folder_path (world st) = Ok names ->
  exists outcomes st',
    process_folder E folder_path st = (Ok outcomes, st')
    /\ processed E (reliable E) (mkv_files E folder_path names) st outcomes st'.
Proof.
  intros Hl. unfold process_folder, Source.process_folder, bind at 1, os_listdir.
  rewrite Hl.
  destruct (folder_loop E folder_path names [] st) as (outs & st' & Hloop & Hp).
  exists outs, st'. split; [exact Hloop | exact Hp].
Qed.

Lemma processed_log (files : list string) (st st' : state E) (outcomes : list text) :
  processed E (reliable E) files st outcomes st' ->
  exists entries,
    log_file st' = log_file st ++ entries
    /\ Forall2 (fun file block => file_block file block = true) files
         (filter block_opening entries)
    /\ Forall (fun entry => block_opening entry = false -> parse_report entry) entries.
Proof.
  induction 1 as [st | file files st outcome st1 outcomes st2 Hrun _ IH].
  - exists []. rewrite app_nil_r. repeat constructor.
  - change (sync_audio_video E file st = (Ok outcome, st1)) in Hrun.
    destruct IH as (entries & Hl & Hblocks & Hrest).
    destruct (sync_logs E file st) as (reports & block & Hlog & Hreports & Hblock).
    rewrite Hrun in Hlog. simpl in Hlog.
    exists (reports ++ [block] ++ entries). split; [| split].
    + rewrite Hl, Hlog, <- !app_assoc. reflexivity.
    + rewrite !filter_app, (filter_reports reports Hreports). simpl.
      rewrite (file_block_opening file block Hblock). constructor; assumption.
    + apply Forall_app. split.
      * eapply Forall_impl; [| exact Hreports]. auto.
      * constructor; [| exact Hrest].
        rewrite (file_block_opening file block Hblock). discriminate.
Qed.

Lemma processed_spawns (files : list string) (st st' : state E) (outcomes : list text) :
  processed E (reliable E) files st outcomes st' ->
  exists per_file,
    spawned st' = spawned st ++ List.concat per_file
    /\ Forall2 (commands_of_file E) files per_file.
Proof.
  induction 1 as [st | file files st outcome st1 outcomes st2 Hrun _ IH].
  - exists []. simpl. rewrite app_nil_r. split; [reflexivity | constructor].
  - change (sync_audio_video E file st = (Ok outcome, st1)) in Hrun.
    destruct IH as (rest & Hs2 & Hshape).
    destruct (sync_spawns E file st) as (cmds & Hs1 & Hcmds).
    rewrite Hrun in Hs1. simpl in Hs1.
    exists (cmds :: rest). split.
    + simpl. rewrite Hs2, Hs1, <- app_assoc. reflexivity.
    + constructor; assumption.
Qed.

Lemma processed_without_tool (files : list string) (st st' : state E)
    (outcomes : list text) :
  processed E (reliable E) files st outcomes st' ->
  isfile E (mkvmerge_path E) (world st) = false ->
  outcomes = map (fun file => extraction_failure file tool_not_found) files
  /\ st' = mk_state (world st)
             (log_file st
              ++ map (fun file => log_line (extraction_failure file tool_not_found)) files)
             (spawned st).
Proof.
  induction 1 as [st | file files st outcome st1 outcomes st2 Hrun _ IH]; intros Hp.
  - simpl. rewrite app_nil_r. destruct st. auto.
  - change (sync_audio_video E file st = (Ok outcome, st1)) in Hrun.
    rewrite (sync_tool_missing E file st Hp) in Hrun. injection Hrun as <- <-.
    destruct (IH Hp) as [-> ->]. simpl. rewrite <- app_assoc. auto.
Qed.

End FolderRuns.

(** X13. When [os.listdir] raises, [process_folder] raises that
    exception unchanged, before anything is logged or run. On any host it
    raises nothing else than the exception of [os.listdir], of
    [os.getcwd()] or of an append to the log. *)
Theorem folder_run_raises_only_for (E : Env) (H : Host E) (folder_path : string)
    (st : state E) (e : exn) :
  (listdir E folder_path (world st) = Raise e ->
   Source.process_folder E H folder_path st = (Raise e, st))
  /\ (fst (Source.process_folder E H folder_path st) = Raise e ->
      listdir E folder_path (world st) = Raise e
      \/ (exists w, read_cwd H w = Raise e)
      \/ (exists log message w, append_log H log message w = Some e)).
Proof.
  split.
  - intros Hl. unfold Source.process_folder, bind at 1, os_listdir. rewrite Hl. reflexivity.
  - destruct (listdir E folder_path (world st)) as [names | e'] eqn:Hl.
    + destruct (folder_loop_on E H folder_path names [] st) as (r & st' & Hloop & Hr).
      assert (Hrun : Source.process_folder E H folder_path st = (r, st')).
      { rewrite <- Hloop. unfold Source.process_folder, bind at 1, os_listdir.
        rewrite Hl. reflexivity. }
      rewrite Hrun. simpl. intros ->. right.
      destruct Hr as (done & file & rest & outs & st1 & _ & _ & Hraise).
      destruct (sync_on E H file st1) as (r & st2 & Hsync & Hfault).
      rewrite Hraise in Hsync. injection Hsync as <- <-. exact Hfault.
    + assert (Hrun : Source.process_folder E H folder_path st = (Raise e', st)).
      { unfold Source.process_folder, bind at 1, os_listdir. rewrite Hl. reflexivity. }
      rewrite Hrun. simpl. intros [= ->]. left. reflexivity.
Qed.

(** X14. A folder that lists no entry ending with [.mkv] gives no
    outcome, and nothing is logged or run. *)
Theorem folder_without_mkv_entries (E : Env) (folder_path : string) (st : state E)
    (names : list string) :
  listdir E folder_path (world st) = Ok names ->
  forallb (fun name => negb (ends_with_ci name ".mkv")) names = true ->
  process_folder E folder_path st = (Ok [], st).
Proof.
  intros Hl Hn.
  destruct (folder_run E folder_path names st Hl) as (outs & st' & -> & Hp).
  unfold mkv_files in Hp. rewrite (no_mkv_entries names Hn) in Hp.
  inversion Hp. reflexivity.
Qed.

Lemma folder_without_mkv_entries_witness :
  process_folder only_notes "D:\in" (start only_notes tt) = (Ok [], start only_notes tt).
Proof.
  apply (folder_without_mkv_entries only_notes "D:\in" (start only_notes tt)
           ["notes.txt"; "a.mkv.bak"; "mkv"]); reflexivity.
Defined.

(** X15. A folder run only appends to the log, and the blocks it appends
    are those of the files it processes, one for each, in the order of the
    listing; every other entry it appends is the report of a duration that
    could not be read. *)
Theorem folder_log_blocks (E : Env) (folder_path : string) (st : state E)
    (names : list string) :
  listdir E folder_path (world st) = Ok names ->
  let files := map (path_join E folder_path) (filter (fun n => ends_with_ci n ".mkv") names) in
  exists entries,
    log_file (snd (process_folder E folder_path st)) = log_file st ++ entries
    /\ Forall2 (fun file block => file_block file block = true) files
         (filter block_opening entries)
    /\ Forall (fun entry => block_opening entry = false -> parse_report entry) entries.
Proof.
  intros Hl files.
  destruct (folder_run E folder_path names st Hl) as (outs & st' & -> & Hp).
  exact (processed_log E _ st st' outs Hp).
Qed.

Lemma folder_log_blocks_witness :
  exists entries,
    log_file (snd (process_folder folder "D:\in" (start folder tt))) = entries
    /\ Forall2 (fun file block => file_block file block = true)
         ["D:\in\a.MKV"; "D:\in\b.mkv"] (filter block_opening entries).
Proof.
  destruct (folder_log_blocks folder "D:\in" (start folder tt)
              ["a.MKV"; "notes.txt"; "b.mkv"] eq_refl) as (entries & Hlog & Hblocks & _).
  exists entries. split; [exact Hlog | exact Hblocks].
Defined.

(** X16. A folder run only adds to the commands run, and what it adds
    is, file after file in the order of the listing, the commands of each
    [.mkv] entry it processes: nothing, or the inspection of the file, or
    the inspection followed by one remux of the file. An entry that does not
    end with [.mkv] is never handed to the tool. *)
Theorem folder_commands (E : Env) (folder_path : string) (st : state E)
    (names : list string) :
  listdir E folder_path (world st) = Ok names ->
  let files := map (path_join E folder_path) (filter (fun n => ends_with_ci n ".mkv") names) in
  exists per_file,
    spawned (snd (process_folder E folder_path st)) = spawned st ++ List.concat per_file
    /\ Forall2 (fun file cmds =>
                  cmds = []
                  \/ cmds = [inspect_command E file]
                  \/ exists video audio,
                       cmds = [inspect_command E file; sync_command E file video audio])
         files per_file.
Proof.
  intros Hl files.
  destruct (folder_run E folder_path names st Hl) as (outs & st' & -> & Hp).
  exact (processed_spawns E _ st st' outs Hp).
Qed.

Lemma folder_commands_witness :
  exists per_file,
    spawned (snd (process_folder folder "D:\in" (start folder tt))) = List.concat per_file
    /\ List.length per_file = 2%nat.
Proof.
  destruct (folder_commands folder "D:\in" (start folder tt)
              ["a.MKV"; "notes.txt"; "b.mkv"] eq_refl) as (per_file & Hs & Hshape).
  exists per_file. split; [exact Hs |].
  symmetry. exact (Forall2_length Hshape).
Defined.

(** X17. Without [mkvmerge.exe] in the working directory a folder run
    reports the same error for every [.mkv] entry, logs one entry for each,
    and runs nothing. *)
Theorem folder_without_tool (E : Env) (folder_path : string) (st : state E)
    (names : list string) :
  listdir E folder_path (world st) = Ok names ->
  isfile E (path_join E (getcwd E) "mkvmerge.exe") (world st) = false ->
  let files := map (path_join E folder_path) (filter (fun n => ends_with_ci n ".mkv") names) in
  let message file :=
    [PStr "Error processing "; PStr file; PStr ": ";
     PStr "Error: mkvmerge.exe not found in the current directory."] in
  process_folder E folder_path st
  = (Ok (map message files),
     mk_state (world st)
       (log_file st ++ map (fun file => message file ++ [PStr nl]) files)
       (spawned st)).
Proof.
  intros Hl Hp files message.
  destruct (folder_run E folder_path names st Hl) as (outs & st' & -> & Hrun).
  destruct (processed_without_tool E _ st st' outs Hrun Hp) as [-> ->].
  reflexivity.
Qed.

Lemma folder_without_tool_witness :
  fst (process_folder tool_missing "D:\in" (start tool_missing tt))
  = Ok [ [PStr "Error processing "; PStr "D:\in\a.mkv"; PStr ": ";
          PStr "Error: mkvmerge.exe not found in the current directory."];
         [PStr "Error processing "; PStr "D:\in\b.MKV"; PStr ": ";
          PStr "Error: mkvmerge.exe not found in the current directory."] ].
Proof.
  rewrite (folder_without_tool tool_missing "D:\in" (start tool_missing tt)
             ["a.mkv"; "notes.txt"; "b.MKV"] eq_refl eq_refl).
  reflexivity.
Defined.

(** ** Duration texts *)

Lemma split_not_empty (sep : ascii) (s : string) : Str.split sep s <> [].
Proof.
  destruct s as [| c s]; simpl; [discriminate |].
  destruct (Ascii.eqb c sep); [discriminate |].
  destruct (Str.split sep s); discriminate.
Qed.

Lemma length_split (sep : ascii) (s : string) :
  List.length (Str.split sep s) = S (count_char sep s).
Proof.
  induction s as [| c s IH]; simpl; [reflexivity |].
  destruct (Ascii.eqb c sep); simpl; [rewrite IH; reflexivity |].
  destruct (Str.split sep s); simpl in *; [discriminate IH | exact IH].
Qed.

(** Joining the parts of a split gives the text back. *)
Lemma join_split (sep : ascii) (s : string) : join sep (Str.split sep s) = s.
Proof.
  induction s as [| c s IH]; [reflexivity |].
  cbn [Str.split]. pose proof (split_not_empty sep s) as Hne.
  destruct (Ascii.eqb c sep) eqn:Hc.
  - apply Ascii.eqb_eq in Hc. subst c.
    destruct (Str.split sep s) as [| p ps]; [contradiction Hne; reflexivity |].
    cbn [join append]. cbn [join] in IH. rewrite IH. reflexivity.
  - destruct (Str.split sep s) as [| p ps]; [contradiction Hne; reflexivity |].
    destruct ps as [| q ps]; cbn [join append] in *; rewrite IH; reflexivity.
Qed.

Lemma split_parts_free (sep : ascii) (s : string) :
  Forall (fun part => Str.contains sep part = false) (Str.split sep s).
Proof.
  induction s as [| c s IH]; cbn [Str.split].
  - repeat constructor.
  - destruct (Ascii.eqb c sep) eqn:Hc.
    + constructor; [reflexivity | exact IH].
    + destruct (Str.split sep s) as [| p ps]; [repeat constructor; simpl; rewrite Hc; auto |].
      inversion IH; subst. constructor; [| assumption].
      simpl. rewrite Hc. assumption.
Qed.

(** X18. On any host, and whatever value the parser is given (a number
    or [null] has no [split]): when the value reads as a duration the parser
    returns the number and leaves the log alone; when it does not, the parser
    appends the one entry [Error parsing duration '<value>': <reason>] and
    returns [None]; and when that append raises, its exception leaves the
    parser and nothing is logged. The parser runs nothing. *)
Theorem failed_parse_is_logged (E : Env) (H : Host E) (tag : json) (st : state E) :
  let run := Source.parse_duration_to_seconds E H tag st in
  match duration_seconds tag with
  | Ok x => run = (Ok (Some x), st)
  | Raise reason =>
      match append_log H (log_file st)
              ([PStr "Error parsing duration '"] ++ str_of_value tag ++ [PStr "': "]
               ++ exn_msg reason) (world st) with
      | None =>
          run = (Ok None,
                 mk_state (world st)
                   (log_file st
                    ++ [[PStr "Error parsing duration '"] ++ str_of_value tag ++ [PStr "': "]
                        ++ exn_msg reason ++ [PStr nl]])
                   (spawned st))
      | Some e => run = (Raise e, st)
      end
  end.
Proof.
  cbv zeta. rewrite parse_duration_on.
  destruct (duration_seconds tag) as [x | reason]; [reflexivity |].
  change (lit "Error parsing duration '" ++ str_of_value tag ++ lit "': " ++ exn_msg reason)
    with ([PStr "Error parsing duration '"] ++ str_of_value tag ++ [PStr "': "]
          ++ exn_msg reason).
  destruct (append_log H _ _ _); [reflexivity |].
  unfold parse_error_line, log_line, lit. rewrite <- !app_assoc. reflexivity.
Qed.

(** X19. A text that does not have exactly two colons is never a
    duration: the parser returns [None] and logs
    [Error parsing duration '<text>': Invalid duration format]. *)
Theorem wrong_number_of_colons (E : Env) (st : state E) (duration : string) :
  count_char ":" duration <> 2%nat ->
  parse_duration_to_seconds E (JStr duration) st
  = (Ok None,
     mk_state (world st)
       (log_file st
        ++ [[PStr "Error parsing duration '"; PStr duration; PStr "': ";
             PStr "Invalid duration format"; PStr nl]])
       (spawned st)).
Proof.
  intros Hn. rewrite parse_duration_run.
  pose proof (length_split ":" duration) as Hlen.
  unfold duration_seconds, split_colon, rbind at 1.
  destruct (Str.split ":" duration) as [| h [| m [| s [| x rest]]]]; simpl in Hlen;
    try reflexivity.
  contradiction Hn. lia.
Qed.

Lemma wrong_number_of_colons_witness :
  parse_duration_to_seconds short_video (JStr "10:10") (start short_video tt)
  = (Ok None,
     @mk_state short_video tt
       [[PStr "Error parsing duration '"; PStr "10:10"; PStr "': ";
         PStr "Invalid duration format"; PStr nl]]
       []).
Proof.
  apply (wrong_number_of_colons short_video (start short_video tt) "10:10").
  simpl. lia.
Defined.

(** X20. The parser returns a number exactly for the texts
    [hours:minutes:seconds] of three parts without a colon, where [int]
    reads the first two, [float] reads the third, and the whole seconds fit a
    float; the number is then [round(hours * 3600 + minutes * 60 + seconds, 4)]. *)
Theorem parsed_iff_three_readable_parts (E : Env) (st : state E) (duration : string)
    (x : Num.float) :
  fst (parse_duration_to_seconds E (JStr duration) st) = Ok (Some x)
  <-> exists hours minutes seconds h m s f,
        duration = (hours ++ ":" ++ minutes ++ ":" ++ seconds)%string
        /\ Str.contains ":" hours = false
        /\ Str.contains ":" minutes = false
        /\ Str.contains ":" seconds = false
        /\ Num.py_int hours = Some h
        /\ Num.py_int minutes = Some m
        /\ Num.py_float seconds = Some s
        /\ Num.float_of_int (h * 3600 + m * 60) = Some f
        /\ x = Num.round4 (Num.fadd f s).
Proof.
  rewrite parse_duration_run.
  unfold duration_seconds, split_colon, rbind at 1. split.
  - pose proof (join_split ":" duration) as Hjoin.
    pose proof (split_parts_free ":" duration) as Hfree.
    destruct (Str.split ":" duration) as [| hours [| minutes [| seconds [| y rest]]]];
      try discriminate.
    inversion Hfree as [| ? ? Hh H1]; subst.
    inversion H1 as [| ? ? Hm H2]; subst.
    inversion H2 as [| ? ? Hs _]; subst.
    unfold int_of, float_of, int_plus_float, rbind.
    destruct (Num.py_int hours) as [h |] eqn:Hhv; [| discriminate].
    destruct (Num.py_int minutes) as [m |] eqn:Hmv; [| discriminate].
    destruct (Num.py_float seconds) as [s |] eqn:Hsv; [| discriminate].
    destruct (Num.float_of_int (h * 3600 + m * 60)) as [f |] eqn:Hf; [| discriminate].
    simpl. intros [= <-].
    exists hours, minutes, seconds, h, m, s, f.
    repeat split; auto.
  - intros (hours & minutes & seconds & h & m & s & f
            & -> & Hh & Hm & Hs & Hhv & Hmv & Hsv & Hf & ->).
    change (hours ++ ":" ++ minutes ++ ":" ++ seconds)%string
      with (hours ++ String ":" (minutes ++ String ":" seconds))%string.
    rewrite (split_append ":" hours _ Hh), (split_append ":" minutes _ Hm),
      (split_clean ":" seconds Hs).
    unfold int_of, float_of, int_plus_float, rbind.
    rewrite Hhv, Hmv, Hsv, Hf. reflexivity.
Qed.

(** *** Blanks around the parts *)

Lemma blank_no_colon (s : string) : blank s = true -> Str.contains ":" s = false.
Proof.
  unfold blank. induction s as [| c s IH]; cbn [Str.all_chars Str.contains]; [reflexivity |].
  intros H. apply andb_true_iff in H as [Hc H]. rewrite (IH H), orb_false_r.
  destruct (Ascii.eqb c ":") eqn:Heq; [| reflexivity].
  apply Ascii.eqb_eq in Heq. subst c. discriminate Hc.
Qed.

Lemma drop_while_blank (a t : string) :
  blank a = true ->
  Str.drop_while Str.is_space (a ++ t)%string = Str.drop_while Str.is_space t.
Proof.
  unfold blank. induction a as [| c a IH]; cbn [Str.all_chars append Str.drop_while];
    [reflexivity |].
  intros H. apply andb_true_iff in H as [Hc H]. rewrite Hc. auto.
Qed.

Lemma drop_while_end_blank (b : string) :
  blank b = true -> Str.drop_while_end Str.is_space b = ""%string.
Proof.
  unfold blank. induction b as [| c b IH]; cbn [Str.all_chars Str.drop_while_end];
    [reflexivity |].
  intros H. apply andb_true_iff in H as [Hc H]. rewrite (IH H), Hc. reflexivity.
Qed.

Lemma drop_while_end_append (t b : string) :
  blank b = true ->
  Str.drop_while_end Str.is_space (t ++ b)%string = Str.drop_while_end Str.is_space t.
Proof.
  intros Hb. induction t as [| c t IH]; cbn [append Str.drop_while_end].
  - apply drop_while_end_blank. exact Hb.
  - rewrite IH. reflexivity.
Qed.

Lemma strip_append_blank (s b : string) :
  blank b = true -> Str.strip (s ++ b)%string = Str.strip s.
Proof.
  intros Hb. unfold Str.strip.
  induction s as [| c s IH]; cbn [append Str.drop_while].
  - pose proof (drop_while_blank b "" Hb) as H. rewrite append_nil_r in H. rewrite H.
    reflexivity.
  - destruct (Str.is_space c); [exact IH |].
    apply (drop_while_end_append (String c s) b Hb).
Qed.

(** [int] and [float] read a text without the blanks around it. *)
Lemma strip_padding (a s b : string) :
  blank a = true -> blank b = true -> Str.strip (a ++ s ++ b)%string = Str.strip s.
Proof.
  intros Ha Hb. unfold Str.strip at 1. rewrite (drop_while_blank a _ Ha).
  apply (strip_append_blank s b Hb).
Qed.

Lemma py_int_padding (a s b : string) :
  blank a = true -> blank b = true -> Num.py_int (a ++ s ++ b)%string = Num.py_int s.
Proof.
  intros Ha Hb. unfold Num.py_int. rewrite (strip_padding a s b Ha Hb). reflexivity.
Qed.

Lemma py_float_padding (a s b : string) :
  blank a = true -> blank b = true -> Num.py_float (a ++ s ++ b)%string = Num.py_float s.
Proof.
  intros Ha Hb. unfold Num.py_float. rewrite (strip_padding a s b Ha Hb). reflexivity.
Qed.

Lemma first_of_parse (E : Env) (tag : json) (st : state E) :
  fst (parse_duration_to_seconds E tag st) = Ok (seconds_of tag).
Proof.
  destruct (parse_duration_frame E tag st) as (st' & -> & _). reflexivity.
Qed.

(** X21. Blanks around the hours, the minutes or the seconds of a
    duration text do not change what the parser returns for it. *)
Theorem blank_padding_is_ignored (E : Env) (st : state E)
    (hours minutes seconds a1 a2 a3 a4 a5 a6 : string) :
  blank a1 = true -> blank a2 = true -> blank a3 = true ->
  blank a4 = true -> blank a5 = true -> blank a6 = true ->
  Str.contains ":" hours = false ->
  Str.contains ":" minutes = false ->
  Str.contains ":" seconds = false ->
  fst (parse_duration_to_seconds E
         (JStr ((a1 ++ hours ++ a2) ++ ":" ++ (a3 ++ minutes ++ a4) ++ ":"
                ++ (a5 ++ seconds ++ a6))%string) st)
  = fst (parse_duration_to_seconds E (JStr (hours ++ ":" ++ minutes ++ ":" ++ seconds)%string)
           st).
Proof.
  intros H1 H2 H3 H4 H5 H6 Hh Hm Hs. rewrite !first_of_parse. f_equal.
  assert (Hpad : forall a s b,
             blank a = true -> blank b = true -> Str.contains ":" s = false ->
             Str.contains ":" (a ++ s ++ b)%string = false).
  { intros a s b Ha Hb Hc. rewrite !contains_append, Hc, !blank_no_colon by assumption.
    reflexivity. }
  unfold seconds_of, duration_seconds, split_colon.
  change (?x ++ ":" ++ ?y ++ ":" ++ ?z)%string with (x ++ String ":" (y ++ String ":" z))%string.
  rewrite (split_append ":" _ _ (Hpad a1 hours a2 H1 H2 Hh)),
    (split_append ":" _ _ (Hpad a3 minutes a4 H3 H4 Hm)),
    (split_clean ":" _ (Hpad a5 seconds a6 H5 H6 Hs)).
  rewrite (split_append ":" hours _ Hh), (split_append ":" minutes _ Hm),
    (split_clean ":" seconds Hs).
  unfold rbind, int_of, float_of.
  rewrite !py_int_padding, py_float_padding by assumption.
  destruct (Num.py_int hours); [| reflexivity].
  destruct (Num.py_int minutes); [| reflexivity].
  destruct (Num.py_float seconds); reflexivity.
Qed.

Lemma blank_padding_is_ignored_witness :
  fst (parse_duration_to_seconds short_video (JStr " 1 :10: 10.5") (start short_video tt))
  = fst (parse_duration_to_seconds short_video (JStr "1:10:10.5") (start short_video tt)).
Proof.
  apply (blank_padding_is_ignored short_video (start short_video tt)
           "1" "10" "10.5" " " " " "" "" " " ""); reflexivity.
Defined.

(** ** Output paths *)

Local Open Scope string_scope.

Lemma sep_index_directory (f : flavour) (dir : string) :
  directory_prefix f dir -> sep_index f dir = Z.of_nat (String.length dir) - 1.
Proof.
  intros [-> | (d0 & s & -> & Hs)]; [destruct f; reflexivity |].
  pose proof (sep_index_lt f (d0 ++ String s "")) as Hlt.
  rewrite length_append in *. simpl in *.
  assert (Z.of_nat (String.length d0) <= sep_index f (d0 ++ String s "")); [| lia].
  unfold sep_index. rewrite !rfind_last_index.
  destruct Hs as [-> | Ha].
  - rewrite (last_index_at (sep_of f) d0 "" eq_refl). simpl.
    destruct (altsep_of f); lia.
  - rewrite Ha, rfind_last_index, (last_index_at s d0 "" eq_refl). simpl. lia.
Qed.

Lemma dots_no_separator (f : flavour) (stem : string) :
  Str.all_chars Str.is_dot stem = true -> no_separator f stem = true.
Proof.
  induction stem as [| c stem IH]; cbn [Str.all_chars]; [destruct f; reflexivity |].
  intros H. apply andb_true_iff in H as [Hc H]. apply Ascii.eqb_eq in Hc. subst c.
  change (String "." stem) with ("." ++ stem).
  rewrite no_separator_append, (IH H). destruct f; reflexivity.
Qed.

(** Over a run of dots the loop of [_splitext] finds no file name. *)
Lemma skip_dots_run (stem a rest : string) (dotIndex : Z) :
  Str.all_chars Str.is_dot stem = true ->
  skip_leading_dots (a ++ stem ++ rest) "." dotIndex (Z.of_nat (String.length a))
    (String.length stem)
  = (a ++ stem ++ rest, "").
Proof.
  revert a. induction stem as [| c stem IH]; intros a; cbn [Str.all_chars].
  - intros _. cbn [skip_leading_dots String.length]. unfold Str.slice_to. simpl.
    destruct (a ++ rest); reflexivity.
  - intros H. apply andb_true_iff in H as [Hc H]. apply Ascii.eqb_eq in Hc. subst c.
    cbn [skip_leading_dots String.length append].
    rewrite char_at_append, String.eqb_refl. cbn [negb].
    replace (Z.of_nat (String.length a) + 1)%Z
      with (Z.of_nat (String.length (a ++ "."))) by (rewrite length_append; simpl; lia).
    replace (a ++ String "." (stem ++ rest)) with ((a ++ ".") ++ stem ++ rest)
      by (rewrite append_assoc; reflexivity).
    apply IH. exact H.
Qed.

(** A file name that is dots up to its last dot has no extension. *)
Lemma splitext_dots (f : flavour) (dir stem e : string) :
  directory_prefix f dir ->
  Str.all_chars Str.is_dot stem = true ->
  Str.contains "." e = false ->
  no_separator f e = true ->
  splitext f (dir ++ stem ++ String "." e) = (dir ++ stem ++ String "." e, "").
Proof.
  intros Hdir Hstem He Hs.
  set (p := dir ++ stem ++ String "." e).
  assert (Hdot : Str.rfind "." p = Z.of_nat (String.length dir + String.length stem)).
  { unfold p. rewrite <- append_assoc, rfind_last_index, (last_index_at "." _ e He).
    rewrite length_append. reflexivity. }
  assert (Hsep : sep_index f p = Z.of_nat (String.length dir) - 1).
  { unfold p. rewrite sep_index_append_clean; [apply sep_index_directory; exact Hdir |].
    rewrite no_separator_append, (dots_no_separator f stem Hstem).
    change (String "." e) with ("." ++ e). rewrite no_separator_append, Hs.
    destruct f; reflexivity. }
  rewrite splitext_unfold. fold p. rewrite Hdot, Hsep.
  assert (Hlt : (Z.of_nat (String.length dir) - 1
                 <? Z.of_nat (String.length dir + String.length stem))%Z = true)
    by (apply Z.ltb_lt; lia).
  rewrite Hlt.
  replace (Z.of_nat (String.length dir) - 1 + 1)%Z with (Z.of_nat (String.length dir)) by lia.
  replace (Z.to_nat (Z.of_nat (String.length dir + String.length stem)
                     - Z.of_nat (String.length dir)))
    with (String.length stem) by lia.
  unfold p. apply skip_dots_run. exact Hstem.
Qed.

(** A file name is cut at its last dot, when it has one. *)
Lemma cut_at_last_dot (name : string) :
  Str.contains "." name = false
  \/ exists stem e, name = stem ++ String "." e /\ Str.contains "." e = false.
Proof.
  destruct (last_index "." name) as [k |] eqn:Hk.
  - right. apply last_index_some in Hk as (Hd & Hc & _).
    exists (Str.take k name), (Str.drop (S k) name). split; [| exact Hc].
    rewrite <- Hd. symmetry. apply take_drop.
  - left. apply last_index_none. exact Hk.
Qed.

(** The two parts of a file name after a directory prefix. *)
Lemma splitext_beside (f : flavour) (dir name : string) :
  directory_prefix f dir ->
  no_separator f name = true ->
  splitext f (dir ++ name) = (dir ++ fst (splitext f name), snd (splitext f name)).
Proof.
  intros Hdir Hname.
  assert (Hempty : directory_prefix f "") by (left; reflexivity).
  destruct (cut_at_last_dot name) as [Hnone | (stem & e & -> & He)].
  - rewrite (splitext_no_dot f dir name Hdir Hnone Hname).
    pose proof (splitext_no_dot f "" name Hempty Hnone Hname) as H0.
    cbn [append] in H0. rewrite H0. reflexivity.
  - rewrite no_separator_append in Hname. apply andb_true_iff in Hname as [Hs1 Hs2].
    change (String "." e) with ("." ++ e) in Hs2.
    rewrite no_separator_append in Hs2. apply andb_true_iff in Hs2 as [_ Hs2].
    destruct (Str.all_chars Str.is_dot stem) eqn:Hstem.
    + rewrite (splitext_dots f dir stem e Hdir Hstem He Hs2).
      pose proof (splitext_dots f "" stem e Hempty Hstem He Hs2) as H0.
      cbn [append] in H0. rewrite H0. reflexivity.
    + rewrite (splitext_complete f dir stem e Hstem Hs1 He Hs2).
      pose proof (splitext_complete f "" stem e Hstem Hs1 He Hs2) as H0.
      cbn [append] in H0. rewrite H0. reflexivity.
Qed.

(** X22. The output file is created beside the input file: for a file
    name after a directory prefix, the output path is the same prefix
    followed by the output name of the file name. *)
Theorem output_is_beside_input (f : flavour) (dir name : string) :
  dir = "" \/ (exists d0 s, dir = d0 ++ String s "" /\ is_separator f s) ->
  no_separator f name = true ->
  output_path f (dir ++ name) = dir ++ output_path f name.
Proof.
  intros Hdir Hname. unfold output_path.
  rewrite (splitext_beside f dir name Hdir Hname).
  destruct (splitext f name) as [root ext]. simpl.
  rewrite append_assoc. reflexivity.
Qed.

Lemma output_is_beside_input_witness :
  output_path Nt "D:\in\a.mkv" = "D:\in\" ++ output_path Nt "a.mkv".
Proof.
  apply (output_is_beside_input Nt "D:\in\" "a.mkv"); [| reflexivity].
  right. exists "D:\in", "\"%char. split; [reflexivity | left; reflexivity].
Defined.

Lemma same_letters_length (a b : string) :
  same_letters a b = true -> String.length a = String.length b.
Proof.
  revert b. induction a as [| x a IH]; intros [| y b]; cbn [same_letters String.length];
    try discriminate; [reflexivity |].
  intros H. apply andb_true_iff in H as [_ H]. rewrite (IH b H). reflexivity.
Qed.

(** X23. A file name that is made of dots up to its last dot has no
    extension for [os.path.splitext], so [_1] goes to its very end: the
    entry [.mkv] of a folder is processed, and its output is [.mkv_1]. *)
Theorem dot_only_stem_gets_suffix_at_end (f : flavour) (dir stem e : string) :
  dir = "" \/ (exists d0 s, dir = d0 ++ String s "" /\ is_separator f s) ->
  Str.all_chars Str.is_dot stem = true ->
  Str.contains "." e = false ->
  no_separator f e = true ->
  output_path f (dir ++ stem ++ "." ++ e) = dir ++ stem ++ "." ++ e ++ "_1"
  /\ (same_letters e "mkv" = true -> ends_with_ci (stem ++ "." ++ e) ".mkv" = true).
Proof.
  intros Hdir Hstem He Hs. split.
  - unfold output_path. change ("." ++ e) with (String "." e).
    rewrite (splitext_dots f dir stem e Hdir Hstem He Hs).
    rewrite !append_assoc, append_nil_r. reflexivity.
  - intros Hmkv. unfold ends_with_ci.
    pose proof (same_letters_length e "mkv" Hmkv) as Hlen. cbn [String.length] in Hlen.
    rewrite length_append. cbn [append String.length]. rewrite Hlen.
    replace (String.length stem + 4 - 4)%nat with (String.length stem) by lia.
    rewrite drop_append. cbn [same_letters]. rewrite Hmkv.
    replace (4 <=? String.length stem + 4)%nat with true
      by (symmetry; apply Nat.leb_le; lia).
    reflexivity.
Qed.

Lemma dot_only_stem_gets_suffix_at_end_witness :
  output_path Nt "D:\in\.mkv" = "D:\in\.mkv_1"
  /\ ends_with_ci ".mkv" ".mkv" = true.
Proof.
  destruct (dot_only_stem_gets_suffix_at_end Nt "D:\in\" "" "mkv") as [Hout Hentry];
    try reflexivity.
  - right. exists "D:\in", "\"%char. split; [reflexivity | left; reflexivity].
  - split; [exact Hout | exact (Hentry eq_refl)].
Defined.

(** X24. The output of an entry that ends with [.mkv] after a stem that
    is not made of dots alone ends with [.mkv] again, in the letters of the
    input: a later run over the same folder processes the generated files
    too. *)
Theorem output_is_again_an_mkv_entry (f : flavour) (dir stem e : string) :
  Str.all_chars Str.is_dot stem = false ->
  no_separator f stem = true ->
  no_separator f e = true ->
  same_letters e "mkv" = true ->
  output_path f (dir ++ stem ++ "." ++ e) = dir ++ stem ++ "_1" ++ "." ++ e
  /\ ends_with_ci (output_path f (dir ++ stem ++ "." ++ e)) ".mkv" = true.
Proof.
  intros Hstem Hs1 Hs2 Hmkv.
  pose proof (same_letters_length e "mkv" Hmkv) as Hlen. cbn [String.length] in Hlen.
  assert (He : Str.contains "." e = false).
  { destruct e as [| a [| b [| c [| d e]]]]; try discriminate Hlen.
    cbn [same_letters] in Hmkv.
    apply andb_true_iff in Hmkv as [Ha Hmkv]. apply andb_true_iff in Hmkv as [Hb Hmkv].
    apply andb_true_iff in Hmkv as [Hc _].
    cbn [Str.contains]. rewrite !orb_false_r.
    destruct (Ascii.eqb a ".") eqn:Ea; [apply Ascii.eqb_eq in Ea; subst a; discriminate Ha |].
    destruct (Ascii.eqb b ".") eqn:Eb; [apply Ascii.eqb_eq in Eb; subst b; discriminate Hb |].
    destruct (Ascii.eqb c ".") eqn:Ec; [apply Ascii.eqb_eq in Ec; subst c; discriminate Hc |].
    reflexivity. }
  assert (Hout : output_path f (dir ++ stem ++ "." ++ e) = dir ++ stem ++ "_1" ++ "." ++ e).
  { unfold output_path. change ("." ++ e) with (String "." e).
    rewrite (splitext_complete f dir stem e Hstem Hs1 He Hs2).
    rewrite !append_assoc. reflexivity. }
  split; [exact Hout |]. rewrite Hout. unfold ends_with_ci.
  replace (dir ++ stem ++ "_1" ++ "." ++ e) with ((dir ++ stem ++ "_1") ++ String "." e)
    by (rewrite !append_assoc; reflexivity).
  rewrite length_append. cbn [String.length]. rewrite Hlen.
  replace (String.length (dir ++ stem ++ "_1") + 4 - 4)%nat
    with (String.length (dir ++ stem ++ "_1")) by lia.
  rewrite drop_append. cbn [same_letters]. rewrite Hmkv.
  replace (4 <=? String.length (dir ++ stem ++ "_1") + 4)%nat with true
    by (symmetry; apply Nat.leb_le; lia).
  reflexivity.
Qed.

Lemma output_is_again_an_mkv_entry_witness :
  output_path Nt "D:\in\a.MKV" = "D:\in\a_1.MKV"
  /\ ends_with_ci (output_path Nt "D:\in\a.MKV") ".mkv" = true.
Proof.
  apply (output_is_again_an_mkv_entry Nt "D:\in\" "a" "MKV"); reflexivity.
Defined.

(** *** Different inputs, different outputs *)

Lemma append_inj_r (a b c : string) : a ++ c = b ++ c -> a = b.
Proof.
  intros H.
  assert (Hlen : String.length a = String.length b).
  { apply (f_equal String.length) in H. rewrite !length_append in H. lia. }
  rewrite <- (take_append a c), H, Hlen. apply take_append.
Qed.

Lemma append_overlap (a u b t : string) :
  a ++ u = b ++ t ->
  (exists m, a = b ++ m /\ t = m ++ u) \/ (exists m, b = a ++ m /\ u = m ++ t).
Proof.
  revert b. induction a as [| x a IH]; intros b H.
  - right. exists b. auto.
  - destruct b as [| y b].
    + left. exists (String x a). auto.
    + simpl in H. injection H as -> H.
      destruct (IH b H) as [(m & -> & ->) | (m & -> & ->)]; [left | right]; exists m; auto.
Qed.

Lemma same_cut_at_last_dot (a e a' e' : string) :
  Str.contains "." e = false ->
  Str.contains "." e' = false ->
  a ++ String "." e = a' ++ String "." e' ->
  a = a' /\ e = e'.
Proof.
  intros He He' H.
  pose proof (last_index_at "." a e He) as Hk. rewrite H, (last_index_at "." a' e' He') in Hk.
  injection Hk as Hlen.
  assert (Ha : a = a').
  { rewrite <- (take_append a (String "." e)), H, <- Hlen. apply take_append. }
  subst a'. split; [reflexivity |].
  pose proof (f_equal (Str.drop (String.length a)) H) as Hd.
  rewrite !drop_append in Hd. injection Hd as ->. reflexivity.
Qed.

(** Where the output path gets its [_1]. *)
Lemma output_path_cut (f : flavour) (p : string) :
  (splitext f p = (p, "") /\ output_path f p = p ++ "_1")
  \/ exists root e,
       p = root ++ String "." e
       /\ Str.contains "." e = false /\ no_separator f e = true
       /\ output_path f p = (root ++ "_1") ++ String "." e.
Proof.
  pose proof (splitext_append f p) as Happ. unfold output_path.
  destruct (splitext_sound f p) as [H | (e & H & He & Hs)]; rewrite H in *; simpl in Happ.
  - left. split; [reflexivity |]. rewrite append_nil_r. reflexivity.
  - right. eexists _, e. split; [symmetry; exact Happ |]. repeat split; auto.
    rewrite append_assoc. reflexivity.
Qed.

(** A path without extension and a path with one do not meet. *)
Lemma outputs_apart (f : flavour) (p root e : string) :
  splitext f p = (p, "") ->
  Str.contains "." e = false ->
  no_separator f e = true ->
  p ++ "_1" <> (root ++ "_1") ++ String "." e.
Proof.
  intros Hp He Hs H.
  destruct (append_overlap p "_1" (root ++ "_1") (String "." e) H)
    as [(m & Hpm & Hm) | (m & _ & Hm)].
  - destruct m as [| c m]; [discriminate Hm |].
    simpl in Hm. injection Hm as <- ->.
    rewrite contains_append in He. apply orb_false_iff in He as [He _].
    rewrite no_separator_append in Hs. apply andb_true_iff in Hs as [Hs _].
    assert (Hcut : splitext f p = (root ++ "_1", String "." m)).
    { rewrite Hpm, append_assoc. apply (splitext_complete f root "_1" m); auto.
      destruct f; reflexivity. }
    rewrite Hp in Hcut. discriminate Hcut.
  - destruct m as [| c1 [| c2 [| c3 m]]]; discriminate Hm.
Qed.

(** X25. Different input paths have different output paths: two files
    of a run are never remuxed into the same file. *)
Theorem different_inputs_different_outputs (f : flavour) (p q : string) :
  p <> q -> output_path f p <> output_path f q.
Proof.
  intros Hne Heq. apply Hne.
  destruct (output_path_cut f p) as [(Hp & Hop) | (rp & ep & Hp & Hep & Hsp & Hop)];
    destruct (output_path_cut f q) as [(Hq & Hoq) | (rq & eq & Hq & Heq' & Hsq & Hoq)];
    rewrite Hop, Hoq in Heq.
  - apply (append_inj_r p q "_1"). exact Heq.
  - contradiction (outputs_apart f p rq eq Hp Heq' Hsq Heq).
  - symmetry in Heq. contradiction (outputs_apart f q rp ep Hq Hep Hsp Heq).
  - destruct (same_cut_at_last_dot _ _ _ _ Hep Heq' Heq) as [Hr ->].
    apply append_inj_r in Hr. subst. reflexivity.
Qed.

Lemma different_inputs_different_outputs_witness :
  output_path Nt "D:\in\a.mkv" <> output_path Nt "D:\in\a_1.mkv".
Proof.
  apply (different_inputs_different_outputs Nt "D:\in\a.mkv" "D:\in\a_1.mkv").
  discriminate.
Defined.
